(** * Createrington currency backend: a shallow embedding of the ledger routes

    The development follows the TypeScript sources:

    - [src/app/middleware/verifyIP.ts]  (origin gate, and the bearer gate
      [verifyJWT] that is stored next to it),
    - [src/app/utils/currency/logTransactions.ts]  (audit-log append),
    - [src/app/routes/currencyMod.ts]  (the router and its handlers).

    Conventions of the model.

    - JavaScript numbers that carry money, counts and epoch milliseconds are
      integers of [Z]; fractional amounts are outside the model.
    - A body field read with [typeof x !== "number"] is an [option Z]
      ([None]: absent or not a number); a field tested for truthiness is an
      [option string] ([None] or the empty string are falsy).
    - The PostgreSQL store is a record of finite maps keyed by uuid.  A
      pooled client is the store plus the working copy of the transaction
      it has open, if any.  Row locks ([FOR UPDATE]) serialise requests on
      one row, so a handler runs from its first statement to its last
      without interleaving; the properties take the client as checked out
      with no transaction in progress.
    - Exceptions are the [Throw] result of a small state-and-error monad;
      [try_catch] is the handlers' [try { } catch (error) { }].  A thrown
      value keeps its [name] and its [message]: the catch blocks log
      [`${error}`], which prints both, and answer with the message.
    - [req.body] is the object parsed by [express.json()], or [undefined]
      when the request carried no JSON; destructuring [undefined] throws.
    - The router has Express' default options: a route matches its path
      in any letter case and with one optional trailing slash, and an
      error that escapes a handler is answered by the framework with 500.
    - luxon, jsonwebtoken and the clock are outside the repository: the
      calendar operations and the token functions are fields of a
      [Platform] record; [cet_platform] is a concrete one (fixed UTC+1). *)

From Stdlib Require Import ZArith Lia Ascii String List Bool.
From stdpp Require Import base option strings gmap list sorting.

Local Open Scope string_scope.
Local Open Scope Z_scope.

(** ** JavaScript string primitives used by the middleware *)

Module JS.

(** [s.replace(pat, rep)] with a string pattern: only the first
    occurrence is replaced. *)
Fixpoint replace (pat rep s : string) : string :=
  if String.prefix pat s
  then rep +:+ String.substring (String.length pat)
                                (String.length s - String.length pat) s
  else match s with
       | EmptyString => EmptyString
       | String c s' => String c (replace pat rep s')
       end.

(** [s.split(sep)] for a one-character separator; the result is never
    empty: it is the head piece and the list of the following ones. *)
Fixpoint split_aux (sep : ascii) (s : string) : string * list string :=
  match s with
  | EmptyString => (EmptyString, [])
  | String c s' =>
      let '(piece, pieces) := split_aux sep s' in
      if Ascii.eqb c sep then (EmptyString, piece :: pieces)
      else (String c piece, pieces)
  end.

Definition split (sep : ascii) (s : string) : list string :=
  let '(piece, pieces) := split_aux sep s in piece :: pieces.

(** [arr[0]] on the result of a split. *)
Definition first (sep : ascii) (s : string) : string :=
  fst (split_aux sep s).

(** WhiteSpace and LineTerminator code points below 256. *)
Definition is_space (c : ascii) : bool :=
  let n := nat_of_ascii c in
  ((9 <=? n)%nat && (n <=? 13)%nat) || (n =? 32)%nat || (n =? 160)%nat.

Fixpoint trim_start (s : string) : string :=
  match s with
  | EmptyString => EmptyString
  | String c s' => if is_space c then trim_start s' else s
  end.

(** Dropping trailing blanks: a piece is kept when something that is not
    blank follows or it is itself not blank. *)
Fixpoint trim_end (s : string) : string :=
  match s with
  | EmptyString => EmptyString
  | String c s' =>
      match trim_end s' with
      | EmptyString => if is_space c then EmptyString else String c EmptyString
      | t => String c t
      end
  end.

Definition trim (s : string) : string := trim_end (trim_start s).

(** Truthiness of [string | undefined]: [undefined] and [""] are falsy. *)
Definition truthy (o : option string) : option string :=
  match o with
  | Some s => if String.eqb s "" then None else Some s
  | None => None
  end.

(** [a ?? b]: the right operand only replaces [undefined]/[null]. *)
Definition nullish {A} (a b : option A) : option A :=
  match a with Some x => Some x | None => b end.

(** [arr.includes(x)] on strings. *)
Definition includes (arr : list string) (x : string) : bool :=
  existsb (String.eqb x) arr.

End JS.


(** ** Data model (the tables of [src/app/routes/currencyMod.ts]) *)

(** A row of [user_funds], keyed by its uuid. *)
Record Account := mkAccount { name : string; balance : Z }.

(** [interface TransactionData] of [logTransactions.ts]; the optional
    fields default to [null]. *)
Record TransactionData := mkTx {
  uuid : string;
  action : string;
  amount : Z;
  from_uuid : option string;
  to_uuid : option string;
  denomination : option Z;
  count : option Z;
  balance_after : option Z
}.

(** The persisted schema: [user_funds], [daily_rewards] (the column
    [last_claim_at] may hold [null]), [mob_limit_reached] and the
    append-only [currency_transactions]. *)
Record Db := mkDb {
  user_funds : gmap string Account;
  daily_rewards : gmap string (option Z);
  mob_limit_reached : gmap string Z;
  currency_transactions : list TransactionData
}.

Inductive Level := error | warn | info.

(** What a handler can see and change: the committed store, the
    transaction open on the client it checked out ([Some w]: [BEGIN] was
    sent and neither [COMMIT] nor [ROLLBACK] yet, [w] is the working copy),
    the lines written through [logger], the clock, and the message of the
    error, if any, with which the database server refuses an
    [INSERT INTO currency_transactions]. *)
Record World := mkWorld {
  store : Db;
  txn : option Db;
  logged : list (Level * string);
  clock : Z;
  insert_fault : option string
}.

(** ** Responses *)

Inductive Json :=
| ErrorBody (msg : string)
| TokenBody (token : string)
| BalanceBody (bal : Z)
| PayBody (new_sender_balance : Z)
| DepositBody (new_balance : Z)
| WithdrawBody (withdrawn new_balance denom cnt : Z)
| TopBody (rows : list (string * Z))
| MobMarkedBody
| MobLimitBody (limitReached : bool)
| DailyBody (new_balance : Z)
| RateLimitedBody (hours minutes : Z)
| HtmlPage.

(** [res.status(n).json(b)]; [res.json(b)] alone answers 200.  The body of
    the 429 answer keeps the two numbers that the message interpolates,
    the body of a daily claim keeps [new_balance].  [HtmlPage] is the page
    that Express writes by itself, when no route matched and when a
    handler threw. *)
Record Response := mkResponse { status : Z; body : Json }.

Definition json (b : Json) : Response := mkResponse 200 b.

(** ** A state-and-error monad for the handlers *)

(** A thrown value: [error.name] and [error.message]. *)
Record JsError := mkError { error_name : string; error_message : string }.

(** [new Error(message)] *)
Definition new_Error (message : string) : JsError := mkError "Error" message.

(** What the runtime throws on [const { a } = undefined] and on
    [undefined.a]. *)
Definition TypeError (message : string) : JsError := mkError "TypeError" message.

(** What [pg] rejects a query with: the [DatabaseError] of pg-protocol,
    whose [name] is the severity reported by the server, ["error"]. *)
Definition DatabaseError (message : string) : JsError := mkError "error" message.

(** [`${error}`], that is [Error.prototype.toString]. *)
Definition error_text (e : JsError) : string :=
  if String.eqb (error_name e) "" then error_message e
  else if String.eqb (error_message e) "" then error_name e
  else error_name e +:+ ": " +:+ error_message e.

Inductive Result (A : Type) :=
| Ok (a : A)
| Throw (e : JsError).
Arguments Ok {A} a.
Arguments Throw {A} e.

Definition M (A : Type) : Type := World -> Result A * World.

Definition ret {A} (a : A) : M A := fun w => (Ok a, w).

Definition bind {A B} (m : M A) (k : A -> M B) : M B :=
  fun w => match m w with
           | (Ok a, w') => k a w'
           | (Throw e, w') => (Throw e, w')
           end.

Definition raise {A} (e : JsError) : M A := fun w => (Throw e, w).

(** [throw new Error(message)] *)
Definition throw {A} (message : string) : M A := raise (new_Error message).

(** [try { body } catch (error) { handler }] *)
Definition try_catch {A} (body : M A) (handler : JsError -> M A) : M A :=
  fun w => match body w with
           | (Ok a, w') => (Ok a, w')
           | (Throw e, w') => handler e w'
           end.

Notation "'let*' x ':=' m 'in' k" := (bind m (fun x => k))
  (at level 10, x name, m at level 100, k at level 200).
Notation "m '>>>' k" := (bind m (fun _ => k))
  (at level 90, right associativity).

(** [logger.error], [logger.warn], [logger.info] *)
Definition logger (l : Level) (line : string) : M unit :=
  fun w => (Ok tt, mkWorld (store w) (txn w) (logged w ++ [(l, line)])
                           (clock w) (insert_fault w)).

(** [DateTime.now()] *)
Definition DateTime_now : M Z := fun w => (Ok (clock w), w).

(** *** Statements on the checked-out client *)

(** [client.query("BEGIN")]: inside a transaction PostgreSQL only warns. *)
Definition BEGIN : M unit :=
  fun w => (Ok tt, match txn w with
                   | Some _ => w
                   | None => mkWorld (store w) (Some (store w)) (logged w)
                                     (clock w) (insert_fault w)
                   end).

(** [client.query("COMMIT")] *)
Definition COMMIT : M unit :=
  fun w => (Ok tt, match txn w with
                   | Some d => mkWorld d None (logged w) (clock w) (insert_fault w)
                   | None => w
                   end).

(** [client.query("ROLLBACK")] *)
Definition ROLLBACK : M unit :=
  fun w => (Ok tt, mkWorld (store w) None (logged w) (clock w) (insert_fault w)).

(** A data statement sent on the client: it runs on the working copy of
    the open transaction, or commits at once when there is none. *)
Definition client_query {A} (q : Db -> A * Db) : M A :=
  fun w => match txn w with
           | Some d => let '(a, d') := q d in
                       (Ok a, mkWorld (store w) (Some d') (logged w)
                                      (clock w) (insert_fault w))
           | None => let '(a, d') := q (store w) in
                     (Ok a, mkWorld d' None (logged w) (clock w) (insert_fault w))
           end.

(** [db.query(...)] on the pool: a statement of its own, outside the
    transaction of the checked-out client. *)
Definition db_query {A} (q : Db -> A * Db) : M A :=
  fun w => let '(a, d') := q (store w) in
           (Ok a, mkWorld d' (txn w) (logged w) (clock w) (insert_fault w)).

(** *** The SQL statements of the routes *)

Module SQL.

(** [SELECT balance FROM user_funds WHERE uuid = $1] (with or without
    [FOR UPDATE] / [LIMIT 1]): the rows, at most one. *)
Definition select_balance (id : string) (d : Db) : list Z * Db :=
  (match user_funds d !! id with Some a => [balance a] | None => [] end, d).

Definition set_funds (f : gmap string Account) (d : Db) : Db :=
  mkDb f (daily_rewards d) (mob_limit_reached d) (currency_transactions d).

(** [UPDATE user_funds SET balance = balance + $1 WHERE uuid = $2
    RETURNING balance]: the returned rows; [rowCount] is their number. *)
Definition update_balance (delta : Z) (id : string) (d : Db) : list Z * Db :=
  match user_funds d !! id with
  | Some a =>
      ([balance a + delta],
       set_funds (<[id := mkAccount (name a) (balance a + delta)]> (user_funds d)) d)
  | None => ([], d)
  end.

(** [INSERT INTO user_funds (uuid, name, balance) VALUES ($1, $2, 0)
    ON CONFLICT (uuid) DO UPDATE SET name = EXCLUDED.name] *)
Definition upsert_user (id nm : string) (d : Db) : unit * Db :=
  (tt, set_funds (<[id := mkAccount nm (match user_funds d !! id with
                                        | Some a => balance a
                                        | None => 0
                                        end)]> (user_funds d)) d).

(** [SELECT last_claim_at FROM daily_rewards WHERE uuid = $1 FOR UPDATE] *)
Definition select_last_claim (id : string) (d : Db) : list (option Z) * Db :=
  (match daily_rewards d !! id with Some c => [c] | None => [] end, d).

(** [INSERT INTO daily_rewards (uuid, last_claim_at) VALUES ($1, $2)
    ON CONFLICT (uuid) DO UPDATE SET last_claim_at = EXCLUDED.last_claim_at] *)
Definition upsert_claim (id : string) (at_ : Z) (d : Db) : unit * Db :=
  (tt, mkDb (user_funds d) (<[id := Some at_]> (daily_rewards d))
            (mob_limit_reached d) (currency_transactions d)).

(** [CURRENT_DATE], as a day number (server in UTC). *)
Definition current_date (t : Z) : Z := t / 86400000.

(** [INSERT INTO mob_limit_reached (uuid, date_reached)
    VALUES ($1, CURRENT_DATE) ON CONFLICT (uuid) DO UPDATE ...] *)
Definition upsert_mob_limit (id : string) (today : Z) (d : Db) : unit * Db :=
  (tt, mkDb (user_funds d) (daily_rewards d)
            (<[id := today]> (mob_limit_reached d)) (currency_transactions d)).

(** [SELECT 1 FROM mob_limit_reached WHERE uuid = $1
    AND date_reached = CURRENT_DATE LIMIT 1]: the row count. *)
Definition select_mob_limit (id : string) (today : Z) (d : Db) : Z * Db :=
  (match mob_limit_reached d !! id with
   | Some day => if day =? today then 1 else 0
   | None => 0
   end, d).

(** [INSERT INTO currency_transactions (...) VALUES ($1, ..., $8)] *)
Definition insert_transaction (t : TransactionData) (d : Db) : unit * Db :=
  (tt, mkDb (user_funds d) (daily_rewards d) (mob_limit_reached d)
            (currency_transactions d ++ [t])).

(** One row of the leaderboard comes before another when its balance is
    not smaller. *)
Definition richer (r1 r2 : string * Account) : Prop :=
  balance r2.2 <= balance r1.2.

#[global] Instance richer_dec : RelDecision richer.
Proof. intros r1 r2. unfold richer. apply _. Defined.

(** [SELECT name, balance FROM user_funds ORDER BY balance DESC LIMIT 10] *)
Definition select_top (d : Db) : list (string * Z) * Db :=
  ((fun r : string * Account => (name r.2, balance r.2)) <$>
     take 10 (merge_sort richer (map_to_list (user_funds d))), d).

End SQL.

(** ** The platform outside the repository *)

(** The payload that [/currency/login] signs and [verifyJWT] decodes. *)
Record JwtPayload := mkPayload { jwt_uuid : string; jwt_name : string }.

(** jsonwebtoken and luxon.  [jwt_verify token secret] is [None] when
    [jwt.verify] throws.  [set_time h m t] is
    [t.set({hour: h, minute: m, second: 0, millisecond: 0})] and
    [plus_days n t] is [t.plus({days: n})] ([minus] adds the negation),
    both in the zone ["Europe/Berlin"], on epoch milliseconds. *)
Record Platform := mkPlatform {
  jwt_sign : JwtPayload -> string -> string;
  jwt_verify : string -> string -> option JwtPayload;
  set_time : Z -> Z -> Z -> Z;
  plus_days : Z -> Z -> Z
}.

(** [process.env] as far as the routes read it. *)
Record Env := mkEnv {
  JWT_SECRET : option string;
  ALLOWED_IP_ADDRESS : option string;
  ALLOWED_IP_ADDRESS_LOCAL : option string
}.

(** ** Requests *)

Inductive Method := GET | POST.

Definition Method_eqb (a b : Method) : bool :=
  match a, b with GET, GET | POST, POST => true | _, _ => false end.

(** The object that [express.json()] parsed from the request, by the
    fields that the handlers read. *)
Record Fields := mkFields {
  field_uuid : option string;
  field_name : option string;
  field_to_uuid : option string;
  field_amount : option Z;
  field_count : option Z;
  field_denomination : option Z
}.

(** [req.body]: the parsed object, or [undefined] ([None]) when the
    request carried no JSON for [express.json()] to parse. *)
Definition Body : Type := option Fields.

Definition mkBody (uuid name to_uuid : option string)
    (amount count denomination : option Z) : Body :=
  Some (mkFields uuid name to_uuid amount count denomination).

Definition no_body : Body := None.

(** A field of the body, when there is a body and it has the field. *)
Definition body_uuid (b : Body) : option string :=
  match b with Some fields => field_uuid fields | None => None end.
Definition body_name (b : Body) : option string :=
  match b with Some fields => field_name fields | None => None end.
Definition body_to_uuid (b : Body) : option string :=
  match b with Some fields => field_to_uuid fields | None => None end.
Definition body_amount (b : Body) : option Z :=
  match b with Some fields => field_amount fields | None => None end.
Definition body_count (b : Body) : option Z :=
  match b with Some fields => field_count fields | None => None end.
Definition body_denomination (b : Body) : option Z :=
  match b with Some fields => field_denomination fields | None => None end.

(** [headers.authorization], [headers["x-forwarded-for"]],
    [socket.remoteAddress], and [req.user] that [verifyJWT] attaches. *)
Record Request := mkRequest {
  method : Method;
  path : string;
  authorization : option string;
  x_forwarded_for : option string;
  remoteAddress : option string;
  req_body : Body;
  user : option JwtPayload
}.

(** [req.user = decoded] *)
Definition set_user (req : Request) (decoded : JwtPayload) : Request :=
  mkRequest (method req) (path req) (authorization req) (x_forwarded_for req)
            (remoteAddress req) (req_body req) (Some decoded).

(** A middleware either calls [next()] or answers. *)
Inductive Step :=
| Next (req : Request)
| Respond (res : Response).

(** [const { ... } = req.body]: a [TypeError] when [req.body] is
    [undefined]. *)
Definition destructure (b : Body) : M Fields :=
  match b with
  | Some fields => ret fields
  | None => raise (TypeError "Cannot destructure property of 'req.body' as it is undefined.")
  end.

(** ** src/app/utils/currency/logTransactions.ts *)

Definition logTransactions (data : TransactionData) : M unit :=
  fun w => match insert_fault w with
           | Some e => raise (DatabaseError e) w
           | None => db_query (SQL.insert_transaction data) w
           end.

(** ** src/app/middleware/verifyIP.ts *)

Section Middleware.
Context (P : Platform) (env : Env).

(** [(rawIp || "").replace("::ffff:", "").split(",")[0].trim()] *)
Definition normalizedIp (rawIp : option string) : string :=
  JS.trim (JS.first "," (JS.replace "::ffff:" "" (default "" (JS.truthy rawIp)))).

(** [[allowedIp, allowedIpLocal].filter(Boolean)] *)
Definition allowed : list string :=
  omap JS.truthy [ALLOWED_IP_ADDRESS env; ALLOWED_IP_ADDRESS_LOCAL env].

Definition verifyIP (req : Request) : M Step :=
  let rawIp := JS.nullish (x_forwarded_for req) (remoteAddress req) in
  let ip := normalizedIp rawIp in
  if JS.includes allowed ip then ret (Next req)
  else
    logger warn ("Blocked request from IP: " +:+ ip) >>>
    ret (Respond (mkResponse 403 (ErrorBody "Forbidden: Your IP is not allowed."))).

(** [verifyJWT]: the bearer gate. *)
Definition verifyJWT (req : Request) : M Step :=
  match JS.truthy (authorization req) with
  | None => ret (Respond (mkResponse 401 (ErrorBody "Missing Authorization header")))
  | Some authHeader =>
      match JS.truthy (JS.split " " authHeader !! 1%nat) with
      | None => ret (Respond (mkResponse 401 (ErrorBody "Invalid Authorization format")))
      | Some token =>
          try_catch
            (match JS.truthy (JWT_SECRET env) with
             | None => throw "JWT_SECRET not set in environment"
             | Some secret =>
                 match jwt_verify P token secret with
                 | None => throw "invalid token"
                 | Some decoded => ret (Next (set_user req decoded))
                 end
             end)
            (fun _ => ret (Respond (mkResponse 403 (ErrorBody "Invalid or expired token"))))
      end
  end.

End Middleware.

(** ** src/app/routes/currencyMod.ts *)

(** [later.diff(earlier, ["hours", "minutes"]).toObject()] followed by
    [Math.floor] on both fields: luxon shifts the millisecond difference
    to whole hours (rounded towards zero) and leaves the rest, as
    fractional minutes, to the caller's floor. *)
Definition diff_hours_minutes (later earlier : Z) : Z * Z :=
  let millis := later - earlier in
  let hours := Z.quot millis 3600000 in
  (hours, (millis - hours * 3600000) / 60000).

Definition DAILY_REWARD_AMOUNT : Z := 50.

Section Routes.
Context (P : Platform) (env : Env).

(** [req.user?.uuid], tested with [!uuid]. *)
Definition user_uuid (req : Request) : option string :=
  JS.truthy (jwt_uuid <$> user req).

Definition bad_request (msg : string) : M Response :=
  ret (mkResponse 400 (ErrorBody msg)).

(** POST /currency/login *)
Definition login (req : Request) : M Response :=
  let* fields := destructure (req_body req) in
  match JS.truthy (field_uuid fields), JS.truthy (field_name fields) with
  | Some uuid, Some name =>
      try_catch
        (db_query (SQL.upsert_user uuid name) >>>
         match JS.truthy (JWT_SECRET env) with
         | None => throw "JWT_SECRET is not defined"
         | Some secret =>
             ret (json (TokenBody (jwt_sign P (mkPayload uuid name) secret)))
         end)
        (fun e =>
           logger error ("/currency/login error: " +:+ error_text e) >>>
           ret (mkResponse 500 (ErrorBody "Internal server error")))
  | _, _ => bad_request "Missing uuid or name"
  end.

(** GET /currency/balance *)
Definition get_balance (req : Request) : M Response :=
  match user_uuid req with
  | None => bad_request "Missing uuid"
  | Some uuid =>
      let* rows := db_query (SQL.select_balance uuid) in
      match rows with
      | [] => ret (mkResponse 404 (ErrorBody "Player not found"))
      | balance :: _ => ret (json (BalanceBody balance))
      end
  end.

(** POST /currency/pay *)
Definition pay (req : Request) : M Response :=
  let* fields := destructure (req_body req) in
  match user_uuid req, JS.truthy (field_to_uuid fields), field_amount fields with
  | Some from_uuid, Some to_uuid, Some amount =>
      if amount <=? 0 then bad_request "Amount must be positive"
      else
        try_catch
          (BEGIN >>>
           let* senderRes := client_query (SQL.select_balance from_uuid) in
           match senderRes with
           | [] => throw "Sender not found"
           | senderBalance :: _ =>
               let newSenderBal := senderBalance - amount in
               if senderBalance <? amount then throw "Insufficient funds"
               else
                 client_query (SQL.update_balance (- amount) from_uuid) >>>
                 let* recipientRes := client_query (SQL.update_balance amount to_uuid) in
                 match recipientRes with
                 | [] => throw "Recipient not found"
                 | _ :: _ =>
                     COMMIT >>>
                     logTransactions
                       (mkTx from_uuid "pay" amount (Some from_uuid) (Some to_uuid)
                             None None (Some newSenderBal)) >>>
                     ret (json (PayBody newSenderBal))
                 end
           end)
          (fun e =>
             ROLLBACK >>>
             logger error ("/currency/pay error: " +:+ error_text e) >>>
             ret (mkResponse 400 (ErrorBody (error_message e))))
  | _, _, _ => bad_request "Invalid input"
  end.

(** POST /currency/deposit *)
Definition deposit (req : Request) : M Response :=
  let* fields := destructure (req_body req) in
  match user_uuid req, field_amount fields with
  | Some uuid, Some amount =>
      if amount <=? 0 then bad_request "Invalid input"
      else
        try_catch
          (BEGIN >>>
           let* result := client_query (SQL.update_balance amount uuid) in
           match result with
           | [] => ret (mkResponse 404 (ErrorBody "User not found"))
           | newBalance :: _ =>
               COMMIT >>>
               logTransactions
                 (mkTx uuid "deposit" amount None None None None (Some newBalance)) >>>
               ret (json (DepositBody newBalance))
           end)
          (fun e =>
             ROLLBACK >>>
             logger error ("/currency/deposit error: " +:+ error_text e) >>>
             ret (mkResponse 400 (ErrorBody (error_message e))))
  | _, _ => bad_request "Invalid input"
  end.

(** POST /currency/withdraw *)
Definition withdraw (req : Request) : M Response :=
  let* fields := destructure (req_body req) in
  match user_uuid req, field_count fields with
  | Some uuid, Some count =>
      if count <=? 0 then bad_request "Invalid count or uuid"
      else
        let denom := default 1000 (field_denomination fields) in
        let amount := count * denom in
        try_catch
          (BEGIN >>>
           let* result := client_query (SQL.select_balance uuid) in
           match result with
           | [] => throw "User not found"
           | currentBalance :: _ =>
               if currentBalance <? amount then throw "Insufficient funds"
               else
                 let* updateRes := client_query (SQL.update_balance (- amount) uuid) in
                 COMMIT >>>
                 match updateRes with
                 | [] => raise (TypeError "Cannot read properties of undefined (reading 'balance')")
                 | newBalance :: _ =>
                     logTransactions
                       (mkTx uuid "withdraw" amount None None (Some denom) (Some count)
                             (Some newBalance)) >>>
                     ret (json (WithdrawBody amount newBalance denom count))
                 end
           end)
          (fun e =>
             ROLLBACK >>>
             logger error ("/currency/withdraw error: " +:+ error_text e) >>>
             ret (mkResponse 400 (ErrorBody (error_message e))))
  | _, _ => bad_request "Invalid count or uuid"
  end.

(** GET /currency/top *)
Definition top (req : Request) : M Response :=
  let* rows := db_query SQL.select_top in
  ret (json (TopBody rows)).

(** POST /currency/mob-limit *)
Definition mark_mob_limit (req : Request) : M Response :=
  match user_uuid req with
  | None => bad_request "Missing uuid"
  | Some uuid =>
      let* t := DateTime_now in
      db_query (SQL.upsert_mob_limit uuid (SQL.current_date t)) >>>
      ret (json MobMarkedBody)
  end.

(** GET /currency/mob-limit *)
Definition check_mob_limit (req : Request) : M Response :=
  match user_uuid req with
  | None => bad_request "Missing uuid"
  | Some uuid =>
      let* t := DateTime_now in
      let* rowCount := db_query (SQL.select_mob_limit uuid (SQL.current_date t)) in
      logger info "Checked limit reached" >>>
      ret (json (MobLimitBody (0 <? rowCount)))
  end.

(** [getLastReset] of the daily handler *)
Definition getLastReset (current : Z) : Z :=
  let resetTime := set_time P 6 30 current in
  if current <? resetTime then plus_days P (-1) resetTime else resetTime.

(** [alreadyClaimed]: a row exists, its [last_claim_at] is not [null]
    and is not before the last reset. *)
Definition alreadyClaimed (rewardRes : list (option Z)) (lastReset : Z) : bool :=
  match rewardRes with
  | Some lastClaim :: _ => lastReset <=? lastClaim
  | _ => false
  end.

(** POST /currency/daily *)
Definition daily (req : Request) : M Response :=
  match user_uuid req with
  | None => bad_request "Missing uuid"
  | Some uuid =>
      let* now_ := DateTime_now in
      let lastReset := getLastReset now_ in
      try_catch
        (BEGIN >>>
         let* userRes := client_query (SQL.select_balance uuid) in
         match userRes with
         | [] =>
             ROLLBACK >>>
             ret (mkResponse 404 (ErrorBody "User not found."))
         | currentBal :: _ =>
             let* rewardRes := client_query (SQL.select_last_claim uuid) in
             if alreadyClaimed rewardRes lastReset then
               ROLLBACK >>>
               let nextReset := plus_days P 1 lastReset in
               let '(hours, minutes) := diff_hours_minutes nextReset now_ in
               ret (mkResponse 429 (RateLimitedBody hours minutes))
             else
               client_query (SQL.update_balance DAILY_REWARD_AMOUNT uuid) >>>
               client_query (SQL.upsert_claim uuid now_) >>>
               COMMIT >>>
               let newBalance := currentBal + DAILY_REWARD_AMOUNT in
               ret (json (DailyBody newBalance))
         end)
        (fun e =>
           ROLLBACK >>>
           logger error ("/currency/daily error: " +:+ error_text e) >>>
           ret (mkResponse 500
                  (ErrorBody "Something went wrong while claiming your daily reward.")))
  end.

(** *** The router: layers in registration order *)

Inductive Layer :=
| Route (m : Method) (p : string) (handler : Request -> M Response)
| Use (prefix : string) (middleware : Request -> M Step).

(** [express.Router()] is created with its default options: paths are
    matched whatever the case of their letters. *)
Definition fold_case (c : ascii) : ascii :=
  let n := nat_of_ascii c in
  if (65 <=? n)%nat && (n <=? 90)%nat then ascii_of_nat (n + 32) else c.

Fixpoint fold_cases (s : string) : string :=
  match s with
  | EmptyString => EmptyString
  | String c s' => String (fold_case c) (fold_cases s')
  end.

(** [router.get(p, ...)], [router.post(p, ...)] match the path [p] itself
    and [p] followed by one slash. *)
Definition matches (p q : string) : bool :=
  String.eqb (fold_cases p) (fold_cases q) ||
  String.eqb (fold_cases p +:+ "/") (fold_cases q).

(** [router.use(prefix, ...)] matches the prefix itself and every path
    below it. *)
Definition under (prefix p : string) : bool :=
  String.eqb (fold_cases prefix) (fold_cases p) ||
  String.prefix (fold_cases prefix +:+ "/") (fold_cases p).

(** Express walks the stack: a matching route answers, a matching
    middleware answers or passes the request on, and the end of the
    stack is the framework's 404. *)
Fixpoint dispatch (stack : list Layer) (req : Request) : M Response :=
  match stack with
  | [] => ret (mkResponse 404 HtmlPage)
  | Route m p handler :: rest =>
      if Method_eqb m (method req) && matches p (path req)
      then handler req
      else dispatch rest req
  | Use prefix middleware :: rest =>
      if under prefix (path req)
      then let* step := middleware req in
           match step with
           | Next req' => dispatch rest req'
           | Respond res => ret res
           end
      else dispatch rest req
  end.

(** [currencyRoutes(db)] *)
Definition currencyRoutes : list Layer :=
  [ Route POST "/currency/login" login;
    Use "/currency" (verifyJWT P env);
    Use "/currency" (verifyIP env);
    Route GET "/currency/balance" get_balance;
    Route POST "/currency/pay" pay;
    Route POST "/currency/deposit" deposit;
    Route POST "/currency/withdraw" withdraw;
    Route GET "/currency/top" top;
    Route POST "/currency/mob-limit" mark_mob_limit;
    Route GET "/currency/mob-limit" check_mob_limit;
    Route POST "/currency/daily" daily ].

(** What Express does with an error that a handler threw and did not
    catch: no error middleware is registered, the answer is its own 500. *)
Definition finalhandler (e : JsError) : M Response :=
  ret (mkResponse 500 HtmlPage).

(** One request against the application. *)
Definition serve (req : Request) : M Response :=
  try_catch (dispatch currencyRoutes req) finalhandler.

End Routes.

(** ** src/config/env/validateEnv.ts *)

(** [process.env] as a whole is a finite map from names to values.
    [REQUIRED_VARS] comes from [config/env/vars/requiredVars.ts], a
    generated file that is not in the repository: it is a parameter. *)

(** One turn of [for (const key of REQUIRED_VARS)]: the lines logged so
    far and [hasError]. *)
Definition check_var (env : gmap string string) (acc : list (Level * string) * bool)
    (key : string) : list (Level * string) * bool :=
  match JS.truthy (env !! key) with
  | None => ((acc.1 ++ [(error, "Missing required env variable: " +:+ key)])%list, true)
  | Some _ => acc
  end.

(** [validateEnv()]: the lines it logs and the code of [process.exit], if
    it is reached. *)
Definition validateEnv (REQUIRED_VARS : list string) (env : gmap string string)
    : list (Level * string) * option Z :=
  let '(lines, hasError) := fold_left (check_var env) REQUIRED_VARS ([], false) in
  if hasError
  then ((lines ++ [(error, "Environment validation failed. Exiting")])%list, Some 1)
  else ((lines ++ [(info, "All required environment variables are set")])%list, None).

(** ** src/server.ts and src/db/index.ts: the port numbers *)

(** The value of a decimal digit. *)
Definition digit (c : ascii) : option Z :=
  let n := Z.of_nat (nat_of_ascii c) in
  if (48 <=? n) && (n <=? 57) then Some (n - 48) else None.

(** The longest prefix of decimal digits, read as a number; [acc] is what
    was read so far ([None]: no digit yet). *)
Fixpoint digits (s : string) (acc : option Z) : option Z :=
  match s with
  | EmptyString => acc
  | String c s' =>
      match digit c with
      | Some d => digits s' (Some (10 * default 0 acc + d))
      | None => acc
      end
  end.

(** [parseInt(s, 10)]: leading blanks are skipped, one sign is read, then
    the digits up to the first character that is not one; [None] is
    [NaN]. *)
Definition parseInt (s : string) : option Z :=
  match JS.trim_start s with
  | String "-"%char rest => Z.opp <$> digits rest None
  | String "+"%char rest => digits rest None
  | rest => digits rest None
  end.

(** [parseInt(process.env.PORT || "5000", 10)] of [server.ts] *)
Definition PORT (env : gmap string string) : option Z :=
  parseInt (default "5000" (JS.truthy (env !! "PORT"))).

(** [process.env.DB_PORT ? parseInt(process.env.DB_PORT, 10) : undefined]
    of [db/index.ts]; the outer [None] is [undefined]. *)
Definition DB_PORT (env : gmap string string) : option (option Z) :=
  parseInt <$> JS.truthy (env !! "DB_PORT").

(** ** src/scripts/env/generateRequiredEnvVars.ts *)

(** [envVars.add(v)] on a [Set], kept in insertion order. *)
Definition set_add (acc : list string) (v : string) : list string :=
  if bool_decide (v ∈ acc) then acc else (acc ++ [v])%list.

(** The code-unit order of [Array.prototype.sort] without a comparator. *)
Definition code_unit_le (s1 s2 : string) : Prop := String.leb s1 s2 = true.

#[global] Instance code_unit_le_dec : RelDecision code_unit_le.
Proof. intros s1 s2. unfold code_unit_le. apply _. Defined.

(** [sortedVars] of [generateRequiredEnvVars]: [allFiles] is the result
    of the glob, [findEnvVarsInFile] answers [None] where it throws (an
    unreadable file, which is skipped with a warning). *)
Definition sortedVars (findEnvVarsInFile : string -> option (list string))
    (allFiles : list string) : list string :=
  let envVars :=
    fold_left (fun acc file =>
                 match findEnvVarsInFile file with
                 | Some vars => fold_left set_add vars acc
                 | None => acc
                 end) allFiles [] in
  merge_sort code_unit_le envVars.

(** The line feed and the double quote of the template literals. *)
Definition LF : string := String "010" "".
Definition QUOTE : string := String "034" "".

(** [tsContent], the text written to [requiredVars.ts]. *)
Definition tsContent (sorted : list string) : string :=
  "const REQUIRED_VARS: string[] = [" +:+ LF
  +:+ String.concat LF ((fun v => "  " +:+ QUOTE +:+ v +:+ QUOTE +:+ ",") <$> sorted)
  +:+ LF +:+ "];" +:+ LF +:+ LF +:+ "export default REQUIRED_VARS;" +:+ LF.

(** ** A concrete platform and concrete worlds, to run the model *)

(** A zone at a fixed UTC+1 (Berlin outside summer time). *)
Definition CET_OFFSET : Z := 3600000.
Definition DAY : Z := 86400000.

Definition cet_set_time (h m t : Z) : Z :=
  (t + CET_OFFSET) / DAY * DAY + h * 3600000 + m * 60000 - CET_OFFSET.

Definition cet_plus_days (n t : Z) : Z := t + n * DAY.

(** A token double: the payload in clear behind the secret. *)
Definition plain_sign (p : JwtPayload) (secret : string) : string :=
  secret +:+ ":" +:+ jwt_uuid p +:+ ":" +:+ jwt_name p.

Definition plain_verify (token secret : string) : option JwtPayload :=
  match JS.split ":" token with
  | [s; u; n] => if String.eqb s secret then Some (mkPayload u n) else None
  | _ => None
  end.

Definition cet_platform : Platform :=
  mkPlatform plain_sign plain_verify cet_set_time cet_plus_days.

(** A pooled client with no transaction in progress, an empty logger. *)
Definition world_of (d : Db) (t : Z) (fault : option string) : World :=
  mkWorld d None [] t fault.

Definition funds_of (l : list (string * Account)) : Db :=
  mkDb (list_to_map l) ∅ ∅ [].

(** A request that already passed the gates as [who]. *)
Definition request_of (m : Method) (p : string) (who : string) (b : Body) : Request :=
  mkRequest m p None None None b (Some (mkPayload who who)).

(** ** Sequences of requests *)

(** One request arriving at instant [at_time], while the store answers
    the audit-log [INSERT] with [fault]. *)
Record Arrival := mkArrival {
  request : Request;
  at_time : Z;
  fault : option string
}.

(** Every request checks out its own client from the pool; the store is
    what the next request finds. *)
Definition handle (P : Platform) (env : Env) (d : Db) (a : Arrival) : Db :=
  store (serve P env (request a) (world_of d (at_time a) (fault a))).2.

Definition handle_all (P : Platform) (env : Env) (d : Db) (l : list Arrival) : Db :=
  fold_left (handle P env) l d.

(** The invariant of [user_funds]. *)
Definition nonneg (d : Db) : Prop :=
  map_Forall (fun _ a => 0 <= balance a) (user_funds d).

(** The answer of a handler run. *)
Definition answer {A} (r : Result A * World) : option A :=
  match r.1 with Ok a => Some a | Throw _ => None end.



(** ** Vocabulary of the properties *)

(** The prior claim of an account, if any: a row of [daily_rewards] whose
    [last_claim_at] is not [null]. *)
Definition last_claim_at (d : Db) (u : string) : option Z :=
  match daily_rewards d !! u with
  | Some (Some t) => Some t
  | _ => None
  end.

(** The store after a claim at [t]: the reward is credited and the claim
    row holds [t]; the audit log is the one of [d]. *)
Definition claimed (d : Db) (u : string) (a : Account) (t : Z) : Db :=
  mkDb (<[u := mkAccount (name a) (balance a + DAILY_REWARD_AMOUNT)]> (user_funds d))
       (<[u := Some t]> (daily_rewards d))
       (mob_limit_reached d) (currency_transactions d).

(** The world a handler leaves when its [catch] ran for the error [e]:
    the transaction is closed without its changes and one line of
    severity error names the route. *)
Definition caught (route : string) (e : JsError) (w : World) : World :=
  mkWorld (store w) None
          (logged w ++ [(error, "/currency/" +:+ route +:+ " error: " +:+ error_text e)])
          (clock w) (insert_fault w).

(** The world after a commit of the funds [f], followed by the append of
    record [t] to the audit log when the store accepts it, and by the
    [catch] when it refuses. *)
Definition committed (f : gmap string Account) (route : string)
    (t : TransactionData) (w : World) : World :=
  let d := SQL.set_funds f (store w) in
  match insert_fault w with
  | None => mkWorld (SQL.insert_transaction t d).2 None (logged w)
                    (clock w) (insert_fault w)
  | Some e => caught route (DatabaseError e)
                     (mkWorld d None (logged w) (clock w) (insert_fault w))
  end.

(** What the client is told after that commit: the success body, or the
    store's error under status 400 when the append failed. *)
Definition told (success : Json) (w : World) : Response :=
  match insert_fault w with
  | None => json success
  | Some e => mkResponse 400 (ErrorBody e)
  end.

(** Debit and credit of a balance. *)
Definition credit (delta : Z) (a : Account) : Account :=
  mkAccount (name a) (balance a + delta).

(** The leaderboard order on the rows of the answer. *)
Definition not_below (r1 r2 : string * Z) : Prop := r2.2 <= r1.2.

(** The request is answered by the handler, not by a gate. *)
Definition accepted (r : Result Step * World) : bool :=
  match r.1 with Ok (Next _) => true | _ => false end.

(** [pat] occurs somewhere in [s]. *)
Fixpoint occurs (pat s : string) : bool :=
  String.prefix pat s ||
  match s with
  | EmptyString => false
  | String _ s' => occurs pat s'
  end.

(** Every character of [s] passes [p]. *)
Fixpoint all_chars (p : ascii -> bool) (s : string) : bool :=
  match s with
  | EmptyString => true
  | String c s' => p c && all_chars p s'
  end.

(** An address written bare: no comma, no blank, no ["::ffff:"] in it
    (any dotted IPv4 address, any IPv6 address that is not IPv4-mapped). *)
Definition bare_address (s : string) : bool :=
  negb (occurs "::ffff:" s) &&
  all_chars (fun c => negb (Ascii.eqb c ",") && negb (JS.is_space c)) s.

(** The invariant on worlds: the committed funds and the working copy of
    an open transaction are both non-negative. *)
Definition safe (w : World) : Prop :=
  nonneg (store w) /\ from_option nonneg True (txn w).

Definition keeps {A} (m : M A) : Prop := forall w, safe w -> safe (m w).2.

Definition layer_keeps (l : Layer) : Prop :=
  match l with
  | Route _ _ handler => forall req, keeps (handler req)
  | Use _ middleware => forall req, keeps (middleware req)
  end.

(** The same world at a later instant of the clock. *)
Definition tick (t : Z) (w : World) : World :=
  mkWorld (store w) (txn w) (logged w) t (insert_fault w).

(** All the money of the store. *)
Definition total (d : Db) : Z :=
  map_fold (fun _ a acc => balance a + acc) 0 (user_funds d).

(** The store, the open transaction and the clock are the same; only
    the logger may have more lines. *)
Definition same_data (w w' : World) : Prop :=
  store w' = store w /\ txn w' = txn w /\ clock w' = clock w /\
  insert_fault w' = insert_fault w.

(** What a gate decided: the answer it sent, or the identity it attached
    to the request it passed on. *)
Definition outcome (r : Result Step * World) : option (Response + option JwtPayload) :=
  match r.1 with
  | Ok (Next req) => Some (inr (user req))
  | Ok (Respond res) => Some (inl res)
  | Throw _ => None
  end.

(** From one store to the next the audit log only gained records at its
    end, at most [n] of them, each of a logged action. *)
Definition log_grew_by (n : nat) (d d' : Db) : Prop :=
  exists added,
    currency_transactions d' = (currency_transactions d ++ added)%list /\
    (length added <= n)%nat /\
    Forall (fun t => action t = "pay" \/ action t = "deposit" \/ action t = "withdraw")
           added.

(** A layer of the router, for a relation [Q] between the store before
    and after: a route establishes [Q] from a client with no transaction
    in progress, a middleware leaves the data as it was. *)
Definition layer_within (Q : Db -> Db -> Prop) (l : Layer) : Prop :=
  match l with
  | Route _ _ handler =>
      forall req w, txn w = None -> Q (store w) (store (handler req w).2)
  | Use _ middleware => forall req w, same_data w (middleware req w).2
  end.

(** A numeral written with the decimal digits [ds], and its value. *)
Definition numeral (ds : list Z) : string :=
  fold_right (fun d s => String (ascii_of_nat (48 + Z.to_nat d)) s) "" ds.

Definition value (ds : list Z) : Z := fold_left (fun acc d => 10 * acc + d) ds 0.

(** Text that stops a run of digits: the end, or a character that is not
    a digit. *)
Definition stops_digits (rest : string) : Prop :=
  match rest with
  | EmptyString => True
  | String c _ => digit c = None
  end.

(** A required variable that is unset or set to the empty string. *)
Definition is_missing (env : gmap string string) (key : string) : Prop :=
  JS.truthy (env !! key) = None.

#[global] Instance is_missing_dec env key : Decision (is_missing env key).
Proof. unfold is_missing. apply _. Defined.

(** * Properties *)

(** ** Running the statements *)

Lemma select_balance_hit id a d :
  user_funds d !! id = Some a -> SQL.select_balance id d = ([balance a], d).
Proof. intros H. unfold SQL.select_balance. now rewrite H. Qed.

Lemma select_balance_miss id d :
  user_funds d !! id = None -> SQL.select_balance id d = ([], d).
Proof. intros H. unfold SQL.select_balance. now rewrite H. Qed.

Lemma update_balance_hit delta id a d :
  user_funds d !! id = Some a ->
  SQL.update_balance delta id d =
    ([balance a + delta],
     SQL.set_funds (<[id := mkAccount (name a) (balance a + delta)]> (user_funds d)) d).
Proof. intros H. unfold SQL.update_balance. now rewrite H. Qed.

Lemma update_balance_miss delta id d :
  user_funds d !! id = None -> SQL.update_balance delta id d = ([], d).
Proof. intros H. unfold SQL.update_balance. now rewrite H. Qed.

Lemma destructure_some {A} (fields : Fields) (k : Fields -> M A) :
  (let* x := destructure (Some fields) in k x) = k fields.
Proof. reflexivity. Qed.

Lemma destructure_none {A} (k : Fields -> M A) (w : World) :
  (let* x := destructure None in k x) w =
  (Throw (TypeError "Cannot destructure property of 'req.body' as it is undefined."), w).
Proof. reflexivity. Qed.

(** The two cases of [req.body]: the parsed object, and [undefined], which
    no hypothesis on a field allows. *)
Ltac open_body req :=
  let fields := fresh "fields" in
  let Hbody := fresh "Hbody" in
  let b := fresh "b" in
  remember (req_body req) as b eqn:Hbody in *; symmetry in Hbody;
  destruct b as [fields|];
  cbn [body_uuid body_name body_to_uuid body_amount body_count body_denomination] in *;
  try discriminate;
  rewrite ?destructure_some, ?destructure_none; cbv beta.

(** Unfolding one handler run down to the lookups in the tables, on a
    world given by its components. *)
Ltac run_handler :=
  cbv beta iota zeta delta
    [try_catch bind ret throw raise bad_request BEGIN COMMIT ROLLBACK client_query
     db_query logTransactions logger DateTime_now json
     store txn logged clock insert_fault
     user_funds daily_rewards mob_limit_reached currency_transactions
     SQL.select_balance SQL.update_balance SQL.set_funds SQL.upsert_user
     SQL.select_last_claim SQL.upsert_claim SQL.upsert_mob_limit
     SQL.select_mob_limit SQL.insert_transaction SQL.current_date].

Ltac open_world w :=
  let funds := fresh "funds" in
  let claims := fresh "claims" in
  let mobs := fresh "mobs" in
  let txs := fresh "txs" in
  let tx := fresh "tx" in
  let lg := fresh "lg" in
  let ck := fresh "ck" in
  let flt := fresh "flt" in
  destruct w as [[funds claims mobs txs] tx lg ck flt]; simpl in *.

(** Case analysis along one run: every lookup and every test met on the
    way is split, with its equation kept. *)
Ltac crunch :=
  repeat (run_handler;
          match goal with
          | |- context [match ?m !! ?k with _ => _ end] => destruct (m !! k) eqn:?
          | |- context [if ?b then _ else _] => destruct b eqn:?
          | |- context [match ?o with Some _ => _ | None => _ end] => destruct o eqn:?
          end).

Ltac lookup_facts :=
  repeat match goal with
         | H : <[_ := _]> _ !! _ = Some _ |- _ =>
             apply lookup_insert_Some in H as [[? ?]|[? ?]]; subst
         | H : map_Forall _ ?m, L : ?m !! _ = Some _ |- _ =>
             apply (map_Forall_lookup_1 _ _ _ _ H) in L; simpl in L
         | H : (_ <? _) = false |- _ => apply Z.ltb_ge in H
         | H : (_ <=? _) = false |- _ => apply Z.leb_gt in H
         end.

Ltac keep_safe :=
  unfold safe, nonneg in *; simpl in *;
  repeat match goal with
         | H : _ /\ _ |- _ => destruct H
         end;
  lookup_facts; simplify_eq;
  repeat match goal with
         | |- _ /\ _ => split
         | |- True => exact I
         | |- map_Forall _ (<[_ := _]> _) => apply map_Forall_insert_2
         | |- map_Forall _ _ => assumption
         | |- 0 <= _ => simpl in *; unfold DAILY_REWARD_AMOUNT; lia
         end.

(** ** Pay to oneself *)

(** C9: a pay request whose recipient is the sender, with
    [0 < amount <= b] for the sender's balance [b], succeeds; the stored
    funds are what they were, while the response's [new_sender_balance]
    and the logged [balance_after] are both [b - amount]. *)
Theorem pay_to_self (req : Request) (w : World) (u : string) (amt : Z) (a : Account) :
  user_uuid req = Some u ->
  JS.truthy (body_to_uuid (req_body req)) = Some u ->
  body_amount (req_body req) = Some amt ->
  txn w = None ->
  insert_fault w = None ->
  user_funds (store w) !! u = Some a ->
  0 < amt <= balance a ->
  exists w',
    pay req w = (Ok (json (PayBody (balance a - amt))), w') /\
    user_funds (store w') = user_funds (store w) /\
    txn w' = None /\
    currency_transactions (store w') =
      (currency_transactions (store w) ++
         [mkTx u "pay" amt (Some u) (Some u) None None (Some (balance a - amt))])%list.
Proof.
  intros Hu Hto Hamt Htxn Hfault Ha [Hpos Hle].
  open_world w; subst.
  unfold pay. open_body req. rewrite Hu, Hto, Hamt.
  destruct (Z.leb_spec amt 0) as [?|_]; [lia|].
  run_handler. rewrite Ha. run_handler. 
  destruct (Z.ltb_spec (balance a) amt) as [?|_]; [lia|].
  run_handler. rewrite Ha. run_handler. rewrite lookup_insert_eq. run_handler.
  eexists. split; [reflexivity|]. simpl. repeat split.
  rewrite insert_insert_eq.
  apply insert_id. rewrite Ha. f_equal. destruct a as [n b]. simpl. f_equal. lia.
Qed.

Lemma pay_to_self_witness :
  let req := request_of POST "/currency/pay" "u1"
               (mkBody None None (Some "u1") (Some 30) None None) in
  let w := world_of (funds_of [("u1", mkAccount "Alice" 100)]) 0 None in
  exists w',
    pay req w = (Ok (json (PayBody 70)), w') /\
    user_funds (store w') = user_funds (store w) /\
    txn w' = None /\
    currency_transactions (store w') =
      [mkTx "u1" "pay" 30 (Some "u1") (Some "u1") None None (Some 70)].
Proof.
  intros req w.
  apply (pay_to_self req w "u1" 30 (mkAccount "Alice" 100));
    try reflexivity.
  simpl; lia.
Defined.

(** ** The daily reward *)

Lemma alreadyClaimed_spec (d : Db) (u : string) (boundary : Z) :
  alreadyClaimed (SQL.select_last_claim u d).1 boundary = true <->
  exists t, last_claim_at d u = Some t /\ boundary <= t.
Proof.
  unfold alreadyClaimed, SQL.select_last_claim, last_claim_at. simpl.
  destruct (daily_rewards d !! u) as [[t|]|]; simpl.
  - rewrite Z.leb_le. split; [eauto|]. now intros (t' & [= <-] & H).
  - split; [discriminate|]. now intros (t' & [=] & _).
  - split; [discriminate|]. now intros (t' & [=] & _).
Qed.

Lemma alreadyClaimed_false_iff (d : Db) (u : string) (boundary : Z) :
  alreadyClaimed (SQL.select_last_claim u d).1 boundary = false <->
  (last_claim_at d u = None \/
   exists t, last_claim_at d u = Some t /\ t < boundary).
Proof.
  rewrite <- not_true_iff_false, alreadyClaimed_spec.
  destruct (last_claim_at d u) as [t|].
  - split.
    + intros Hn. right. exists t. split; [reflexivity|].
      destruct (Z.lt_ge_cases t boundary); [assumption|].
      exfalso. apply Hn. eauto.
    + intros [[=]|(t1 & [= <-] & Hlt)] (t2 & [= <-] & Hle). lia.
  - split; [now left|]. intros _ (t' & [=] & _).
Qed.

Lemma daily_runs_eligible (P : Platform) (req : Request) (w : World) u a :
  user_uuid req = Some u ->
  txn w = None ->
  user_funds (store w) !! u = Some a ->
  alreadyClaimed (SQL.select_last_claim u (store w)).1 (getLastReset P (clock w)) = false ->
  daily P req w =
    (Ok (json (DailyBody (balance a + DAILY_REWARD_AMOUNT))),
     mkWorld (claimed (store w) u a (clock w)) None (logged w) (clock w) (insert_fault w)).
Proof.
  intros Hu Htxn Ha Hno. open_world w; subst.
  unfold daily. rewrite Hu. run_handler. rewrite Ha. run_handler.
  unfold SQL.select_last_claim in Hno; simpl in Hno. rewrite Hno.
  run_handler. rewrite Ha. reflexivity.
Qed.

Lemma daily_runs_claimed (P : Platform) (req : Request) (w : World) u a :
  user_uuid req = Some u ->
  txn w = None ->
  user_funds (store w) !! u = Some a ->
  alreadyClaimed (SQL.select_last_claim u (store w)).1 (getLastReset P (clock w)) = true ->
  daily P req w =
    (Ok (mkResponse 429
           (RateLimitedBody
              (diff_hours_minutes (plus_days P 1 (getLastReset P (clock w))) (clock w)).1
              (diff_hours_minutes (plus_days P 1 (getLastReset P (clock w))) (clock w)).2)),
     w).
Proof.
  intros Hu Htxn Ha Hyes. open_world w; subst.
  unfold daily. rewrite Hu. run_handler. rewrite Ha. run_handler.
  unfold SQL.select_last_claim in Hyes; simpl in Hyes. rewrite Hyes.
  run_handler. reflexivity.
Qed.

Lemma diff_hours_minutes_floor (later earlier : Z) :
  earlier <= later ->
  diff_hours_minutes later earlier =
    ((later - earlier) / 3600000, (later - earlier) mod 3600000 / 60000).
Proof.
  intros H. unfold diff_hours_minutes.
  rewrite Z.quot_div_nonneg by lia.
  rewrite (Z.mod_eq (later - earlier) 3600000) by lia.
  do 2 f_equal. lia.
Qed.

(** On the fixed-offset platform the next reset always lies ahead. *)
Lemma cet_next_reset_ahead (t : Z) :
  t < plus_days cet_platform 1 (getLastReset cet_platform t).
Proof.
  unfold getLastReset. simpl. unfold cet_plus_days, cet_set_time, CET_OFFSET, DAY.
  pose proof (Z.div_mod (t + 3600000) 86400000 ltac:(lia)) as Hdm.
  pose proof (Z.mod_pos_bound (t + 3600000) 86400000 ltac:(lia)) as Hb.
  destruct (Z.ltb_spec t ((t + 3600000) / 86400000 * 86400000 + 6 * 3600000 + 30 * 60000 - 3600000));
    lia.
Qed.

(** C5: on a daily-claim request of an existing account, the reset
    boundary is today's 06:30 in the zone, or the previous day's when now
    precedes it; the claim succeeds exactly when there is no prior claim
    or the prior claim is strictly before the boundary, and it then
    commits the reward on the account and now as the time of the last
    claim, changing nothing else; otherwise the answer is 429 with the
    time left to the next boundary (boundary + 1 day - now) in whole hours
    and whole minutes, and nothing is changed. *)
Theorem daily_claim_window (P : Platform) (req : Request) (w : World)
    (u : string) (a : Account) :
  user_uuid req = Some u ->
  txn w = None ->
  user_funds (store w) !! u = Some a ->
  clock w <= plus_days P 1 (getLastReset P (clock w)) ->
  let today_reset := set_time P 6 30 (clock w) in
  let boundary := getLastReset P (clock w) in
  let remaining := plus_days P 1 boundary - clock w in
  let eligible :=
    last_claim_at (store w) u = None \/
    exists t, last_claim_at (store w) u = Some t /\ t < boundary in
  let w' := (daily P req w).2 in
  boundary = (if clock w <? today_reset
              then plus_days P (-1) today_reset else today_reset) /\
  (answer (daily P req w) = Some (json (DailyBody (balance a + DAILY_REWARD_AMOUNT)))
   <-> eligible) /\
  (eligible ->
   user_funds (store w') =
     <[u := mkAccount (name a) (balance a + DAILY_REWARD_AMOUNT)]> (user_funds (store w)) /\
   daily_rewards (store w') = <[u := Some (clock w)]> (daily_rewards (store w)) /\
   last_claim_at (store w') u = Some (clock w) /\
   mob_limit_reached (store w') = mob_limit_reached (store w) /\
   currency_transactions (store w') = currency_transactions (store w) /\
   txn w' = None /\ logged w' = logged w) /\
  (~ eligible ->
   answer (daily P req w) =
     Some (mkResponse 429
             (RateLimitedBody (remaining / 3600000)
                              (remaining mod 3600000 / 60000))) /\
   w' = w).
Proof.
  intros Hu Htxn Ha Hahead today_reset boundary remaining eligible w'.
  split; [reflexivity|].
  assert (Hdec : eligible <->
                 alreadyClaimed (SQL.select_last_claim u (store w)).1 boundary = false)
    by (symmetry; apply alreadyClaimed_false_iff).
  subst w'.
  destruct (alreadyClaimed (SQL.select_last_claim u (store w)).1 boundary) eqn:Hc.
  - rewrite (daily_runs_claimed P req w u a Hu Htxn Ha Hc).
    fold boundary.
    rewrite diff_hours_minutes_floor by (subst boundary; lia).
    unfold answer. cbn [fst snd].
    split; [|split].
    + rewrite Hdec. split; discriminate.
    + intros He. apply Hdec in He. discriminate He.
    + intros _. split; reflexivity.
  - rewrite (daily_runs_eligible P req w u a Hu Htxn Ha Hc).
    unfold answer. cbn [fst snd store txn logged]. split; [|split].
    + rewrite Hdec. split; reflexivity.
    + intros _. unfold claimed, last_claim_at.
      cbn [user_funds daily_rewards mob_limit_reached currency_transactions].
      rewrite lookup_insert_eq. repeat split.
    + intros Hn. exfalso. apply Hn, Hdec. reflexivity.
Qed.

Lemma daily_claim_window_witness :
  let req := request_of POST "/currency/daily" "u1" no_body in
  let d (t : Z) :=
    mkDb {[ "u1" := mkAccount "Alice" 10 ]} {[ "u1" := Some t ]} ∅ [] in
  (* now is 1970-01-01 11:00:00 UTC, 12:00 in the zone; the boundary is
     05:30:00 UTC, 06:30 in the zone *)
  let w (t : Z) := world_of (d t) 39600000 None in
  getLastReset cet_platform 39600000 = 19800000 /\
  (* last claim at the boundary: refused, 18 h 30 min left *)
  (answer (daily cet_platform req (w 19800000)) =
     Some (mkResponse 429 (RateLimitedBody 18 30)) /\
   (daily cet_platform req (w 19800000)).2 = w 19800000) /\
  (* last claim one millisecond before the boundary: granted *)
  (answer (daily cet_platform req (w 19799999)) = Some (json (DailyBody 60)) /\
   user_funds (store (daily cet_platform req (w 19799999)).2) !! "u1" =
     Some (mkAccount "Alice" 60) /\
   last_claim_at (store (daily cet_platform req (w 19799999)).2) "u1" = Some 39600000).
Proof.
  intros req d w.
  pose proof (daily_claim_window cet_platform req (w 19800000) "u1" (mkAccount "Alice" 10)
                eq_refl eq_refl eq_refl
                (Z.lt_le_incl _ _ (cet_next_reset_ahead 39600000)))
    as (Hb & _ & _ & Hlate).
  pose proof (daily_claim_window cet_platform req (w 19799999) "u1" (mkAccount "Alice" 10)
                eq_refl eq_refl eq_refl
                (Z.lt_le_incl _ _ (cet_next_reset_ahead 39600000)))
    as (_ & Hiff & Hearly & _).
  split; [reflexivity|]. split.
  - apply Hlate. intros [Hnone|(t & Ht & Hlt)].
    + discriminate Hnone.
    + injection Ht as <-. vm_compute in Hlt. discriminate Hlt.
  - assert (He : last_claim_at (store (w 19799999)) "u1" = None \/
                 exists t, last_claim_at (store (w 19799999)) "u1" = Some t /\
                           t < getLastReset cet_platform (clock (w 19799999))).
    { right. exists 19799999. split; reflexivity. }
    split; [apply Hiff, He|].
    destruct (Hearly He) as (Hf & _ & Hl & _).
    split; [rewrite Hf; reflexivity | exact Hl].
Defined.

(** The daily handler has no append to the audit log on any path. *)
Lemma daily_never_appends (P : Platform) (req : Request) (w : World) :
  txn w = None ->
  currency_transactions (store (daily P req w).2) = currency_transactions (store w).
Proof.
  intros Htxn. open_world w; subst. unfold daily.
  destruct (user_uuid req); [|reflexivity].
  crunch; try destruct (diff_hours_minutes _ _); reflexivity.
Qed.

(** C1 (what the code does): a successful daily claim commits the credit
    and the claim timestamp and answers with the new balance, and the
    transaction log is left as it was: the handler never calls
    [logTransactions], so no record with action [daily] is appended. *)
Theorem daily_claim_appends_no_record (P : Platform) (req : Request) (w : World)
    (u : string) (a : Account) :
  user_uuid req = Some u ->
  txn w = None ->
  user_funds (store w) !! u = Some a ->
  (last_claim_at (store w) u = None \/
   exists t, last_claim_at (store w) u = Some t /\ t < getLastReset P (clock w)) ->
  exists w',
    daily P req w = (Ok (json (DailyBody (balance a + DAILY_REWARD_AMOUNT))), w') /\
    txn w' = None /\
    user_funds (store w') !! u =
      Some (mkAccount (name a) (balance a + DAILY_REWARD_AMOUNT)) /\
    daily_rewards (store w') !! u = Some (Some (clock w)) /\
    currency_transactions (store w') = currency_transactions (store w).
Proof.
  intros Hu Htxn Ha Hel. apply alreadyClaimed_false_iff in Hel.
  rewrite (daily_runs_eligible P req w u a Hu Htxn Ha Hel).
  eexists. split; [reflexivity|]. simpl.
  rewrite !lookup_insert_eq. repeat split.
Qed.

Lemma daily_claim_appends_no_record_witness :
  let req := request_of POST "/currency/daily" "u1" no_body in
  let w := world_of (funds_of [("u1", mkAccount "Alice" 10)]) 39600000 None in
  exists w',
    daily cet_platform req w = (Ok (json (DailyBody 60)), w') /\
    txn w' = None /\
    user_funds (store w') !! "u1" = Some (mkAccount "Alice" 60) /\
    daily_rewards (store w') !! "u1" = Some (Some 39600000) /\
    currency_transactions (store w') = [].
Proof.
  intros req w.
  apply (daily_claim_appends_no_record cet_platform req w "u1" (mkAccount "Alice" 10));
    try reflexivity.
  left. reflexivity.
Defined.

(** ** The three logged mutations, case by case *)

Section Runs.
Context (req : Request) (w : World) (u : string).
Hypothesis (Huser : user_uuid req = Some u) (Htxn : txn w = None).

Lemma pay_runs_absent_sender to amt :
  JS.truthy (body_to_uuid (req_body req)) = Some to ->
  body_amount (req_body req) = Some amt -> 0 < amt ->
  user_funds (store w) !! u = None ->
  pay req w =
    (Ok (mkResponse 400 (ErrorBody "Sender not found")), caught "pay" (new_Error "Sender not found") w).
Proof.
  intros Hto Hamt Hpos Ha. open_world w; subst.
  unfold pay. open_body req. rewrite Huser, Hto, Hamt.
  destruct (Z.leb_spec amt 0); [lia|].
  run_handler. rewrite Ha. reflexivity.
Qed.

Lemma pay_runs_insufficient to amt a :
  JS.truthy (body_to_uuid (req_body req)) = Some to ->
  body_amount (req_body req) = Some amt -> 0 < amt ->
  user_funds (store w) !! u = Some a -> balance a < amt ->
  pay req w =
    (Ok (mkResponse 400 (ErrorBody "Insufficient funds")),
     caught "pay" (new_Error "Insufficient funds") w).
Proof.
  intros Hto Hamt Hpos Ha Hlt. open_world w; subst.
  unfold pay. open_body req. rewrite Huser, Hto, Hamt.
  destruct (Z.leb_spec amt 0); [lia|].
  run_handler. rewrite Ha. run_handler.
  destruct (Z.ltb_spec (balance a) amt); [|lia]. reflexivity.
Qed.

Lemma pay_runs_absent_recipient to amt a :
  JS.truthy (body_to_uuid (req_body req)) = Some to ->
  body_amount (req_body req) = Some amt -> 0 < amt ->
  user_funds (store w) !! u = Some a -> amt <= balance a ->
  user_funds (store w) !! to = None ->
  pay req w =
    (Ok (mkResponse 400 (ErrorBody "Recipient not found")),
     caught "pay" (new_Error "Recipient not found") w).
Proof.
  intros Hto Hamt Hpos Ha Hle Hb. open_world w; subst.
  unfold pay. open_body req. rewrite Huser, Hto, Hamt.
  destruct (Z.leb_spec amt 0); [lia|].
  run_handler. rewrite Ha. run_handler.
  destruct (Z.ltb_spec (balance a) amt); [lia|].
  run_handler. rewrite Ha. run_handler.
  rewrite lookup_insert_ne by congruence. rewrite Hb. reflexivity.
Qed.

Lemma pay_runs_committed to amt a b :
  JS.truthy (body_to_uuid (req_body req)) = Some to ->
  body_amount (req_body req) = Some amt -> 0 < amt ->
  user_funds (store w) !! u = Some a -> amt <= balance a ->
  <[u := credit (- amt) a]> (user_funds (store w)) !! to = Some b ->
  pay req w =
    (Ok (told (PayBody (balance a - amt)) w),
     committed (<[to := credit amt b]> (<[u := credit (- amt) a]> (user_funds (store w))))
               "pay"
               (mkTx u "pay" amt (Some u) (Some to) None None (Some (balance a - amt)))
               w).
Proof.
  intros Hto Hamt Hpos Ha Hle Hb. open_world w; subst.
  unfold pay. open_body req. rewrite Huser, Hto, Hamt.
  destruct (Z.leb_spec amt 0); [lia|].
  run_handler. rewrite Ha. run_handler.
  destruct (Z.ltb_spec (balance a) amt); [lia|].
  run_handler. rewrite Ha. run_handler.
  unfold credit in Hb. rewrite Hb.
  unfold told, committed. destruct flt; reflexivity.
Qed.

Lemma deposit_runs_absent amt :
  body_amount (req_body req) = Some amt -> 0 < amt ->
  user_funds (store w) !! u = None ->
  deposit req w =
    (Ok (mkResponse 404 (ErrorBody "User not found")),
     mkWorld (store w) (Some (store w)) (logged w) (clock w) (insert_fault w)).
Proof.
  intros Hamt Hpos Ha. open_world w; subst.
  unfold deposit. open_body req. rewrite Huser, Hamt.
  destruct (Z.leb_spec amt 0); [lia|].
  run_handler. rewrite Ha. reflexivity.
Qed.

Lemma deposit_runs_committed amt a :
  body_amount (req_body req) = Some amt -> 0 < amt ->
  user_funds (store w) !! u = Some a ->
  deposit req w =
    (Ok (told (DepositBody (balance a + amt)) w),
     committed (<[u := credit amt a]> (user_funds (store w))) "deposit"
               (mkTx u "deposit" amt None None None None (Some (balance a + amt)))
               w).
Proof.
  intros Hamt Hpos Ha. open_world w; subst.
  unfold deposit. open_body req. rewrite Huser, Hamt.
  destruct (Z.leb_spec amt 0); [lia|].
  run_handler. rewrite Ha.
  unfold told, committed. destruct flt; reflexivity.
Qed.

Lemma withdraw_runs_absent cnt :
  body_count (req_body req) = Some cnt -> 0 < cnt ->
  user_funds (store w) !! u = None ->
  withdraw req w =
    (Ok (mkResponse 400 (ErrorBody "User not found")), caught "withdraw" (new_Error "User not found") w).
Proof.
  intros Hcnt Hpos Ha. open_world w; subst.
  unfold withdraw. open_body req. rewrite Huser, Hcnt.
  destruct (Z.leb_spec cnt 0); [lia|].
  run_handler. rewrite Ha. reflexivity.
Qed.

Lemma withdraw_runs_insufficient cnt a :
  body_count (req_body req) = Some cnt -> 0 < cnt ->
  user_funds (store w) !! u = Some a ->
  balance a < cnt * default 1000 (body_denomination (req_body req)) ->
  withdraw req w =
    (Ok (mkResponse 400 (ErrorBody "Insufficient funds")),
     caught "withdraw" (new_Error "Insufficient funds") w).
Proof.
  intros Hcnt Hpos Ha Hlt. open_world w; subst.
  unfold withdraw. open_body req. rewrite Huser, Hcnt.
  destruct (Z.leb_spec cnt 0); [lia|].
  run_handler. rewrite Ha. run_handler.
  destruct (Z.ltb_spec (balance a) (cnt * default 1000 (field_denomination fields)));
    [|lia].
  reflexivity.
Qed.

Lemma withdraw_runs_committed cnt a :
  body_count (req_body req) = Some cnt -> 0 < cnt ->
  user_funds (store w) !! u = Some a ->
  let denom := default 1000 (body_denomination (req_body req)) in
  cnt * denom <= balance a ->
  withdraw req w =
    (Ok (told (WithdrawBody (cnt * denom) (balance a + - (cnt * denom)) denom cnt) w),
     committed (<[u := credit (- (cnt * denom)) a]> (user_funds (store w))) "withdraw"
               (mkTx u "withdraw" (cnt * denom) None None (Some denom) (Some cnt)
                     (Some (balance a + - (cnt * denom))))
               w).
Proof.
  intros Hcnt Hpos Ha denom Hle. open_world w; subst.
  unfold withdraw. open_body req. rewrite Huser, Hcnt.
  destruct (Z.leb_spec cnt 0); [lia|].
  run_handler. rewrite Ha. run_handler. fold denom.
  destruct (Z.ltb_spec (balance a) (cnt * denom)); [lia|].
  run_handler. rewrite Ha.
  unfold told, committed. destruct flt; reflexivity.
Qed.

End Runs.

(** ** The balance invariant *)

Lemma pay_keeps req : keeps (pay req).
Proof.
  intros w Hs. open_world w. unfold pay. open_body req; [|exact Hs].
  destruct (user_uuid req), (JS.truthy (field_to_uuid fields)),
    (field_amount fields); try exact Hs.
  destruct tx; crunch; keep_safe.
Qed.

Lemma deposit_keeps req : keeps (deposit req).
Proof.
  intros w Hs. open_world w. unfold deposit. open_body req; [|exact Hs].
  destruct (user_uuid req), (field_amount fields); try exact Hs.
  destruct tx; crunch; keep_safe.
Qed.

Lemma withdraw_keeps req : keeps (withdraw req).
Proof.
  intros w Hs. open_world w. unfold withdraw. open_body req; [|exact Hs].
  destruct (user_uuid req), (field_count fields); try exact Hs.
  destruct tx; crunch; keep_safe.
Qed.

Lemma daily_keeps P req : keeps (daily P req).
Proof.
  intros w Hs. open_world w. unfold daily.
  destruct (user_uuid req); try exact Hs.
  destruct tx; crunch; try destruct (diff_hours_minutes _ _); keep_safe.
Qed.

Lemma login_keeps P env req : keeps (login P env req).
Proof.
  intros w Hs. open_world w. unfold login. open_body req; [|exact Hs].
  destruct (JS.truthy (field_uuid fields)), (JS.truthy (field_name fields));
    try exact Hs.
  destruct tx; crunch; keep_safe.
Qed.

Lemma get_balance_keeps req : keeps (get_balance req).
Proof.
  intros w Hs. open_world w. unfold get_balance.
  destruct (user_uuid req); try exact Hs.
  destruct tx; crunch; keep_safe.
Qed.

Lemma top_keeps req : keeps (top req).
Proof. intros w Hs. open_world w. unfold top. run_handler. exact Hs. Qed.

Lemma mark_mob_limit_keeps req : keeps (mark_mob_limit req).
Proof.
  intros w Hs. open_world w. unfold mark_mob_limit.
  destruct (user_uuid req); exact Hs.
Qed.

Lemma check_mob_limit_keeps req : keeps (check_mob_limit req).
Proof.
  intros w Hs. open_world w. unfold check_mob_limit.
  destruct (user_uuid req); [|exact Hs].
  run_handler. destruct (mobs !! _); exact Hs.
Qed.

Lemma verifyIP_keeps env req : keeps (verifyIP env req).
Proof.
  intros w Hs. open_world w. unfold verifyIP.
  destruct (JS.includes _ _); run_handler; exact Hs.
Qed.

Lemma verifyJWT_keeps P env req : keeps (verifyJWT P env req).
Proof.
  intros w Hs. open_world w. unfold verifyJWT.
  destruct (JS.truthy (authorization req)); [|exact Hs].
  destruct (JS.truthy _); [|exact Hs].
  run_handler.
  destruct (JS.truthy (JWT_SECRET env)); [|exact Hs].
  destruct (jwt_verify P _ _); exact Hs.
Qed.

Lemma dispatch_keeps (stack : list Layer) :
  Forall layer_keeps stack -> forall req, keeps (dispatch stack req).
Proof.
  induction 1 as [|l stack Hl _ IH]; intros req w Hs; [exact Hs|].
  destruct l as [m p handler|prefix middleware]; simpl in *.
  - destruct (Method_eqb m (method req) && matches p (path req)).
    + now apply Hl.
    + now apply IH.
  - destruct (under prefix (path req)); [|now apply IH].
    unfold bind. specialize (Hl req w Hs).
    destruct (middleware req w) as [[[req'|res]|e] w']; simpl in *.
    + now apply IH.
    + exact Hl.
    + exact Hl.
Qed.

(** The final handler answers and changes nothing. *)
Lemma serve_world P env req w :
  (serve P env req w).2 = (dispatch (currencyRoutes P env) req w).2.
Proof.
  unfold serve, try_catch, finalhandler, ret.
  now destruct (dispatch (currencyRoutes P env) req w) as [[a|e] w'].
Qed.

Lemma serve_keeps P env req : keeps (serve P env req).
Proof.
  intros w Hs. rewrite serve_world. revert w Hs.
  change (keeps (dispatch (currencyRoutes P env) req)).
  apply dispatch_keeps. unfold currencyRoutes.
  repeat (apply Forall_cons_2; [intros r|]); [..|apply Forall_nil_2].
  - apply login_keeps.
  - apply verifyJWT_keeps.
  - apply verifyIP_keeps.
  - apply get_balance_keeps.
  - apply pay_keeps.
  - apply deposit_keeps.
  - apply withdraw_keeps.
  - apply top_keeps.
  - apply mark_mob_limit_keeps.
  - apply check_mob_limit_keeps.
  - apply daily_keeps.
Qed.

Lemma handle_all_nonneg P env (l : list Arrival) :
  forall d, nonneg d -> nonneg (handle_all P env d l).
Proof.
  induction l as [|a l IH]; intros d Hd; [exact Hd|].
  unfold handle_all in *. cbn [fold_left]. apply IH. unfold handle.
  apply (serve_keeps P env (request a) (world_of d (at_time a) (fault a))).
  split; [exact Hd|exact I].
Qed.

(** C4: along every sequence of requests the stored balances stay
    non-negative, and a pay or a withdraw whose debit exceeds the locked
    balance fails with "Insufficient funds" and writes nothing. *)
Theorem balances_never_negative (P : Platform) (env : Env) (d : Db) (l : list Arrival) :
  nonneg d ->
  nonneg (handle_all P env d l) /\
  (forall req w u to amt a,
     user_uuid req = Some u -> txn w = None ->
     JS.truthy (body_to_uuid (req_body req)) = Some to ->
     body_amount (req_body req) = Some amt -> 0 < amt ->
     user_funds (store w) !! u = Some a -> balance a < amt ->
     answer (pay req w) = Some (mkResponse 400 (ErrorBody "Insufficient funds")) /\
     store (pay req w).2 = store w) /\
  (forall req w u cnt a,
     user_uuid req = Some u -> txn w = None ->
     body_count (req_body req) = Some cnt -> 0 < cnt ->
     user_funds (store w) !! u = Some a ->
     balance a < cnt * default 1000 (body_denomination (req_body req)) ->
     answer (withdraw req w) = Some (mkResponse 400 (ErrorBody "Insufficient funds")) /\
     store (withdraw req w).2 = store w).
Proof.
  intros Hd. split; [now apply handle_all_nonneg|]. split.
  - intros req w u to amt a Hu Htxn Hto Hamt Hpos Ha Hlt.
    rewrite (pay_runs_insufficient req w u Hu Htxn to amt a Hto Hamt Hpos Ha Hlt).
    split; reflexivity.
  - intros req w u cnt a Hu Htxn Hcnt Hpos Ha Hlt.
    rewrite (withdraw_runs_insufficient req w u Hu Htxn cnt a Hcnt Hpos Ha Hlt).
    split; reflexivity.
Qed.

Lemma balances_never_negative_witness :
  let env := mkEnv (Some "s3cret") (Some "10.0.0.1") None in
  let gate r := mkRequest (method r) (path r) (Some "Bearer s3cret:u1:Alice")
                          (Some "10.0.0.1") None (req_body r) None in
  let d := funds_of [("u1", mkAccount "Alice" 100); ("u2", mkAccount "Bob" 0)] in
  let over := request_of POST "/currency/pay" "u1"
                (mkBody None None (Some "u2") (Some 150) None None) in
  let l := [ mkArrival (gate over) 0 None;
             mkArrival (gate (request_of POST "/currency/withdraw" "u1"
                               (mkBody None None None None (Some 1) None))) 1 None;
             mkArrival (gate (request_of POST "/currency/pay" "u1"
                               (mkBody None None (Some "u2") (Some 100) None None))) 2 None ] in
  nonneg (handle_all cet_platform env d l) /\
  user_funds (handle_all cet_platform env d l) !! "u1" = Some (mkAccount "Alice" 0) /\
  answer (pay over (world_of d 0 None)) =
    Some (mkResponse 400 (ErrorBody "Insufficient funds")).
Proof.
  intros env gate d over l.
  assert (Hd : nonneg d).
  { unfold nonneg. apply map_Forall_lookup. intros k a. unfold d, funds_of. simpl.
    intros [[<- <-]|[_ [[<- <-]|[_ Hk]]%lookup_insert_Some]]%lookup_insert_Some;
      simpl; [lia|lia|].
    rewrite lookup_empty in Hk. discriminate Hk. }
  destruct (balances_never_negative cet_platform env d l Hd) as (Hinv & Hpay & _).
  split; [exact Hinv|]. split; [reflexivity|].
  apply (Hpay over (world_of d 0 None) "u1" "u2" 150 (mkAccount "Alice" 100));
    try reflexivity; simpl; lia.
Defined.

(** ** Withdraw: what the input check covers *)


(** C2 (what the code does): the denomination is never checked.  With a
    positive count and a denomination that is zero or negative the
    computed amount is not positive, the request is not rejected: it
    answers 200 and the stored balance becomes [b - count * denomination],
    which is not below [b]. *)
Theorem withdraw_accepts_nonpositive_denomination (req : Request) (w : World)
    (u : string) (cnt den : Z) (a : Account) :
  user_uuid req = Some u ->
  txn w = None ->
  insert_fault w = None ->
  body_count (req_body req) = Some cnt ->
  body_denomination (req_body req) = Some den ->
  0 < cnt -> den <= 0 ->
  user_funds (store w) !! u = Some a ->
  0 <= balance a ->
  cnt * den <= 0 /\
  answer (withdraw req w) =
    Some (json (WithdrawBody (cnt * den) (balance a - cnt * den) den cnt)) /\
  user_funds (store (withdraw req w).2) !! u =
    Some (mkAccount (name a) (balance a - cnt * den)) /\
  balance a <= balance a - cnt * den.
Proof.
  intros Hu Htxn Hflt Hcnt Hden Hpos Hneg Ha Hbal.
  assert (Hamt : cnt * den <= 0) by nia.
  pose proof (withdraw_runs_committed req w u Hu Htxn cnt a Hcnt Hpos Ha) as Hrun.
  rewrite Hden in Hrun. simpl in Hrun. rewrite Hrun by lia.
  unfold told, committed, answer. rewrite Hflt. simpl.
  rewrite lookup_insert_eq. unfold credit.
  replace (balance a + - (cnt * den)) with (balance a - cnt * den) by lia.
  repeat split; [assumption|lia].
Qed.

Lemma withdraw_accepts_nonpositive_denomination_witness :
  let req := request_of POST "/currency/withdraw" "u1"
               (mkBody None None None None (Some 1) (Some (-1000))) in
  let w := world_of (funds_of [("u1", mkAccount "Alice" 0)]) 0 None in
  1 * -1000 <= 0 /\
  answer (withdraw req w) = Some (json (WithdrawBody (-1000) 1000 (-1000) 1)) /\
  user_funds (store (withdraw req w).2) !! "u1" = Some (mkAccount "Alice" 1000) /\
  0 <= 1000.
Proof.
  intros req w.
  apply (withdraw_accepts_nonpositive_denomination req w "u1" 1 (-1000)
           (mkAccount "Alice" 0)); try reflexivity; simpl; lia.
Defined.

(** ** Failures before the commit *)

(** In pay, withdraw and the daily claim every answer other than 200
    leaves the store as it was and the transaction closed. *)
Lemma pay_failure_rolls_back (req : Request) (w : World) (r : Response) :
  txn w = None -> insert_fault w = None ->
  answer (pay req w) = Some r -> status r <> 200 ->
  store (pay req w).2 = store w /\ txn (pay req w).2 = None.
Proof.
  intros Htxn Hflt. open_world w; subst. unfold pay, answer.
  open_body req.
  destruct (user_uuid req), (JS.truthy (field_to_uuid fields)),
    (field_amount fields); try (intros; split; reflexivity).
  crunch; simpl; intros [= <-] Hr;
    first [split; reflexivity | exfalso; apply Hr; reflexivity].
Qed.

Lemma withdraw_failure_rolls_back (req : Request) (w : World) (r : Response) :
  txn w = None -> insert_fault w = None ->
  answer (withdraw req w) = Some r -> status r <> 200 ->
  store (withdraw req w).2 = store w /\ txn (withdraw req w).2 = None.
Proof.
  intros Htxn Hflt. open_world w; subst. unfold withdraw, answer.
  open_body req.
  destruct (user_uuid req), (field_count fields);
    try (intros; split; reflexivity).
  crunch; simpl; intros [= <-] Hr;
    first [split; reflexivity | exfalso; apply Hr; reflexivity].
Qed.

Lemma daily_failure_rolls_back (P : Platform) (req : Request) (w : World) (r : Response) :
  txn w = None ->
  answer (daily P req w) = Some r -> status r <> 200 ->
  store (daily P req w).2 = store w /\ txn (daily P req w).2 = None.
Proof.
  intros Htxn. open_world w; subst. unfold daily, answer.
  destruct (user_uuid req); try (intros; split; reflexivity).
  crunch; try destruct (diff_hours_minutes _ _);
    simpl; intros [= <-] Hr;
    first [split; reflexivity | exfalso; apply Hr; reflexivity].
Qed.

(** In deposit too the store is as it was after an answer other than 200. *)
Lemma deposit_failure_keeps_store (req : Request) (w : World) (r : Response) :
  txn w = None -> insert_fault w = None ->
  answer (deposit req w) = Some r -> status r <> 200 ->
  store (deposit req w).2 = store w.
Proof.
  intros Htxn Hflt. open_world w; subst. unfold deposit, answer.
  open_body req.
  destruct (user_uuid req), (field_amount fields); try reflexivity.
  crunch; simpl; intros [= <-] Hr;
    first [reflexivity | exfalso; apply Hr; reflexivity].
Qed.

(** C3 (what the code does): a deposit on an account that does not exist
    answers 404 and returns without [ROLLBACK]: the store is unchanged,
    and the transaction that [BEGIN] opened is still open on the client. *)
Theorem deposit_absent_account_leaves_transaction_open (req : Request) (w : World)
    (u : string) (amt : Z) :
  user_uuid req = Some u ->
  txn w = None ->
  body_amount (req_body req) = Some amt ->
  0 < amt ->
  user_funds (store w) !! u = None ->
  answer (deposit req w) = Some (mkResponse 404 (ErrorBody "User not found")) /\
  store (deposit req w).2 = store w /\
  txn (deposit req w).2 = Some (store w).
Proof.
  intros Hu Htxn Hamt Hpos Ha.
  rewrite (deposit_runs_absent req w u Hu Htxn amt Hamt Hpos Ha).
  repeat split.
Qed.

Lemma deposit_absent_account_leaves_transaction_open_witness :
  let req := request_of POST "/currency/deposit" "ghost"
               (mkBody None None None (Some 100) None None) in
  let w := world_of (funds_of [("u1", mkAccount "Alice" 10)]) 0 None in
  answer (deposit req w) = Some (mkResponse 404 (ErrorBody "User not found")) /\
  store (deposit req w).2 = store w /\
  txn (deposit req w).2 = Some (store w).
Proof.
  intros req w.
  apply (deposit_absent_account_leaves_transaction_open req w "ghost" 100);
    reflexivity.
Defined.

(** ** Absent accounts *)

Lemma get_balance_runs_absent (req : Request) (w : World) (u : string) :
  user_uuid req = Some u ->
  user_funds (store w) !! u = None ->
  get_balance req w = (Ok (mkResponse 404 (ErrorBody "Player not found")), w).
Proof.
  intros Hu Ha. open_world w. unfold get_balance. rewrite Hu.
  run_handler. rewrite Ha. reflexivity.
Qed.

Lemma daily_runs_absent (P : Platform) (req : Request) (w : World) (u : string) :
  user_uuid req = Some u ->
  txn w = None ->
  user_funds (store w) !! u = None ->
  daily P req w = (Ok (mkResponse 404 (ErrorBody "User not found.")), w).
Proof.
  intros Hu Htxn Ha. open_world w; subst. unfold daily. rewrite Hu.
  run_handler. rewrite Ha. reflexivity.
Qed.

(** C7, the claim at a concrete request: a pay whose sender has no row is
    answered 400, not 404. *)
Lemma pay_absent_sender_is_400 :
  let req := request_of POST "/currency/pay" "ghost"
               (mkBody None None (Some "u1") (Some 5) None None) in
  let w := world_of (funds_of [("u1", mkAccount "Alice" 10)]) 0 None in
  answer (pay req w) = Some (mkResponse 400 (ErrorBody "Sender not found")) /\
  status <$> answer (pay req w) <> Some 404.
Proof. split; [reflexivity|discriminate]. Qed.

(** C7 (amended): when the account row [u] is absent, the balance query,
    the deposit and the daily claim answer 404; a pay whose sender is
    [u], a pay whose recipient is [u], and a withdraw answer 400, with the
    message naming what was not found. *)
Theorem absent_account_statuses (P : Platform) (w : World) (u : string) :
  txn w = None ->
  user_funds (store w) !! u = None ->
  (forall req, user_uuid req = Some u ->
     answer (get_balance req w) = Some (mkResponse 404 (ErrorBody "Player not found"))) /\
  (forall req amt, user_uuid req = Some u ->
     body_amount (req_body req) = Some amt -> 0 < amt ->
     answer (deposit req w) = Some (mkResponse 404 (ErrorBody "User not found"))) /\
  (forall req, user_uuid req = Some u ->
     answer (daily P req w) = Some (mkResponse 404 (ErrorBody "User not found."))) /\
  (forall req to amt, user_uuid req = Some u ->
     JS.truthy (body_to_uuid (req_body req)) = Some to ->
     body_amount (req_body req) = Some amt -> 0 < amt ->
     answer (pay req w) = Some (mkResponse 400 (ErrorBody "Sender not found"))) /\
  (forall req from amt a, user_uuid req = Some from ->
     JS.truthy (body_to_uuid (req_body req)) = Some u ->
     body_amount (req_body req) = Some amt -> 0 < amt ->
     user_funds (store w) !! from = Some a -> amt <= balance a ->
     answer (pay req w) = Some (mkResponse 400 (ErrorBody "Recipient not found"))) /\
  (forall req cnt, user_uuid req = Some u ->
     body_count (req_body req) = Some cnt -> 0 < cnt ->
     answer (withdraw req w) = Some (mkResponse 400 (ErrorBody "User not found"))).
Proof.
  intros Htxn Ha. repeat split.
  - intros req Hu. now rewrite (get_balance_runs_absent req w u Hu Ha).
  - intros req amt Hu Hamt Hpos.
    now rewrite (deposit_runs_absent req w u Hu Htxn amt Hamt Hpos Ha).
  - intros req Hu. now rewrite (daily_runs_absent P req w u Hu Htxn Ha).
  - intros req to amt Hu Hto Hamt Hpos.
    now rewrite (pay_runs_absent_sender req w u Hu Htxn to amt Hto Hamt Hpos Ha).
  - intros req from amt a Hu Hto Hamt Hpos Hfrom Hle.
    now rewrite (pay_runs_absent_recipient req w from Hu Htxn u amt a Hto Hamt Hpos Hfrom Hle Ha).
  - intros req cnt Hu Hcnt Hpos.
    now rewrite (withdraw_runs_absent req w u Hu Htxn cnt Hcnt Hpos Ha).
Qed.

Lemma absent_account_statuses_witness :
  let w := world_of (funds_of [("u1", mkAccount "Alice" 10)]) 0 None in
  answer (get_balance (request_of GET "/currency/balance" "ghost" no_body) w) =
    Some (mkResponse 404 (ErrorBody "Player not found")) /\
  answer (deposit (request_of POST "/currency/deposit" "ghost"
                     (mkBody None None None (Some 7) None None)) w) =
    Some (mkResponse 404 (ErrorBody "User not found")) /\
  answer (pay (request_of POST "/currency/pay" "u1"
                 (mkBody None None (Some "ghost") (Some 5) None None)) w) =
    Some (mkResponse 400 (ErrorBody "Recipient not found")) /\
  answer (withdraw (request_of POST "/currency/withdraw" "ghost"
                      (mkBody None None None None (Some 1) (Some 1))) w) =
    Some (mkResponse 400 (ErrorBody "User not found")).
Proof.
  intros w.
  destruct (absent_account_statuses cet_platform w "ghost" eq_refl eq_refl)
    as (Hbal & Hdep & _ & _ & Hrec & Hwd).
  split; [now apply Hbal|].
  split; [now apply (Hdep _ 7)|].
  split; [now apply (Hrec _ "u1" 5 (mkAccount "Alice" 10))|].
  now apply (Hwd _ 1).
Defined.

(** ** A failing append to the audit log *)

(** C8, the claim at a concrete request: the append fails after the
    commit of a pay; the balances stay changed, and the caller is
    answered 400 with the store's error, not the success body. *)
Lemma pay_failed_append_is_400 :
  let req := request_of POST "/currency/pay" "u1"
               (mkBody None None (Some "u2") (Some 30) None None) in
  let d := funds_of [("u1", mkAccount "Alice" 100); ("u2", mkAccount "Bob" 0)] in
  let w := world_of d 0 (Some "relation does not exist") in
  answer (pay req w) = Some (mkResponse 400 (ErrorBody "relation does not exist")) /\
  answer (pay req w) <> Some (json (PayBody 70)) /\
  user_funds (store (pay req w).2) !! "u1" = Some (mkAccount "Alice" 70) /\
  user_funds (store (pay req w).2) !! "u2" = Some (mkAccount "Bob" 30).
Proof. repeat split. discriminate. Qed.

(** C8 (amended): when the append to the transaction log fails after the
    commit of a pay, a deposit or a withdraw, the committed funds stay as
    committed, no record is appended, one line of severity error is
    logged (the route, then the text of the error as the database driver
    prints it, its name ["error"] before the message), and the caller
    receives status 400 carrying the error's message instead of the
    success body. *)
Theorem failed_append_after_commit (req : Request) (w : World) (u e : string)
    (a : Account) :
  user_uuid req = Some u ->
  txn w = None ->
  insert_fault w = Some e ->
  user_funds (store w) !! u = Some a ->
  (forall to amt b,
     JS.truthy (body_to_uuid (req_body req)) = Some to ->
     body_amount (req_body req) = Some amt -> 0 < amt <= balance a ->
     <[u := credit (- amt) a]> (user_funds (store w)) !! to = Some b ->
     let w' := (pay req w).2 in
     answer (pay req w) = Some (mkResponse 400 (ErrorBody e)) /\
     user_funds (store w') =
       <[to := credit amt b]> (<[u := credit (- amt) a]> (user_funds (store w))) /\
     currency_transactions (store w') = currency_transactions (store w) /\
     txn w' = None /\
     logged w' =
       (logged w ++
        [(error, "/currency/pay error: " +:+ error_text (DatabaseError e))])%list) /\
  (forall amt,
     body_amount (req_body req) = Some amt -> 0 < amt ->
     let w' := (deposit req w).2 in
     answer (deposit req w) = Some (mkResponse 400 (ErrorBody e)) /\
     user_funds (store w') = <[u := credit amt a]> (user_funds (store w)) /\
     currency_transactions (store w') = currency_transactions (store w) /\
     txn w' = None /\
     logged w' =
       (logged w ++
        [(error, "/currency/deposit error: " +:+ error_text (DatabaseError e))])%list) /\
  (forall cnt,
     body_count (req_body req) = Some cnt -> 0 < cnt ->
     let amt := cnt * default 1000 (body_denomination (req_body req)) in
     amt <= balance a ->
     let w' := (withdraw req w).2 in
     answer (withdraw req w) = Some (mkResponse 400 (ErrorBody e)) /\
     user_funds (store w') = <[u := credit (- amt) a]> (user_funds (store w)) /\
     currency_transactions (store w') = currency_transactions (store w) /\
     txn w' = None /\
     logged w' =
       (logged w ++
        [(error, "/currency/withdraw error: " +:+ error_text (DatabaseError e))])%list).
Proof.
  intros Hu Htxn Hflt Ha. repeat apply conj.
  - intros to amt b Hto Hamt [Hpos Hle] Hb w'. subst w'.
    rewrite (pay_runs_committed req w u Hu Htxn to amt a b Hto Hamt Hpos Ha Hle Hb).
    unfold told, committed, answer. rewrite Hflt. repeat split.
  - intros amt Hamt Hpos w'. subst w'.
    rewrite (deposit_runs_committed req w u Hu Htxn amt a Hamt Hpos Ha).
    unfold told, committed, answer. rewrite Hflt. repeat split.
  - intros cnt Hcnt Hpos amt Hle w'. subst w'.
    rewrite (withdraw_runs_committed req w u Hu Htxn cnt a Hcnt Hpos Ha Hle).
    unfold told, committed, answer. rewrite Hflt. repeat split.
Qed.

Lemma failed_append_after_commit_witness :
  let req := request_of POST "/currency/deposit" "u1"
               (mkBody None None None (Some 25) None None) in
  let w := world_of (funds_of [("u1", mkAccount "Alice" 100)]) 0 (Some "disk full") in
  let w' := (deposit req w).2 in
  answer (deposit req w) = Some (mkResponse 400 (ErrorBody "disk full")) /\
  user_funds (store w') = <[ "u1" := mkAccount "Alice" 125 ]> (user_funds (store w)) /\
  currency_transactions (store w') = [] /\
  txn w' = None /\
  logged w' = [(error, "/currency/deposit error: error: disk full")].
Proof.
  intros req w w'.
  destruct (failed_append_after_commit req w "u1" "disk full" (mkAccount "Alice" 100)
              eq_refl eq_refl eq_refl eq_refl) as (_ & Hdep & _).
  apply (Hdep 25); [reflexivity|lia].
Defined.

(** ** The router and its gates *)

Lemma dispatch_route_miss m p handler rest req :
  Method_eqb m (method req) && matches p (path req) = false ->
  dispatch (Route m p handler :: rest) req = dispatch rest req.
Proof. intros H. simpl. now rewrite H. Qed.

Lemma dispatch_route_hit m p handler rest req :
  Method_eqb m (method req) && matches p (path req) = true ->
  dispatch (Route m p handler :: rest) req = handler req.
Proof. intros H. simpl. now rewrite H. Qed.

Lemma verifyJWT_never_throws P env req w e w1 :
  verifyJWT P env req w <> (Throw e, w1).
Proof.
  unfold verifyJWT.
  destruct (JS.truthy (authorization req)); [|discriminate].
  destruct (JS.truthy _); [|discriminate].
  unfold try_catch.
  destruct (JS.truthy (JWT_SECRET env)); [|discriminate].
  destruct (jwt_verify P _ _); discriminate.
Qed.

Lemma verifyIP_never_throws env req w e w1 :
  verifyIP env req w <> (Throw e, w1).
Proof. unfold verifyIP. destruct (JS.includes _ _); discriminate. Qed.

Lemma dispatch_use_hit prefix middleware rest req :
  under prefix (path req) = true ->
  dispatch (Use prefix middleware :: rest) req =
    (let* step := middleware req in
     match step with
     | Next req' => dispatch rest req'
     | Respond res => ret res
     end).
Proof. intros H. simpl. now rewrite H. Qed.

Lemma verifyJWT_runs_missing P env req w :
  JS.truthy (authorization req) = None ->
  verifyJWT P env req w =
    (Ok (Respond (mkResponse 401 (ErrorBody "Missing Authorization header"))), w).
Proof. intros H. unfold verifyJWT. now rewrite H. Qed.

Lemma verifyJWT_runs_valid P env req w h token secret decoded :
  JS.truthy (authorization req) = Some h ->
  JS.truthy (JS.split " " h !! 1%nat) = Some token ->
  JS.truthy (JWT_SECRET env) = Some secret ->
  jwt_verify P token secret = Some decoded ->
  verifyJWT P env req w = (Ok (Next (set_user req decoded)), w).
Proof.
  intros H1 H2 H3 H4. unfold verifyJWT. rewrite H1, H2.
  unfold try_catch. now rewrite H3, H4.
Qed.

(** The bearer gate never changes the world, and what it passes on is
    the request with [user] set. *)
Lemma verifyJWT_next P env req w r1 w1 :
  verifyJWT P env req w = (Ok (Next r1), w1) ->
  w1 = w /\ exists decoded, r1 = set_user req decoded.
Proof.
  unfold verifyJWT.
  destruct (JS.truthy (authorization req)); [|discriminate].
  destruct (JS.truthy _); [|discriminate].
  unfold try_catch.
  destruct (JS.truthy (JWT_SECRET env)); [|discriminate].
  destruct (jwt_verify P _ _) as [decoded|]; [|discriminate].
  intros [= <- <-]. eauto.
Qed.

Lemma verifyIP_runs_allowed env req w :
  JS.includes (allowed env)
    (normalizedIp (JS.nullish (x_forwarded_for req) (remoteAddress req))) = true ->
  verifyIP env req w = (Ok (Next req), w).
Proof. intros H. unfold verifyIP. now rewrite H. Qed.

Lemma verifyIP_runs_blocked env req w :
  JS.includes (allowed env)
    (normalizedIp (JS.nullish (x_forwarded_for req) (remoteAddress req))) = false ->
  answer (verifyIP env req w) =
    Some (Respond (mkResponse 403 (ErrorBody "Forbidden: Your IP is not allowed."))).
Proof. intros H. unfold verifyIP. now rewrite H. Qed.

(** Every request below [/currency] other than the login goes through
    the bearer gate, then the origin gate, then the routes registered
    after them. *)
Lemma serve_behind_gates P env req w :
  under "/currency" (path req) = true ->
  Method_eqb POST (method req) && matches "/currency/login" (path req) = false ->
  serve P env req w =
    (let* s1 := verifyJWT P env req in
     match s1 with
     | Next r1 =>
         let* s2 := verifyIP env r1 in
         match s2 with
         | Next r2 =>
             try_catch (dispatch (drop 3 (currencyRoutes P env)) r2) finalhandler
         | Respond res => ret res
         end
     | Respond res => ret res
     end) w.
Proof.
  intros Hunder Hlogin. unfold serve, currencyRoutes.
  rewrite dispatch_route_miss by exact Hlogin.
  rewrite dispatch_use_hit by exact Hunder.
  unfold try_catch, bind.
  destruct (verifyJWT P env req w) as [[[r1|res]|e] w1] eqn:HJ.
  - apply verifyJWT_next in HJ as [-> [decoded ->]].
    rewrite dispatch_use_hit by exact Hunder.
    unfold bind.
    destruct (verifyIP env (set_user req decoded) w) as [[[r2|res]|e] w2] eqn:HI.
    + reflexivity.
    + reflexivity.
    + now apply verifyIP_never_throws in HI.
  - reflexivity.
  - now apply verifyJWT_never_throws in HJ.
Qed.

#[global] Instance richer_trans : Transitive SQL.richer.
Proof. intros x y z. unfold SQL.richer. lia. Qed.

#[global] Instance richer_total : Total SQL.richer.
Proof. intros x y. unfold SQL.richer. lia. Qed.

(** The rows of the leaderboard query: at most ten, each the name and
    balance of a stored account, richest first. *)
Lemma select_top_rows (d : Db) :
  let rows := (SQL.select_top d).1 in
  (length rows <= 10)%nat /\
  StronglySorted not_below rows /\
  forall r, r ∈ rows ->
    exists id a, user_funds d !! id = Some a /\ r = (name a, balance a).
Proof.
  unfold SQL.select_top. simpl. repeat split.
  - rewrite length_fmap, length_take. lia.
  - apply StronglySorted_fmap with (R1 := SQL.richer); [intros x y H; exact H|].
    apply (StronglySorted_app_1_l _ _ (drop 10 (merge_sort SQL.richer (map_to_list (user_funds d))))).
    rewrite take_drop. apply StronglySorted_merge_sort; apply _.
  - intros r [[id a] [-> Hin]]%list_elem_of_fmap.
    apply elem_of_take in Hin as (i & Hin & _).
    apply list_elem_of_lookup_2 in Hin.
    rewrite merge_sort_Permutation in Hin.
    apply elem_of_map_to_list in Hin. eauto.
Qed.

Lemma serve_top_passed P env req w :
  method req = GET -> path req = "/currency/top" ->
  dispatch (drop 3 (currencyRoutes P env)) req w =
    (Ok (json (TopBody (SQL.select_top (store w)).1)), w).
Proof.
  intros Hm Hp. unfold currencyRoutes. cbn [drop].
  do 4 (rewrite dispatch_route_miss by (rewrite Hm, Hp; reflexivity)).
  rewrite dispatch_route_hit by (rewrite Hm, Hp; reflexivity).
  destruct w as [d tx lg ck flt]. reflexivity.
Qed.

(** C6, the claim at a concrete request: GET /top without an
    authorization header is answered 401 by the bearer gate, whatever the
    source address; no leaderboard is sent. *)
Lemma top_without_token_is_401 :
  let env := mkEnv (Some "s3cret") (Some "10.0.0.1") None in
  let req := mkRequest GET "/currency/top" None None (Some "203.0.113.9") no_body None in
  let w := world_of (funds_of [("u1", mkAccount "Alice" 50)]) 0 None in
  answer (serve cet_platform env req w) =
    Some (mkResponse 401 (ErrorBody "Missing Authorization header")) /\
  answer (serve cet_platform env req w) <> Some (json (TopBody [("Alice", 50)])).
Proof. split; [reflexivity|discriminate]. Qed.

(** C6 (amended): GET /top is registered after the bearer gate and the
    origin gate.  Without an authorization header the answer is 401; with
    a token that does not verify it is 403; with a verified token and a
    checked address outside the allow list it is 403; and only a request
    that passes both gates receives the leaderboard: at most ten rows,
    each the name and balance of an account, ordered by balance
    descending. *)
Theorem top_is_behind_the_gates (P : Platform) (env : Env) (req : Request) (w : World) :
  method req = GET ->
  path req = "/currency/top" ->
  let ip := normalizedIp (JS.nullish (x_forwarded_for req) (remoteAddress req)) in
  (JS.truthy (authorization req) = None ->
   answer (serve P env req w) =
     Some (mkResponse 401 (ErrorBody "Missing Authorization header"))) /\
  (forall h token secret,
     JS.truthy (authorization req) = Some h ->
     JS.truthy (JS.split " " h !! 1%nat) = Some token ->
     JS.truthy (JWT_SECRET env) = Some secret ->
     (jwt_verify P token secret = None ->
      answer (serve P env req w) =
        Some (mkResponse 403 (ErrorBody "Invalid or expired token"))) /\
     (forall decoded, jwt_verify P token secret = Some decoded ->
        (JS.includes (allowed env) ip = false ->
         answer (serve P env req w) =
           Some (mkResponse 403 (ErrorBody "Forbidden: Your IP is not allowed."))) /\
        (JS.includes (allowed env) ip = true ->
         exists rows,
           answer (serve P env req w) = Some (json (TopBody rows)) /\
           (length rows <= 10)%nat /\
           StronglySorted not_below rows /\
           forall r, r ∈ rows ->
             exists id a, user_funds (store w) !! id = Some a /\
                          r = (name a, balance a)))).
Proof.
  intros Hm Hp ip.
  assert (Hgates := serve_behind_gates P env req w).
  rewrite Hm, Hp in Hgates. specialize (Hgates eq_refl eq_refl).
  rewrite Hgates. clear Hgates. unfold bind. split.
  - intros Hnone. now rewrite verifyJWT_runs_missing.
  - intros h token secret Hh Htoken Hsecret. split.
    + intros Hbad. unfold verifyJWT, try_catch.
      now rewrite Hh, Htoken, Hsecret, Hbad.
    + intros decoded Hgood.
      rewrite (verifyJWT_runs_valid P env req w h token secret decoded) by assumption.
      split; intros Hip.
      * pose proof (verifyIP_runs_blocked env (set_user req decoded) w Hip) as Hblocked.
        unfold answer in *.
        destruct (verifyIP env (set_user req decoded) w) as [[[r2|res]|e] w2];
          simpl in *; congruence.
      * rewrite (verifyIP_runs_allowed env (set_user req decoded) w) by exact Hip.
        unfold try_catch. rewrite serve_top_passed by assumption.
        exists (SQL.select_top (store w)).1. split; [reflexivity|].
        apply select_top_rows.
Qed.

Lemma top_is_behind_the_gates_witness :
  let env := mkEnv (Some "s3cret") (Some "10.0.0.1") None in
  let req := mkRequest GET "/currency/top" (Some "Bearer s3cret:u1:Alice")
                       (Some "::ffff:10.0.0.1, 198.51.100.7") (Some "203.0.113.9")
                       no_body None in
  let d := funds_of [("u1", mkAccount "Alice" 50); ("u2", mkAccount "Bob" 200);
                     ("u3", mkAccount "Carol" 10)] in
  let w := world_of d 0 None in
  answer (serve cet_platform env req w) =
    Some (json (TopBody [("Bob", 200); ("Alice", 50); ("Carol", 10)])) /\
  exists rows,
    answer (serve cet_platform env req w) = Some (json (TopBody rows)) /\
    (length rows <= 10)%nat /\
    StronglySorted not_below rows /\
    forall r, r ∈ rows ->
      exists id a, user_funds d !! id = Some a /\ r = (name a, balance a).
Proof.
  intros env req d w. split; [reflexivity|].
  destruct (top_is_behind_the_gates cet_platform env req w eq_refl eq_refl)
    as (_ & Hvalid).
  destruct (Hvalid "Bearer s3cret:u1:Alice" "s3cret:u1:Alice" "s3cret"
              eq_refl eq_refl eq_refl) as (_ & Hdecoded).
  destruct (Hdecoded (mkPayload "u1" "Alice") eq_refl) as (_ & Hallowed).
  apply Hallowed. reflexivity.
Defined.

(** ** The origin gate *)

Lemma replace_no_occurrence (pat rep s : string) :
  occurs pat s = false -> JS.replace pat rep s = s.
Proof.
  induction s as [|c s IH]; simpl.
  - intros [Hp _]%orb_false_iff. now rewrite Hp.
  - intros [Hp Ho]%orb_false_iff. rewrite Hp. now rewrite IH.
Qed.

Lemma first_no_separator (sep : ascii) (s : string) :
  all_chars (fun c => negb (Ascii.eqb c sep)) s = true -> JS.first sep s = s.
Proof.
  unfold JS.first. induction s as [|c s IH]; simpl; [reflexivity|].
  intros [Hc Hs]%andb_true_iff. specialize (IH Hs).
  destruct (JS.split_aux sep s) as [piece pieces]. simpl in *.
  apply negb_true_iff in Hc. rewrite Hc. simpl. now rewrite IH.
Qed.

Lemma trim_no_blank (s : string) :
  all_chars (fun c => negb (JS.is_space c)) s = true -> JS.trim s = s.
Proof.
  intros H. unfold JS.trim.
  assert (Hstart : JS.trim_start s = s).
  { destruct s as [|c s]; [reflexivity|]. simpl in *.
    apply andb_true_iff in H as [Hc _]. apply negb_true_iff in Hc. now rewrite Hc. }
  rewrite Hstart. clear Hstart.
  induction s as [|c s IH]; [reflexivity|].
  simpl in *. apply andb_true_iff in H as [Hc Hs]. apply negb_true_iff in Hc.
  rewrite (IH Hs), Hc. now destruct s.
Qed.

Lemma all_chars_impl (p q : ascii -> bool) (s : string) :
  (forall c, p c = true -> q c = true) -> all_chars p s = true -> all_chars q s = true.
Proof.
  intros Hpq. induction s as [|c s IH]; simpl; [reflexivity|].
  intros [Hc Hs]%andb_true_iff. rewrite (Hpq c Hc). now apply IH.
Qed.

(** Normalisation leaves a bare address as it is. *)
Lemma normalizedIp_bare (ip : string) :
  bare_address ip = true -> normalizedIp (Some ip) = ip.
Proof.
  unfold bare_address. intros [Hocc Hchars]%andb_true_iff.
  apply negb_true_iff in Hocc.
  assert (Hraw : default "" (JS.truthy (Some ip)) = ip).
  { simpl. destruct (String.eqb_spec ip ""); [now subst|reflexivity]. }
  unfold normalizedIp. rewrite Hraw, replace_no_occurrence by exact Hocc.
  rewrite first_no_separator, trim_no_blank; [reflexivity| |].
  - revert Hchars. apply all_chars_impl. now intros c [_ H]%andb_true_iff.
  - revert Hchars. apply all_chars_impl. now intros c [H _]%andb_true_iff.
Qed.

Lemma normalizedIp_header (h : string) :
  normalizedIp (Some h) = JS.trim (JS.first "," (JS.replace "::ffff:" "" h)).
Proof.
  unfold normalizedIp. simpl.
  destruct (String.eqb_spec h ""); [now subst|reflexivity].
Qed.

Lemma verifyIP_accepted env req w :
  accepted (verifyIP env req w) =
  JS.includes (allowed env)
    (normalizedIp (JS.nullish (x_forwarded_for req) (remoteAddress req))).
Proof.
  unfold accepted, verifyIP.
  now destruct (JS.includes _ _).
Qed.

Lemma includes_elem_of (l : list string) (x : string) :
  x ∈ l -> JS.includes l x = true.
Proof.
  intros Hin. unfold JS.includes. apply existsb_exists.
  exists x. split; [now apply list_elem_of_In|apply String.eqb_refl].
Qed.

Lemma includes_true_elem_of (l : list string) (x : string) :
  JS.includes l x = true -> x ∈ l.
Proof.
  unfold JS.includes. intros (y & Hin & Heq)%existsb_exists.
  apply String.eqb_eq in Heq. subst. now apply list_elem_of_In.
Qed.

Lemma substring_all (s : string) : String.substring 0 (String.length s) s = s.
Proof. induction s as [|c s IH]; simpl; [reflexivity|now rewrite IH]. Qed.

Lemma append_cons (c : ascii) (s t : string) :
  String c s +:+ t = String c (s +:+ t).
Proof. reflexivity. Qed.

Lemma append_associative (a b c : string) : (a +:+ b) +:+ c = a +:+ (b +:+ c).
Proof.
  induction a as [|x a IH]; [reflexivity|].
  rewrite !append_cons. now rewrite IH.
Qed.

Lemma append_empty (a : string) : a +:+ "" = a.
Proof. induction a as [|x a IH]; [reflexivity|]. now rewrite append_cons, IH. Qed.

Lemma all_chars_append (p : ascii -> bool) (a b : string) :
  all_chars p (a +:+ b) = all_chars p a && all_chars p b.
Proof.
  induction a as [|x a IH]; [reflexivity|].
  rewrite append_cons. simpl. now rewrite IH, andb_assoc.
Qed.

Lemma replace_unfold (pat rep s : string) :
  JS.replace pat rep s =
  if String.prefix pat s
  then rep +:+ String.substring (String.length pat)
                                (String.length s - String.length pat) s
  else match s with
       | EmptyString => EmptyString
       | String c s' => String c (JS.replace pat rep s')
       end.
Proof. destruct s; reflexivity. Qed.

Lemma prefix_append (pat t : string) : String.prefix pat (pat +:+ t) = true.
Proof.
  induction pat as [|a pat IH]; simpl; [now destruct t|].
  now destruct (ascii_dec a a).
Qed.

Lemma prefix_split (pat s : string) :
  String.prefix pat s = true -> exists t, s = pat +:+ t.
Proof.
  revert s. induction pat as [|a pat IH]; intros s H.
  - now exists s.
  - destruct s as [|b s]; [discriminate|]. simpl in H.
    destruct (ascii_dec a b) as [->|]; [|discriminate].
    destruct (IH s H) as [t ->]. now exists t.
Qed.

(** The first occurrence at the front: it is replaced, the rest stays. *)
Lemma replace_front (pat rep t : string) :
  JS.replace pat rep (pat +:+ t) = rep +:+ t.
Proof.
  rewrite replace_unfold, prefix_append. f_equal.
  induction pat as [|a pat IH]; simpl.
  - rewrite Nat.sub_0_r. apply substring_all.
  - exact IH.
Qed.

(** A pattern without the character [c] that starts before a [c] ends
    before it. *)
Lemma prefix_before (pat s r : string) (c : ascii) :
  all_chars (fun x => negb (Ascii.eqb x c)) pat = true ->
  String.prefix pat (s +:+ String c r) = true -> String.prefix pat s = true.
Proof.
  revert s. induction pat as [|a pat IH]; intros s Hpat H.
  - now destruct s.
  - simpl in Hpat. apply andb_true_iff in Hpat as [Ha Hpat].
    apply negb_true_iff, Ascii.eqb_neq in Ha.
    destruct s as [|b s]; simpl in *.
    + now destruct (ascii_dec a c).
    + destruct (ascii_dec a b); [now apply IH|discriminate].
Qed.

(** What follows the first separator has no part in what [replace]
    leaves before it. *)
Lemma replace_before_separator (pat rep head r : string) (sep : ascii) :
  pat <> "" ->
  all_chars (fun x => negb (Ascii.eqb x sep)) pat = true ->
  exists r', JS.replace pat rep (head +:+ String sep r) =
             JS.replace pat rep head +:+ String sep r'.
Proof.
  intros Hne Hpat. induction head as [|c head IH].
  - exists (JS.replace pat rep r). destruct pat as [|a pat]; [done|].
    simpl in Hpat. apply andb_true_iff in Hpat as [Ha _].
    apply negb_true_iff, Ascii.eqb_neq in Ha.
    simpl. now destruct (ascii_dec a sep).
  - destruct (String.prefix pat (String c head)) eqn:Hp.
    + apply prefix_split in Hp as [t Ht]. rewrite Ht.
      exists r. now rewrite append_associative, !replace_front, append_associative.
    + destruct IH as [r' IH]. exists r'.
      rewrite (replace_unfold pat rep (String c head)), Hp.
      rewrite (replace_unfold pat rep (String c head +:+ String sep r)).
      destruct (String.prefix pat (String c head +:+ String sep r)) eqn:Hq.
      * apply prefix_before in Hq; [congruence|exact Hpat].
      * simpl. now rewrite IH.
Qed.

Lemma first_before_separator (sep : ascii) (s r : string) :
  all_chars (fun c => negb (Ascii.eqb c sep)) s = true ->
  JS.first sep (s +:+ String sep r) = s.
Proof.
  unfold JS.first. induction s as [|c s IH]; simpl.
  - intros _. destruct (JS.split_aux sep r). now rewrite Ascii.eqb_refl.
  - intros [Hc Hs]%andb_true_iff. specialize (IH Hs).
    destruct (JS.split_aux sep (s +:+ String sep r)) as [piece pieces].
    apply negb_true_iff in Hc. rewrite Hc. simpl in *. now rewrite IH.
Qed.

(** Blanks before the pattern are kept. *)
Lemma replace_after_blanks (a : ascii) (pat rep lead s : string) :
  JS.is_space a = false ->
  all_chars JS.is_space lead = true ->
  JS.replace (String a pat) rep (lead +:+ s) = lead +:+ JS.replace (String a pat) rep s.
Proof.
  intros Ha. induction lead as [|c lead IH]; [reflexivity|].
  intros [Hc Hl]%andb_true_iff. simpl.
  destruct (ascii_dec a c) as [->|]; [congruence|].
  now rewrite IH.
Qed.

Lemma occurs_before_blanks (pat s trail : string) :
  pat <> "" ->
  all_chars (fun c => negb (JS.is_space c)) pat = true ->
  all_chars JS.is_space trail = true ->
  occurs pat s = false -> occurs pat (s +:+ trail) = false.
Proof.
  intros Hne Hpat Htrail.
  assert (Hblank : occurs pat trail = false).
  { clear -Hne Hpat Htrail. destruct pat as [|a pat]; [done|].
    cbn [all_chars] in Hpat. apply andb_true_iff in Hpat as [Ha _].
    apply negb_true_iff in Ha.
    induction trail as [|c trail IH]; [reflexivity|].
    cbn [all_chars] in Htrail. apply andb_true_iff in Htrail as [Hc Ht].
    simpl. destruct (ascii_dec a c) as [->|]; [now rewrite Hc in Ha|].
    now apply IH. }
  induction s as [|c s IH]; [intros _; exact Hblank|].
  intros H. cbn [occurs] in H. apply orb_false_iff in H as [Hp Ho].
  change (occurs pat (String c s +:+ trail))
    with (String.prefix pat (String c s +:+ trail) || occurs pat (s +:+ trail)).
  rewrite (IH Ho), orb_false_r.
  destruct trail as [|b trail].
  - now rewrite append_empty.
  - destruct (String.prefix pat (String c s +:+ String b trail)) eqn:Hq; [|reflexivity].
    apply prefix_before in Hq; [congruence|].
    cbn [all_chars] in Htrail. apply andb_true_iff in Htrail as [Hb _].
    revert Hpat. apply all_chars_impl. intros x Hx.
    apply negb_true_iff. apply negb_true_iff in Hx.
    destruct (Ascii.eqb_spec x b); [congruence|reflexivity].
Qed.

Lemma trim_start_blanks (lead s : string) :
  all_chars JS.is_space lead = true -> JS.trim_start (lead +:+ s) = JS.trim_start s.
Proof.
  induction lead as [|c lead IH]; [reflexivity|].
  intros [Hc Hl]%andb_true_iff. simpl. rewrite Hc. now apply IH.
Qed.

Lemma trim_end_blanks (trail : string) :
  all_chars JS.is_space trail = true -> JS.trim_end trail = "".
Proof.
  induction trail as [|c trail IH]; [reflexivity|].
  intros [Hc Hl]%andb_true_iff. simpl. now rewrite (IH Hl), Hc.
Qed.

Lemma trim_end_before_blanks (s trail : string) :
  all_chars (fun c => negb (JS.is_space c)) s = true ->
  all_chars JS.is_space trail = true ->
  JS.trim_end (s +:+ trail) = s.
Proof.
  intros Hs Htrail. induction s as [|c s IH]; [now apply trim_end_blanks|].
  cbn [all_chars] in Hs. apply andb_true_iff in Hs as [Hc Hs]. apply negb_true_iff in Hc.
  simpl. rewrite (IH Hs), Hc. now destruct s.
Qed.

(** Blanks around a piece without blanks are trimmed away. *)
Lemma trim_padded (lead s trail : string) :
  all_chars JS.is_space lead = true ->
  all_chars (fun c => negb (JS.is_space c)) s = true ->
  all_chars JS.is_space trail = true ->
  JS.trim (lead +:+ s +:+ trail) = s.
Proof.
  intros Hl Hs Ht. unfold JS.trim. rewrite trim_start_blanks by exact Hl.
  destruct s as [|c s].
  - simpl. clear Hs. induction trail as [|b trail IH]; [reflexivity|].
    cbn [all_chars] in Ht. apply andb_true_iff in Ht as [Hb Ht]. simpl. rewrite Hb. now apply IH.
  - assert (Hc : JS.is_space c = false).
    { cbn [all_chars] in Hs. apply andb_true_iff in Hs as [Hc _]. now apply negb_true_iff in Hc. }
    change (JS.trim_start (String c s +:+ trail))
      with (if JS.is_space c then JS.trim_start (s +:+ trail) else String c s +:+ trail).
    rewrite Hc. now apply trim_end_before_blanks.
Qed.

(** The address checked for a header: blanks, an optional ["::ffff:"],
    the address, blanks, and possibly a comma and anything after it. *)
Lemma normalizedIp_decorated (lead mapped ip trail rest : string) :
  all_chars JS.is_space lead = true ->
  mapped = "" \/ mapped = "::ffff:" ->
  bare_address ip = true ->
  all_chars JS.is_space trail = true ->
  rest = "" \/ (exists r, rest = String "," r) ->
  normalizedIp (Some (lead +:+ mapped +:+ ip +:+ trail +:+ rest)) = ip.
Proof.
  intros Hl Hm Hip Ht Hr.
  unfold bare_address in Hip. apply andb_true_iff in Hip as [Hocc Hchars].
  apply negb_true_iff in Hocc.
  assert (Hnb : all_chars (fun c => negb (JS.is_space c)) ip = true).
  { revert Hchars. apply all_chars_impl. now intros c [_ H]%andb_true_iff. }
  assert (Hnc : all_chars (fun c => negb (Ascii.eqb c ",")) ip = true).
  { revert Hchars. apply all_chars_impl. now intros c [H _]%andb_true_iff. }
  assert (Hbc : forall s, all_chars JS.is_space s = true ->
                          all_chars (fun c => negb (Ascii.eqb c ",")) s = true).
  { intros s. apply all_chars_impl. intros c Hc. apply negb_true_iff.
    destruct (Ascii.eqb_spec c ","); [now subst|reflexivity]. }
  assert (Hhead : JS.replace "::ffff:" "" (lead +:+ mapped +:+ ip +:+ trail) =
                  lead +:+ ip +:+ trail).
  { rewrite replace_after_blanks by (exact Hl || reflexivity).
    destruct Hm as [-> | ->].
    - change ("" +:+ ip +:+ trail) with (ip +:+ trail).
      rewrite replace_no_occurrence; [reflexivity|].
      now apply occurs_before_blanks.
    - now rewrite replace_front. }
  assert (Hfirst : JS.first "," (JS.replace "::ffff:" ""
                      (lead +:+ mapped +:+ ip +:+ trail +:+ rest)) =
                   lead +:+ ip +:+ trail).
  { assert (Hcf : all_chars (fun c => negb (Ascii.eqb c ",")) (lead +:+ ip +:+ trail) = true).
    { rewrite !all_chars_append, Hnc, (Hbc lead Hl), (Hbc trail Ht). reflexivity. }
    destruct Hr as [-> | [r ->]].
    - rewrite append_empty, Hhead. now apply first_no_separator.
    - destruct (replace_before_separator "::ffff:" ""
                  (lead +:+ mapped +:+ ip +:+ trail) r ",") as [r' Hr'];
        [discriminate|reflexivity|].
      rewrite <- !append_associative in *. rewrite Hr'.
      rewrite !append_associative in *. rewrite Hhead.
      rewrite <- !append_associative. apply first_before_separator.
      now rewrite !append_associative. }
  unfold normalizedIp.
  destruct (JS.truthy (Some (lead +:+ mapped +:+ ip +:+ trail +:+ rest))) as [h|] eqn:Hh.
  - simpl in Hh. destruct (String.eqb _ ""); [discriminate|]. injection Hh as <-.
    simpl default. rewrite Hfirst. now apply trim_padded.
  - simpl in Hh. destruct (String.eqb_spec (lead +:+ mapped +:+ ip +:+ trail +:+ rest) "")
      as [He|]; [|discriminate].
    simpl default.
    destruct lead; [|discriminate]. destruct Hm as [-> | ->]; [|discriminate].
    destruct ip; [reflexivity|discriminate].
Qed.

(** C10, the claim at a concrete request: the allow list holds an
    IPv4-mapped address and the caller sends exactly that address in the
    header; the gate checks [10.0.0.2], which is not on the list, and
    answers 403. *)
Lemma allow_listed_mapped_address_is_blocked :
  let env := mkEnv (Some "s3cret") (Some "::ffff:10.0.0.2") None in
  let req := mkRequest GET "/currency/balance" None (Some "::ffff:10.0.0.2")
                       (Some "::ffff:10.0.0.2") no_body None in
  let w := world_of (funds_of []) 0 None in
  "::ffff:10.0.0.2" ∈ allowed env /\
  accepted (verifyIP env req w) = false /\
  answer (verifyIP env req w) =
    Some (Respond (mkResponse 403 (ErrorBody "Forbidden: Your IP is not allowed."))) /\
  logged (verifyIP env req w).2 = [(warn, "Blocked request from IP: 10.0.0.2")].
Proof. repeat split. apply list_elem_of_here. Qed.

(** C10 (amended): two requests with the same [x-forwarded-for] header
    get the same decision from the origin gate, whatever their socket
    addresses: the checked address is the header's first comma-separated
    entry after the first ["::ffff:"] is removed, trimmed.  So for a
    header made of blanks, an optional ["::ffff:"], a bare address (no
    comma, no blank, no ["::ffff:"] in it), blanks, and possibly a comma
    and anything after it, the request passes when that bare address is
    on the allow list, and is answered 403 with a warning naming that
    address when it is not. *)
Theorem origin_gate_trusts_forwarded_header (env : Env) (req1 req2 : Request)
    (w1 w2 : World) (h : string) :
  x_forwarded_for req1 = Some h ->
  x_forwarded_for req2 = Some h ->
  accepted (verifyIP env req1 w1) = accepted (verifyIP env req2 w2) /\
  accepted (verifyIP env req1 w1) =
    JS.includes (allowed env) (JS.trim (JS.first "," (JS.replace "::ffff:" "" h))) /\
  (forall lead mapped ip trail rest,
     h = lead +:+ mapped +:+ ip +:+ trail +:+ rest ->
     all_chars JS.is_space lead = true ->
     mapped = "" \/ mapped = "::ffff:" ->
     bare_address ip = true ->
     all_chars JS.is_space trail = true ->
     rest = "" \/ (exists r, rest = String "," r) ->
     (ip ∈ allowed env -> verifyIP env req1 w1 = (Ok (Next req1), w1)) /\
     (ip ∉ allowed env ->
      verifyIP env req1 w1 =
        (Ok (Respond (mkResponse 403 (ErrorBody "Forbidden: Your IP is not allowed."))),
         mkWorld (store w1) (txn w1)
                 (logged w1 ++ [(warn, "Blocked request from IP: " +:+ ip)])
                 (clock w1) (insert_fault w1)))).
Proof.
  intros H1 H2. rewrite !verifyIP_accepted, H1, H2. simpl JS.nullish.
  rewrite normalizedIp_header. split; [reflexivity|]. split; [reflexivity|].
  intros lead mapped ip trail rest Hh Hlead Hmapped Hip Htrail Hrest.
  pose proof (normalizedIp_decorated lead mapped ip trail rest
                Hlead Hmapped Hip Htrail Hrest) as Hchecked.
  rewrite <- Hh in Hchecked.
  unfold verifyIP. cbv zeta. rewrite H1. unfold JS.nullish. rewrite Hchecked.
  destruct (JS.includes (allowed env) ip) eqn:Hinc; split.
  - reflexivity.
  - intros Hout. now apply includes_true_elem_of in Hinc.
  - intros Hin. apply includes_elem_of in Hin. congruence.
  - reflexivity.
Qed.

Lemma origin_gate_trusts_forwarded_header_witness :
  let env := mkEnv (Some "s3cret") (Some "10.0.0.1") (Some "127.0.0.1") in
  let h := " ::ffff:10.0.0.1 , 198.51.100.7" in
  let req1 := mkRequest POST "/currency/pay" None (Some h)
                        (Some "203.0.113.9") no_body None in
  let req2 := mkRequest GET "/currency/balance" None (Some h)
                        (Some "::ffff:198.51.100.7") no_body None in
  let w := world_of (funds_of []) 0 None in
  accepted (verifyIP env req1 w) = accepted (verifyIP env req2 w) /\
  accepted (verifyIP env req1 w) = true /\
  verifyIP env req1 w = (Ok (Next req1), w).
Proof.
  intros env h req1 req2 w.
  destruct (origin_gate_trusts_forwarded_header env req1 req2 w w h
              eq_refl eq_refl) as (Hsame & Hchecked & Hshape).
  split; [exact Hsame|]. split; [exact Hchecked|].
  destruct (Hshape " " "::ffff:" "10.0.0.1" " " ", 198.51.100.7"
              eq_refl eq_refl (or_intror eq_refl) eq_refl eq_refl
              (or_intror (ex_intro _ " 198.51.100.7" eq_refl))) as [Hpass _].
  apply Hpass. apply list_elem_of_here.
Defined.

(** ** The scenarios of the specification, run on the model *)

Example replace_removes_first_prefix_only :
  JS.replace "::ffff:" "" "::ffff:10.0.0.1, ::ffff:10.0.0.2" = "10.0.0.1, ::ffff:10.0.0.2".
Proof. reflexivity. Qed.

Example normalizedIp_forwarded_chain :
  normalizedIp (Some " ::ffff:10.0.0.1 , 198.51.100.7") = "10.0.0.1".
Proof. reflexivity. Qed.

Example normalizedIp_socket_fallback :
  let env := mkEnv None (Some "10.0.0.1") None in
  let req := mkRequest GET "/currency/balance" None None (Some "::ffff:10.0.0.1")
                       no_body None in
  accepted (verifyIP env req (world_of (funds_of []) 0 None)) = true.
Proof. reflexivity. Qed.

Example login_then_balance :
  let env := mkEnv (Some "s3cret") (Some "10.0.0.1") None in
  let w := world_of (funds_of []) 0 None in
  let login_req := mkRequest POST "/currency/login" None None None
                     (mkBody (Some "u1") (Some "Alice") None None None None) None in
  let r := serve cet_platform env login_req w in
  answer r = Some (json (TokenBody "s3cret:u1:Alice")) /\
  answer (serve cet_platform env
            (mkRequest GET "/currency/balance" (Some "Bearer s3cret:u1:Alice")
                       (Some "10.0.0.1") None no_body None) r.2) =
    Some (json (BalanceBody 0)).
Proof. split; reflexivity. Qed.

Example deposit_then_overdraw :
  let w := world_of (funds_of [("u1", mkAccount "Alice" 0); ("u2", mkAccount "Bob" 0)]) 0 None in
  let r1 := deposit (request_of POST "/currency/deposit" "u1"
                       (mkBody None None None (Some 100) None None)) w in
  let r2 := pay (request_of POST "/currency/pay" "u1"
                   (mkBody None None (Some "u2") (Some 150) None None)) r1.2 in
  let r3 := withdraw (request_of POST "/currency/withdraw" "u1"
                        (mkBody None None None None (Some 1) (Some 1000))) r2.2 in
  answer r1 = Some (json (DepositBody 100)) /\
  answer r2 = Some (mkResponse 400 (ErrorBody "Insufficient funds")) /\
  answer r3 = Some (mkResponse 400 (ErrorBody "Insufficient funds")) /\
  user_funds (store r3.2) !! "u1" = Some (mkAccount "Alice" 100) /\
  length (currency_transactions (store r3.2)) = 1%nat.
Proof. repeat split. Qed.

(** One second before the 06:30 boundary and one second after it: both
    claims succeed; a third one later the same morning is refused. *)
Example daily_across_the_boundary :
  let req := request_of POST "/currency/daily" "u1" no_body in
  let boundary := 19800000 in
  let w0 := world_of (funds_of [("u1", mkAccount "Alice" 0)]) (boundary - 1000) None in
  let r1 := daily cet_platform req w0 in
  let r2 := daily cet_platform req
              (mkWorld (store r1.2) None [] (boundary + 1000) None) in
  let r3 := daily cet_platform req
              (mkWorld (store r2.2) None [] (boundary + 3600000) None) in
  answer r1 = Some (json (DailyBody 50)) /\
  answer r2 = Some (json (DailyBody 100)) /\
  answer r3 = Some (mkResponse 429 (RateLimitedBody 23 0)).
Proof. repeat split. Qed.

(** * Further properties of the routes *)

(** ** Login *)

(** X1: POST /currency/login with a signing secret: the account is created
    with balance 0 or, when it exists, renamed with its balance kept; no
    other account changes; the answer is the token signed for the
    identity of the body. *)
Theorem login_upserts_account (P : Platform) (env : Env) (req : Request) (w : World)
    (u n secret : string) :
  JS.truthy (body_uuid (req_body req)) = Some u ->
  JS.truthy (body_name (req_body req)) = Some n ->
  JS.truthy (JWT_SECRET env) = Some secret ->
  let w' := (login P env req w).2 in
  answer (login P env req w) =
    Some (json (TokenBody (jwt_sign P (mkPayload u n) secret))) /\
  user_funds (store w') !! u =
    Some (mkAccount n (from_option balance 0 (user_funds (store w) !! u))) /\
  (forall v, v <> u -> user_funds (store w') !! v = user_funds (store w) !! v) /\
  currency_transactions (store w') = currency_transactions (store w) /\
  daily_rewards (store w') = daily_rewards (store w).
Proof.
  intros Hu Hn Hs w'. subst w'. open_world w. unfold login. open_body req.
  rewrite Hu, Hn. run_handler. rewrite Hs. unfold answer. simpl.
  rewrite lookup_insert_eq.
  split; [reflexivity|]. split; [destruct (funds !! u); reflexivity|].
  split; [|split; reflexivity].
  intros v Hv. now rewrite lookup_insert_ne.
Qed.

Lemma login_upserts_account_witness :
  let env := mkEnv (Some "s3cret") None None in
  let req := mkRequest POST "/currency/login" None None None
               (mkBody (Some "u1") (Some "Alicia") None None None None) None in
  let w := world_of (funds_of [("u1", mkAccount "Alice" 70); ("u2", mkAccount "Bob" 5)]) 0 None in
  let w' := (login cet_platform env req w).2 in
  answer (login cet_platform env req w) = Some (json (TokenBody "s3cret:u1:Alicia")) /\
  user_funds (store w') !! "u1" = Some (mkAccount "Alicia" 70) /\
  user_funds (store w') !! "u2" = Some (mkAccount "Bob" 5).
Proof.
  intros env req w w'.
  destruct (login_upserts_account cet_platform env req w "u1" "Alicia" "s3cret"
              eq_refl eq_refl eq_refl) as (Htok & Hme & Hothers & _).
  split; [exact Htok|]. split; [exact Hme|].
  apply (Hothers "u2"). discriminate.
Defined.

(** X2: without a signing secret the login answers 500, but the upsert was
    sent before the secret is read: the account exists afterwards. *)
Theorem login_without_secret_still_upserts (P : Platform) (env : Env) (req : Request)
    (w : World) (u n : string) :
  JS.truthy (body_uuid (req_body req)) = Some u ->
  JS.truthy (body_name (req_body req)) = Some n ->
  JS.truthy (JWT_SECRET env) = None ->
  let w' := (login P env req w).2 in
  answer (login P env req w) = Some (mkResponse 500 (ErrorBody "Internal server error")) /\
  user_funds (store w') !! u =
    Some (mkAccount n (from_option balance 0 (user_funds (store w) !! u))) /\
  logged w' =
    (logged w ++ [(error, "/currency/login error: Error: JWT_SECRET is not defined")])%list.
Proof.
  intros Hu Hn Hs w'. subst w'. open_world w. unfold login. open_body req.
  rewrite Hu, Hn. run_handler. rewrite Hs. unfold answer. simpl.
  rewrite lookup_insert_eq.
  split; [reflexivity|]. split; [destruct (funds !! u); reflexivity|reflexivity].
Qed.

Lemma login_without_secret_still_upserts_witness :
  let env := mkEnv None None None in
  let req := mkRequest POST "/currency/login" None None None
               (mkBody (Some "u9") (Some "Zed") None None None None) None in
  let w := world_of (funds_of []) 0 None in
  let w' := (login cet_platform env req w).2 in
  answer (login cet_platform env req w) =
    Some (mkResponse 500 (ErrorBody "Internal server error")) /\
  user_funds (store w') !! "u9" = Some (mkAccount "Zed" 0) /\
  logged w' = [(error, "/currency/login error: Error: JWT_SECRET is not defined")].
Proof.
  intros env req w w'.
  apply (login_without_secret_still_upserts cet_platform env req w "u9" "Zed");
    reflexivity.
Defined.

(** ** The bearer gate *)

Lemma split_aux_separator (sep : ascii) (a b : string) :
  all_chars (fun c => negb (Ascii.eqb c sep)) a = true ->
  JS.split_aux sep (a +:+ String sep b) =
    (a, JS.first sep b :: (JS.split_aux sep b).2).
Proof.
  unfold JS.first. induction a as [|c a IH]; simpl.
  - intros _. destruct (JS.split_aux sep b) as [piece pieces].
    now rewrite Ascii.eqb_refl.
  - intros [Hc Ha]%andb_true_iff. rewrite (IH Ha).
    apply negb_true_iff in Hc. now rewrite Hc.
Qed.

Lemma split_second (sep : ascii) (a b : string) :
  all_chars (fun c => negb (Ascii.eqb c sep)) a = true ->
  JS.split sep (a +:+ String sep b) !! 1%nat = Some (JS.first sep b).
Proof.
  intros Ha. unfold JS.split. now rewrite (split_aux_separator sep a b Ha).
Qed.

Lemma truthy_nonempty (a b : string) (c : ascii) :
  JS.truthy (Some (a +:+ String c b)) = Some (a +:+ String c b).
Proof. now destruct a. Qed.

Lemma login_answers_token (P : Platform) (env : Env) (req : Request) (w : World)
    (u n secret : string) :
  JS.truthy (body_uuid (req_body req)) = Some u ->
  JS.truthy (body_name (req_body req)) = Some n ->
  JS.truthy (JWT_SECRET env) = Some secret ->
  answer (login P env req w) =
    Some (json (TokenBody (jwt_sign P (mkPayload u n) secret))).
Proof.
  intros Hu Hn Hs. open_world w. unfold login. open_body req.
  rewrite Hu, Hn. run_handler. now rewrite Hs.
Qed.

(** X3: the token that the login hands out opens the bearer gate: with the
    header ["Bearer " + token] the request is passed on with [user] set
    to the identity that logged in.  The platform must verify what it
    signed, and the token must be one word (the gate reads the header's
    second space-separated piece). *)
Theorem login_token_opens_bearer_gate (P : Platform) (env : Env)
    (login_req req : Request) (w0 w : World) (u n secret : string) :
  JS.truthy (body_uuid (req_body login_req)) = Some u ->
  JS.truthy (body_name (req_body login_req)) = Some n ->
  JS.truthy (JWT_SECRET env) = Some secret ->
  let token := jwt_sign P (mkPayload u n) secret in
  jwt_verify P token secret = Some (mkPayload u n) ->
  token <> "" ->
  all_chars (fun c => negb (Ascii.eqb c " ")) token = true ->
  authorization req = Some ("Bearer " +:+ token) ->
  answer (login P env login_req w0) = Some (json (TokenBody token)) /\
  verifyJWT P env req w = (Ok (Next (set_user req (mkPayload u n))), w) /\
  user_uuid (set_user req (mkPayload u n)) = Some u.
Proof.
  intros Hu Hn Hs token Hverify Hne Hword Hauth.
  split; [|split].
  3: { unfold user_uuid. simpl. revert Hu. unfold JS.truthy.
       destruct (body_uuid (req_body login_req)) as [x|]; [|discriminate].
       destruct (String.eqb_spec x ""); [discriminate|].
       intros [= ->]. destruct (String.eqb_spec u ""); [contradiction|reflexivity]. }
  - exact (login_answers_token P env login_req w0 u n secret Hu Hn Hs).
  - apply (verifyJWT_runs_valid P env req w ("Bearer " +:+ token) token secret).
    + rewrite Hauth. apply (truthy_nonempty "Bearer" token " ").
    + change ("Bearer " +:+ token) with ("Bearer" +:+ String " " token).
      rewrite (split_second " " "Bearer" token eq_refl).
      rewrite first_no_separator by exact Hword.
      simpl. destruct (String.eqb_spec token ""); [contradiction|reflexivity].
    + exact Hs.
    + exact Hverify.
Qed.

Lemma login_token_opens_bearer_gate_witness :
  let env := mkEnv (Some "s3cret") None None in
  let login_req := mkRequest POST "/currency/login" None None None
                     (mkBody (Some "u1") (Some "Alice") None None None None) None in
  let req := mkRequest GET "/currency/balance" (Some "Bearer s3cret:u1:Alice")
                       None None no_body None in
  let w := world_of (funds_of []) 0 None in
  answer (login cet_platform env login_req w) =
    Some (json (TokenBody "s3cret:u1:Alice")) /\
  verifyJWT cet_platform env req w =
    (Ok (Next (set_user req (mkPayload "u1" "Alice"))), w) /\
  user_uuid (set_user req (mkPayload "u1" "Alice")) = Some "u1".
Proof.
  intros env login_req req w.
  apply (login_token_opens_bearer_gate cet_platform env login_req req w w
           "u1" "Alice" "s3cret"); try reflexivity.
  discriminate.
Defined.

(** X4: the bearer gate never looks at the scheme word: two headers that
    differ only in the word before the first space ("Bearer", "Basic",
    anything without a space) get the same decision. *)
Theorem bearer_gate_ignores_scheme (P : Platform) (env : Env) (req1 req2 : Request)
    (w1 w2 : World) (scheme1 scheme2 rest : string) :
  all_chars (fun c => negb (Ascii.eqb c " ")) scheme1 = true ->
  all_chars (fun c => negb (Ascii.eqb c " ")) scheme2 = true ->
  authorization req1 = Some (scheme1 +:+ String " " rest) ->
  authorization req2 = Some (scheme2 +:+ String " " rest) ->
  outcome (verifyJWT P env req1 w1) = outcome (verifyJWT P env req2 w2).
Proof.
  intros H1 H2 Ha1 Ha2. unfold verifyJWT.
  rewrite Ha1, Ha2, !truthy_nonempty.
  rewrite (split_second " " scheme1 rest H1), (split_second " " scheme2 rest H2).
  destruct (JS.truthy (Some (JS.first " " rest))) as [token|]; [|reflexivity].
  unfold try_catch.
  destruct (JS.truthy (JWT_SECRET env)) as [secret|]; [|reflexivity].
  destruct (jwt_verify P token secret); reflexivity.
Qed.

Lemma bearer_gate_ignores_scheme_witness :
  let env := mkEnv (Some "s3cret") None None in
  let req1 := mkRequest GET "/currency/balance" (Some "Bearer s3cret:u1:Alice")
                        None None no_body None in
  let req2 := mkRequest POST "/currency/pay" (Some "Basic s3cret:u1:Alice")
                        None None no_body None in
  let w := world_of (funds_of []) 0 None in
  outcome (verifyJWT cet_platform env req1 w) = outcome (verifyJWT cet_platform env req2 w) /\
  outcome (verifyJWT cet_platform env req2 w) = Some (inr (Some (mkPayload "u1" "Alice"))).
Proof.
  intros env req1 req2 w. split; [|reflexivity].
  apply (bearer_gate_ignores_scheme cet_platform env req1 req2 w w
           "Bearer" "Basic" "s3cret:u1:Alice"); reflexivity.
Defined.

(** X5: a header of one word only (no space) never reaches the verifier: the
    answer is 401 whatever the word is, a valid token included. *)
Theorem bearer_gate_rejects_one_word (P : Platform) (env : Env) (req : Request)
    (w : World) (h : string) :
  authorization req = Some h ->
  h <> "" ->
  all_chars (fun c => negb (Ascii.eqb c " ")) h = true ->
  verifyJWT P env req w =
    (Ok (Respond (mkResponse 401 (ErrorBody "Invalid Authorization format"))), w).
Proof.
  intros Ha Hne Hword. unfold verifyJWT. rewrite Ha. simpl.
  destruct (String.eqb_spec h ""); [contradiction|].
  assert (Hsplit : JS.split " " h = [h]).
  { pose proof (first_no_separator " " h Hword) as Hfirst.
    clear -Hword Hfirst. unfold JS.split, JS.first in *.
    induction h as [|c h IH]; [reflexivity|]. simpl in *.
    apply andb_true_iff in Hword as [Hc Hh]. apply negb_true_iff in Hc.
    destruct (JS.split_aux " " h) as [piece pieces] eqn:E. rewrite Hc in *.
    simpl in *. injection Hfirst as ->.
    specialize (IH Hh eq_refl). now injection IH as ->. }
  now rewrite Hsplit.
Qed.

Lemma bearer_gate_rejects_one_word_witness :
  let env := mkEnv (Some "s3cret") None None in
  let req := mkRequest GET "/currency/balance" (Some "s3cret:u1:Alice")
                       None None no_body None in
  let w := world_of (funds_of []) 0 None in
  verifyJWT cet_platform env req w =
    (Ok (Respond (mkResponse 401 (ErrorBody "Invalid Authorization format"))), w).
Proof.
  intros env req w.
  apply (bearer_gate_rejects_one_word cet_platform env req w "s3cret:u1:Alice");
    [reflexivity|discriminate|reflexivity].
Defined.

(** ** No handler without both gates *)

Lemma verifyJWT_same_data P env req w : same_data w (verifyJWT P env req w).2.
Proof.
  unfold verifyJWT.
  destruct (JS.truthy (authorization req)); [|now repeat split].
  destruct (JS.truthy _); [|now repeat split].
  unfold try_catch.
  destruct (JS.truthy (JWT_SECRET env)); [|now repeat split].
  destruct (jwt_verify P _ _); now repeat split.
Qed.

Lemma verifyIP_same_data env req w : same_data w (verifyIP env req w).2.
Proof. unfold verifyIP. destruct (JS.includes _ _); now repeat split. Qed.

(** What the bearer gate answers by itself is a 401 or a 403, and it
    never throws. *)
Lemma verifyJWT_answers P env req w :
  match (verifyJWT P env req w).1 with
  | Ok (Next r1) => exists decoded, r1 = set_user req decoded
  | Ok (Respond res) => status res = 401 \/ status res = 403
  | Throw _ => False
  end.
Proof.
  unfold verifyJWT.
  destruct (JS.truthy (authorization req)); [|now left].
  destruct (JS.truthy _); [|now left].
  unfold try_catch.
  destruct (JS.truthy (JWT_SECRET env)); [|now right].
  destruct (jwt_verify P _ _) as [decoded|]; [|now right].
  now exists decoded.
Qed.

(** X6: every request below [/currency] (in any letter case) stands behind
    both gates, unless it is a POST whose path matches the login route
    ([/currency/login] in any letter case, with or without one trailing
    slash).  Without an authorization header the answer is 401 and
    nothing changes, not even the logger.  From an address outside the
    allow list the answer is 401 or 403 whatever the token is, and the
    store, the open transaction and the clock are as before: no handler
    ran. *)
Theorem routes_stand_behind_both_gates (P : Platform) (env : Env) (req : Request)
    (w : World) :
  under "/currency" (path req) = true ->
  Method_eqb POST (method req) && matches "/currency/login" (path req) = false ->
  (JS.truthy (authorization req) = None ->
   serve P env req w =
     (Ok (mkResponse 401 (ErrorBody "Missing Authorization header")), w)) /\
  (JS.includes (allowed env)
     (normalizedIp (JS.nullish (x_forwarded_for req) (remoteAddress req))) = false ->
   same_data w (serve P env req w).2 /\
   exists res, answer (serve P env req w) = Some res /\
               (status res = 401 \/ status res = 403)).
Proof.
  intros Hunder Hlogin. rewrite (serve_behind_gates P env req w Hunder Hlogin).
  unfold bind. split.
  - intros Hnone. now rewrite verifyJWT_runs_missing.
  - intros Hip.
    pose proof (verifyJWT_same_data P env req w) as Hsame.
    pose proof (verifyJWT_answers P env req w) as Hans.
    destruct (verifyJWT P env req w) as [[[r1|res]|e] w1]; simpl in *.
    + destruct Hans as [decoded ->].
      pose proof (verifyIP_same_data env (set_user req decoded) w1) as Hsame2.
      unfold verifyIP in *. simpl in *. rewrite Hip in *.
      unfold bind, logger, ret in *. simpl in *. split.
      * unfold same_data in *. simpl in *. tauto.
      * eexists. split; [reflexivity|]. now right.
    + split; [exact Hsame|]. now exists res.
    + contradiction.
Qed.

Lemma routes_stand_behind_both_gates_witness :
  let env := mkEnv (Some "s3cret") (Some "10.0.0.1") None in
  let d := funds_of [("u1", mkAccount "Alice" 100); ("u2", mkAccount "Bob" 0)] in
  let w := world_of d 0 None in
  let body := mkBody None None (Some "u2") (Some 30) None None in
  let anonymous := mkRequest POST "/Currency/Pay/" None (Some "10.0.0.1") None body None in
  let outsider := mkRequest POST "/currency/pay" (Some "Bearer s3cret:u1:Alice")
                            (Some "203.0.113.9") None body None in
  let get_login := mkRequest GET "/currency/login/" None (Some "10.0.0.1") None
                             no_body None in
  serve cet_platform env anonymous w =
    (Ok (mkResponse 401 (ErrorBody "Missing Authorization header")), w) /\
  serve cet_platform env get_login w =
    (Ok (mkResponse 401 (ErrorBody "Missing Authorization header")), w) /\
  store (serve cet_platform env outsider w).2 = d /\
  answer (serve cet_platform env outsider w) =
    Some (mkResponse 403 (ErrorBody "Forbidden: Your IP is not allowed.")).
Proof.
  intros env d w body anonymous outsider get_login.
  destruct (routes_stand_behind_both_gates cet_platform env anonymous w eq_refl eq_refl)
    as (Hanon & _).
  destruct (routes_stand_behind_both_gates cet_platform env get_login w eq_refl eq_refl)
    as (Hget & _).
  destruct (routes_stand_behind_both_gates cet_platform env outsider w eq_refl eq_refl)
    as (_ & Hout).
  split; [now apply Hanon|]. split; [now apply Hget|].
  destruct (Hout eq_refl) as ((Hstore & _) & _).
  split; [exact Hstore|reflexivity].
Defined.

Lemma login_runs_token (P : Platform) (env : Env) (req : Request) (w : World)
    (u n secret : string) :
  JS.truthy (body_uuid (req_body req)) = Some u ->
  JS.truthy (body_name (req_body req)) = Some n ->
  JS.truthy (JWT_SECRET env) = Some secret ->
  login P env req w =
    (Ok (json (TokenBody (jwt_sign P (mkPayload u n) secret))),
     mkWorld (SQL.upsert_user u n (store w)).2 (txn w) (logged w) (clock w)
             (insert_fault w)).
Proof.
  intros Hu Hn Hs. open_world w. unfold login. open_body req.
  rewrite Hu, Hn. run_handler. now rewrite Hs.
Qed.

(** X7: the login is registered before the gates.  A POST whose path is
    [/currency/login], in any letter case and with or without one
    trailing slash, reaches the login handler with no token and from any
    address: with a uuid and a name in its body and the secret set, the
    answer is the token and the account is created with balance 0 or
    renamed; with no parsed body the destructuring throws, the answer is
    the framework's 500 and nothing changes. *)
Theorem login_is_not_gated (P : Platform) (env : Env) (req : Request) (w : World) :
  method req = POST ->
  matches "/currency/login" (path req) = true ->
  (forall u n secret,
     JS.truthy (body_uuid (req_body req)) = Some u ->
     JS.truthy (body_name (req_body req)) = Some n ->
     JS.truthy (JWT_SECRET env) = Some secret ->
     answer (serve P env req w) =
       Some (json (TokenBody (jwt_sign P (mkPayload u n) secret))) /\
     user_funds (store (serve P env req w).2) !! u =
       Some (mkAccount n (from_option balance 0 (user_funds (store w) !! u)))) /\
  (req_body req = None ->
   serve P env req w = (Ok (mkResponse 500 HtmlPage), w)).
Proof.
  intros Hm Hp. unfold serve, currencyRoutes.
  rewrite dispatch_route_hit by (rewrite Hm, Hp; reflexivity).
  unfold try_catch. split.
  - intros u n secret Hu Hn Hs.
    rewrite (login_runs_token P env req w u n secret Hu Hn Hs).
    unfold answer, SQL.upsert_user, SQL.set_funds. cbn [fst snd store user_funds].
    rewrite lookup_insert_eq.
    split; [reflexivity|]. now destruct (user_funds (store w) !! u).
  - intros Hbody. unfold login. rewrite Hbody, destructure_none. reflexivity.
Qed.

Lemma login_is_not_gated_witness :
  let env := mkEnv (Some "s3cret") (Some "10.0.0.1") None in
  let req (b : Body) :=
    mkRequest POST "/Currency/LOGIN/" None None (Some "203.0.113.9") b None in
  let w := world_of (funds_of []) 0 None in
  let named := mkBody (Some "u1") (Some "Alice") None None None None in
  answer (serve cet_platform env (req named) w) =
    Some (json (TokenBody "s3cret:u1:Alice")) /\
  user_funds (store (serve cet_platform env (req named) w).2) !! "u1" =
    Some (mkAccount "Alice" 0) /\
  serve cet_platform env (req no_body) w = (Ok (mkResponse 500 HtmlPage), w).
Proof.
  intros env req w named.
  destruct (login_is_not_gated cet_platform env (req named) w eq_refl eq_refl)
    as (Htoken & _).
  destruct (login_is_not_gated cet_platform env (req no_body) w eq_refl eq_refl)
    as (_ & Hthrow).
  destruct (Htoken "u1" "Alice" "s3cret" eq_refl eq_refl eq_refl) as (Hans & Hrow).
  split; [exact Hans|]. split; [exact Hrow|]. now apply Hthrow.
Defined.

(** ** Read paths *)

(** X8: the balance query, the leaderboard, the mob-limit check and the two
    gates never write: store, open transaction and clock are the same
    after them on every path. *)
Theorem read_paths_never_write (P : Platform) (env : Env) (req : Request) (w : World) :
  same_data w (get_balance req w).2 /\
  same_data w (top req w).2 /\
  same_data w (check_mob_limit req w).2 /\
  same_data w (verifyJWT P env req w).2 /\
  same_data w (verifyIP env req w).2.
Proof.
  split; [|split; [|split; [|split]]].
  - open_world w. unfold get_balance.
    destruct (user_uuid req); [|now repeat split].
    run_handler. destruct (funds !! _); now repeat split.
  - open_world w. unfold top. run_handler. now repeat split.
  - open_world w. unfold check_mob_limit.
    destruct (user_uuid req); [|now repeat split].
    run_handler. destruct (mobs !! _); now repeat split.
  - apply verifyJWT_same_data.
  - apply verifyIP_same_data.
Qed.

(** The balance query answers the stored balance of the caller. *)
Lemma get_balance_reads_stored_balance (req : Request) (w : World) (u : string)
    (a : Account) :
  user_uuid req = Some u ->
  user_funds (store w) !! u = Some a ->
  get_balance req w = (Ok (json (BalanceBody (balance a))), w).
Proof.
  intros Hu Ha. open_world w. unfold get_balance. rewrite Hu.
  run_handler. now rewrite Ha.
Qed.

(** ** The mob limit *)

(** X9: before any mark GET /currency/mob-limit answers
    [limitReached = false]; after POST /currency/mob-limit it answers
    [true] for the rest of that date and [false] on any other date;
    marking again at any instant of the same date changes nothing, and at
    any instant the mark records that instant's date; the funds and the
    audit log are never touched. *)
Theorem mob_limit_mark_then_check (req : Request) (w : World) (u : string) (t' : Z) :
  user_uuid req = Some u ->
  let w1 := (mark_mob_limit req w).2 in
  let w2 := (mark_mob_limit req (tick t' w1)).2 in
  (mob_limit_reached (store w) !! u = None ->
   answer (check_mob_limit req w) = Some (json (MobLimitBody false))) /\
  answer (mark_mob_limit req w) = Some (json MobMarkedBody) /\
  answer (check_mob_limit req (tick t' w1)) =
    Some (json (MobLimitBody (bool_decide (SQL.current_date t' = SQL.current_date (clock w))))) /\
  (SQL.current_date t' = SQL.current_date (clock w) -> store w2 = store w1) /\
  mob_limit_reached (store w2) !! u = Some (SQL.current_date t') /\
  user_funds (store w1) = user_funds (store w) /\
  currency_transactions (store w1) = currency_transactions (store w).
Proof.
  intros Hu w1 w2. subst w1 w2. open_world w.
  unfold mark_mob_limit, check_mob_limit, tick.
  rewrite Hu. run_handler. unfold answer. simpl.
  rewrite !lookup_insert_eq, insert_insert_eq.
  split; [now intros ->|]. split; [reflexivity|].
  split; [|split; [|repeat split]].
  - do 3 f_equal.
    destruct (Z.eqb_spec (ck / 86400000) (t' / 86400000)) as [E|E];
      case_bool_decide; try reflexivity; congruence.
  - intros Hday. now rewrite Hday.
Qed.

Lemma mob_limit_mark_then_check_witness :
  let req := request_of POST "/currency/mob-limit" "u1" no_body in
  let w := world_of (funds_of [("u1", mkAccount "Alice" 3)]) 100000000 None in
  let w1 := (mark_mob_limit req w).2 in
  answer (check_mob_limit req (tick 172799999 w1)) = Some (json (MobLimitBody true)) /\
  answer (check_mob_limit req (tick 172800000 w1)) = Some (json (MobLimitBody false)) /\
  store (mark_mob_limit req (tick 172799999 w1)).2 = store w1 /\
  mob_limit_reached (store (mark_mob_limit req (tick 172800000 w1)).2) !! "u1" = Some 2.
Proof.
  intros req w w1.
  destruct (mob_limit_mark_then_check req w "u1" 172799999 eq_refl)
    as (_ & _ & Hsame & Hagain & _).
  destruct (mob_limit_mark_then_check req w "u1" 172800000 eq_refl)
    as (_ & _ & Hnext & _ & Hday & _).
  split; [exact Hsame|]. split; [exact Hnext|].
  split; [apply Hagain; reflexivity | exact Hday].
Defined.

(** ** What a committed mutation writes *)

(** X10: a deposit credits exactly [amount] to the caller, leaves every other
    account as it was, appends one record whose [balance_after] is the
    balance now stored, and the balance query then answers that value. *)
Theorem deposit_credits_and_logs (req : Request) (w : World) (u : string) (amt : Z)
    (a : Account) :
  user_uuid req = Some u ->
  txn w = None ->
  insert_fault w = None ->
  body_amount (req_body req) = Some amt ->
  0 < amt ->
  user_funds (store w) !! u = Some a ->
  let w' := (deposit req w).2 in
  answer (deposit req w) = Some (json (DepositBody (balance a + amt))) /\
  user_funds (store w') !! u = Some (mkAccount (name a) (balance a + amt)) /\
  (forall v, v <> u -> user_funds (store w') !! v = user_funds (store w) !! v) /\
  currency_transactions (store w') =
    (currency_transactions (store w) ++
       [mkTx u "deposit" amt None None None None (Some (balance a + amt))])%list /\
  txn w' = None /\
  answer (get_balance req w') = Some (json (BalanceBody (balance a + amt))).
Proof.
  intros Hu Htxn Hflt Hamt Hpos Ha w'. subst w'.
  rewrite (deposit_runs_committed req w u Hu Htxn amt a Hamt Hpos Ha).
  unfold told, committed. rewrite Hflt. unfold answer. simpl.
  assert (Hme : <[u:=credit amt a]> (user_funds (store w)) !! u =
                Some (mkAccount (name a) (balance a + amt)))
    by apply lookup_insert_eq.
  split; [reflexivity|]. split; [exact Hme|].
  split; [intros v Hv; now rewrite lookup_insert_ne|].
  split; [reflexivity|]. split; [reflexivity|].
  match goal with
  | |- context [get_balance req ?w1] =>
      now rewrite (get_balance_reads_stored_balance req w1 u
                     (mkAccount (name a) (balance a + amt)) Hu Hme)
  end.
Qed.

Lemma deposit_credits_and_logs_witness :
  let req := request_of POST "/currency/deposit" "u1"
               (mkBody None None None (Some 100) None None) in
  let w := world_of (funds_of [("u1", mkAccount "Alice" 5); ("u2", mkAccount "Bob" 9)]) 0 None in
  let w' := (deposit req w).2 in
  answer (deposit req w) = Some (json (DepositBody 105)) /\
  user_funds (store w') !! "u2" = Some (mkAccount "Bob" 9) /\
  currency_transactions (store w') =
    [mkTx "u1" "deposit" 100 None None None None (Some 105)] /\
  answer (get_balance req w') = Some (json (BalanceBody 105)).
Proof.
  intros req w w'.
  destruct (deposit_credits_and_logs req w "u1" 100 (mkAccount "Alice" 5)
              eq_refl eq_refl eq_refl eq_refl ltac:(lia) eq_refl)
    as (Hans & _ & Hothers & Hlog & _ & Hbal).
  split; [exact Hans|]. split; [apply (Hothers "u2"); discriminate|].
  split; [exact Hlog|exact Hbal].
Defined.

(** X11: a pay between two different accounts debits the sender and credits
    the recipient by the same amount, leaves every other account as it
    was, and appends one record whose [balance_after] is the sender's
    stored balance. *)
Theorem pay_moves_funds (req : Request) (w : World) (u to : string) (amt : Z)
    (a b : Account) :
  user_uuid req = Some u ->
  txn w = None ->
  insert_fault w = None ->
  JS.truthy (body_to_uuid (req_body req)) = Some to ->
  body_amount (req_body req) = Some amt ->
  0 < amt <= balance a ->
  u <> to ->
  user_funds (store w) !! u = Some a ->
  user_funds (store w) !! to = Some b ->
  let w' := (pay req w).2 in
  answer (pay req w) = Some (json (PayBody (balance a - amt))) /\
  user_funds (store w') !! u = Some (mkAccount (name a) (balance a - amt)) /\
  user_funds (store w') !! to = Some (mkAccount (name b) (balance b + amt)) /\
  (forall v, v <> u -> v <> to -> user_funds (store w') !! v = user_funds (store w) !! v) /\
  currency_transactions (store w') =
    (currency_transactions (store w) ++
       [mkTx u "pay" amt (Some u) (Some to) None None (Some (balance a - amt))])%list /\
  txn w' = None.
Proof.
  intros Hu Htxn Hflt Hto Hamt [Hpos Hle] Hne Ha Hb w'. subst w'.
  assert (Hb' : <[u := credit (- amt) a]> (user_funds (store w)) !! to = Some b)
    by now rewrite lookup_insert_ne.
  rewrite (pay_runs_committed req w u Hu Htxn to amt a b Hto Hamt Hpos Ha Hle Hb').
  unfold told, committed. rewrite Hflt. unfold answer. simpl.
  split; [reflexivity|].
  split; [rewrite lookup_insert_ne by congruence; rewrite lookup_insert_eq;
          unfold credit; do 2 f_equal; lia|].
  split; [now rewrite lookup_insert_eq|].
  split; [intros v Hv1 Hv2; now rewrite !lookup_insert_ne by congruence|].
  split; reflexivity.
Qed.

Lemma pay_moves_funds_witness :
  let req := request_of POST "/currency/pay" "u1"
               (mkBody None None (Some "u2") (Some 30) None None) in
  let w := world_of (funds_of [("u1", mkAccount "Alice" 100); ("u2", mkAccount "Bob" 1)]) 0 None in
  let w' := (pay req w).2 in
  answer (pay req w) = Some (json (PayBody 70)) /\
  user_funds (store w') !! "u1" = Some (mkAccount "Alice" 70) /\
  user_funds (store w') !! "u2" = Some (mkAccount "Bob" 31).
Proof.
  intros req w w'.
  destruct (pay_moves_funds req w "u1" "u2" 30 (mkAccount "Alice" 100) (mkAccount "Bob" 1)
              eq_refl eq_refl eq_refl eq_refl eq_refl)
    as (Hans & Hfrom & Hto & _); try reflexivity; [simpl; lia|discriminate|].
  split; [exact Hans|]. split; [exact Hfrom|exact Hto].
Defined.

(** X12: a withdraw with a positive count and an amount within the balance
    debits [count * denomination] (denomination 1000 when the body has
    none), leaves every other account as it was, and appends one record
    with the denomination, the count and the balance now stored. *)
Theorem withdraw_debits_and_logs (req : Request) (w : World) (u : string) (cnt : Z)
    (a : Account) :
  user_uuid req = Some u ->
  txn w = None ->
  insert_fault w = None ->
  body_count (req_body req) = Some cnt ->
  0 < cnt ->
  user_funds (store w) !! u = Some a ->
  let denom := default 1000 (body_denomination (req_body req)) in
  cnt * denom <= balance a ->
  let w' := (withdraw req w).2 in
  answer (withdraw req w) =
    Some (json (WithdrawBody (cnt * denom) (balance a - cnt * denom) denom cnt)) /\
  user_funds (store w') !! u = Some (mkAccount (name a) (balance a - cnt * denom)) /\
  (forall v, v <> u -> user_funds (store w') !! v = user_funds (store w) !! v) /\
  currency_transactions (store w') =
    (currency_transactions (store w) ++
       [mkTx u "withdraw" (cnt * denom) None None (Some denom) (Some cnt)
             (Some (balance a - cnt * denom))])%list /\
  txn w' = None.
Proof.
  intros Hu Htxn Hflt Hcnt Hpos Ha denom Hle w'. subst w'.
  rewrite (withdraw_runs_committed req w u Hu Htxn cnt a Hcnt Hpos Ha Hle).
  fold denom. unfold told, committed. rewrite Hflt. unfold answer. simpl.
  replace (balance a + - (cnt * denom)) with (balance a - cnt * denom) by lia.
  split; [reflexivity|].
  split; [rewrite lookup_insert_eq; unfold credit; do 2 f_equal; lia|].
  split; [intros v Hv; now rewrite lookup_insert_ne|].
  split; reflexivity.
Qed.

Lemma withdraw_debits_and_logs_witness :
  let req := request_of POST "/currency/withdraw" "u1"
               (mkBody None None None None (Some 2) None) in
  let w := world_of (funds_of [("u1", mkAccount "Alice" 2500)]) 0 None in
  let w' := (withdraw req w).2 in
  answer (withdraw req w) = Some (json (WithdrawBody 2000 500 1000 2)) /\
  user_funds (store w') !! "u1" = Some (mkAccount "Alice" 500) /\
  currency_transactions (store w') =
    [mkTx "u1" "withdraw" 2000 None None (Some 1000) (Some 2) (Some 500)].
Proof.
  intros req w w'.
  destruct (withdraw_debits_and_logs req w "u1" 2 (mkAccount "Alice" 2500)
              eq_refl eq_refl eq_refl eq_refl ltac:(lia) eq_refl ltac:(simpl; lia))
    as (Hans & Hme & _ & Hlog & _).
  split; [exact Hans|]. split; [exact Hme|exact Hlog].
Defined.

(** ** Money accounting *)

Lemma sum_balances_insert (f : gmap string Account) (k : string) (a a' : Account) :
  f !! k = Some a ->
  map_fold (fun _ x acc => balance x + acc) 0 (<[k := a']> f) =
  map_fold (fun _ x acc => balance x + acc) 0 f - balance a + balance a'.
Proof.
  intros Hk. rewrite <- insert_delete_eq.
  rewrite map_fold_insert_L; [|intros; lia|apply lookup_delete_eq].
  rewrite (map_fold_delete_L _ _ k a f); [lia|intros; lia|exact Hk].
Qed.

(** X13: a pay never creates or destroys money: on every path (rejected,
    rolled back, committed, committed with a failed append, paid to
    oneself) the sum of all balances is what it was. *)
Theorem pay_conserves_total (req : Request) (w : World) :
  txn w = None ->
  total (store (pay req w).2) = total (store w).
Proof.
  intros Htxn. open_world w; subst. unfold pay. open_body req; [|reflexivity].
  destruct (user_uuid req), (JS.truthy (field_to_uuid fields)),
    (field_amount fields); try reflexivity.
  crunch; try reflexivity; unfold total; simpl;
    repeat match goal with
           | H : ?f !! _ = Some _ |- context [map_fold _ _ (<[_ := _]> ?f)] =>
               rewrite (sum_balances_insert _ _ _ _ H)
           end; simpl; simplify_eq; lia.
Qed.

Lemma pay_conserves_total_witness :
  let w := world_of (funds_of [("u1", mkAccount "Alice" 100); ("u2", mkAccount "Bob" 1)])
                    0 (Some "disk full") in
  let req := request_of POST "/currency/pay" "u1"
               (mkBody None None (Some "u2") (Some 30) None None) in
  total (store (pay req w).2) = 101 /\
  user_funds (store (pay req w).2) !! "u2" = Some (mkAccount "Bob" 31).
Proof.
  intros w req. split; [|reflexivity].
  rewrite (pay_conserves_total req w eq_refl). reflexivity.
Defined.

(** X14: the other mutations move the total by exactly what they answer: a
    committed deposit adds [amount], a committed withdraw removes
    [count * denomination], a successful daily claim adds the reward. *)
Theorem mutations_move_total_by_amount (P : Platform) (req : Request) (w : World)
    (u : string) (a : Account) :
  user_uuid req = Some u ->
  txn w = None ->
  user_funds (store w) !! u = Some a ->
  (forall amt, body_amount (req_body req) = Some amt -> 0 < amt ->
     total (store (deposit req w).2) = total (store w) + amt) /\
  (forall cnt, body_count (req_body req) = Some cnt -> 0 < cnt ->
     cnt * default 1000 (body_denomination (req_body req)) <= balance a ->
     total (store (withdraw req w).2) =
       total (store w) - cnt * default 1000 (body_denomination (req_body req))) /\
  (alreadyClaimed (SQL.select_last_claim u (store w)).1 (getLastReset P (clock w)) = false ->
     total (store (daily P req w).2) = total (store w) + DAILY_REWARD_AMOUNT).
Proof.
  intros Hu Htxn Ha. split; [|split].
  - intros amt Hamt Hpos.
    rewrite (deposit_runs_committed req w u Hu Htxn amt a Hamt Hpos Ha).
    unfold committed, total. destruct (insert_fault w); simpl;
      rewrite (sum_balances_insert _ _ _ _ Ha); simpl; lia.
  - intros cnt Hcnt Hpos Hle.
    rewrite (withdraw_runs_committed req w u Hu Htxn cnt a Hcnt Hpos Ha Hle).
    unfold committed, total. destruct (insert_fault w); simpl;
      rewrite (sum_balances_insert _ _ _ _ Ha); simpl; lia.
  - intros Hel. rewrite (daily_runs_eligible P req w u a Hu Htxn Ha Hel).
    unfold total. simpl. rewrite (sum_balances_insert _ _ _ _ Ha). simpl. lia.
Qed.

Lemma mutations_move_total_by_amount_witness :
  let w := world_of (funds_of [("u1", mkAccount "Alice" 100); ("u2", mkAccount "Bob" 1)])
                    39600000 None in
  total (store (deposit (request_of POST "/currency/deposit" "u1"
                           (mkBody None None None (Some 9) None None)) w).2) = 110 /\
  total (store (daily cet_platform (request_of POST "/currency/daily" "u1" no_body) w).2) = 151.
Proof.
  intros w.
  split.
  - destruct (mutations_move_total_by_amount cet_platform
                (request_of POST "/currency/deposit" "u1"
                   (mkBody None None None (Some 9) None None))
                w "u1" (mkAccount "Alice" 100) eq_refl eq_refl eq_refl) as (Hdep & _).
    rewrite (Hdep 9 eq_refl ltac:(lia)). reflexivity.
  - destruct (mutations_move_total_by_amount cet_platform
                (request_of POST "/currency/daily" "u1" no_body)
                w "u1" (mkAccount "Alice" 100) eq_refl eq_refl eq_refl) as (_ & _ & Hday).
    rewrite (Hday eq_refl). reflexivity.
Defined.

(** ** The audit log is append-only *)

Lemma log_grew_by_refl (n : nat) (d : Db) : log_grew_by n d d.
Proof. exists []. rewrite app_nil_r. repeat split; [simpl; lia|constructor]. Qed.

Lemma log_grew_by_trans (n m : nat) (d1 d2 d3 : Db) :
  log_grew_by n d1 d2 -> log_grew_by m d2 d3 -> log_grew_by (n + m) d1 d3.
Proof.
  intros (l1 & E1 & L1 & F1) (l2 & E2 & L2 & F2). exists (l1 ++ l2)%list.
  rewrite E2, E1, <- app_assoc. repeat split.
  - rewrite length_app. lia.
  - now apply Forall_app.
Qed.

Lemma dispatch_within (Q : Db -> Db -> Prop) (stack : list Layer) :
  (forall d, Q d d) ->
  Forall (layer_within Q) stack ->
  forall req w, txn w = None -> Q (store w) (store (dispatch stack req w).2).
Proof.
  intros Qrefl. induction 1 as [|l stack Hl _ IH]; intros req w Htxn; [apply Qrefl|].
  destruct l as [m p handler|prefix middleware]; simpl in *.
  - destruct (Method_eqb m (method req) && matches p (path req)).
    + now apply Hl.
    + now apply IH.
  - destruct (under prefix (path req)); [|now apply IH].
    unfold bind. destruct (Hl req w) as (Hstore & Htx & _).
    destruct (middleware req w) as [[[req'|res]|e] w']; simpl in *.
    + rewrite <- Hstore. apply IH. congruence.
    + rewrite Hstore. apply Qrefl.
    + rewrite Hstore. apply Qrefl.
Qed.

(** Closing one leaf of a handler run: nothing was appended, or one
    record of a logged action. *)
Lemma log_grew_by_same (n : nat) (d d' : Db) :
  currency_transactions d' = currency_transactions d -> log_grew_by n d d'.
Proof.
  intros E. exists []. rewrite app_nil_r. repeat split; [exact E|simpl; lia|constructor].
Qed.

Ltac log_leaf :=
  first [ apply log_grew_by_same; reflexivity
        | eexists [_]; simpl; repeat split; [lia|repeat constructor; tauto] ].

Lemma serve_log_grew P env req w :
  txn w = None -> log_grew_by 1 (store w) (store (serve P env req w).2).
Proof.
  rewrite serve_world.
  apply dispatch_within; [apply log_grew_by_refl|]. unfold currencyRoutes.
  repeat (apply Forall_cons_2; [|]); [..|apply Forall_nil_2]; simpl;
    try (intros r w0 Htxn; open_world w0; subst).
  - unfold login. open_body r; [|apply log_grew_by_refl].
    destruct (JS.truthy (field_uuid fields)), (JS.truthy (field_name fields));
      try apply log_grew_by_refl.
    crunch; log_leaf.
  - intros r w0. apply verifyJWT_same_data.
  - intros r w0. apply verifyIP_same_data.
  - unfold get_balance. destruct (user_uuid r); [|apply log_grew_by_refl].
    crunch; log_leaf.
  - unfold pay. open_body r; [|apply log_grew_by_refl].
    destruct (user_uuid r), (JS.truthy (field_to_uuid fields)),
      (field_amount fields); try apply log_grew_by_refl.
    crunch; log_leaf.
  - unfold deposit. open_body r; [|apply log_grew_by_refl].
    destruct (user_uuid r), (field_amount fields); try apply log_grew_by_refl.
    crunch; log_leaf.
  - unfold withdraw. open_body r; [|apply log_grew_by_refl].
    destruct (user_uuid r), (field_count fields); try apply log_grew_by_refl.
    crunch; log_leaf.
  - unfold top. run_handler. log_leaf.
  - unfold mark_mob_limit. destruct (user_uuid r); [|apply log_grew_by_refl].
    run_handler. log_leaf.
  - unfold check_mob_limit. destruct (user_uuid r); [|apply log_grew_by_refl].
    crunch; log_leaf.
  - unfold daily. destruct (user_uuid r); [|apply log_grew_by_refl].
    crunch; try destruct (diff_hours_minutes _ _); log_leaf.
Qed.

(** X15: whatever requests arrive, in whatever order, the transaction log is
    only ever extended at its end: the records that were there stay, in
    place; each request adds at most one, and what is added is a pay, a
    deposit or a withdraw record. *)
Theorem audit_log_is_append_only (P : Platform) (env : Env) (l : list Arrival) (d : Db) :
  log_grew_by (length l) d (handle_all P env d l).
Proof.
  revert d. induction l as [|a l IH]; intros d; [apply log_grew_by_refl|].
  unfold handle_all in *. cbn [fold_left length].
  apply (log_grew_by_trans 1 (length l) d (handle P env d a)); [|apply IH].
  unfold handle. now apply (serve_log_grew P env (request a) (world_of d _ _)).
Qed.

(** ** The daily reward, claimed twice *)

(** X16: after a successful claim, a second claim at any instant whose reset
    boundary is not after the first claim is refused with 429 and writes
    nothing. *)
Theorem daily_second_claim_is_refused (P : Platform) (req : Request) (w : World)
    (u : string) (a : Account) (t' : Z) :
  user_uuid req = Some u ->
  txn w = None ->
  user_funds (store w) !! u = Some a ->
  alreadyClaimed (SQL.select_last_claim u (store w)).1 (getLastReset P (clock w)) = false ->
  getLastReset P t' <= clock w ->
  let w1 := (daily P req w).2 in
  answer (daily P req w) = Some (json (DailyBody (balance a + DAILY_REWARD_AMOUNT))) /\
  (exists hours minutes,
     answer (daily P req (tick t' w1)) = Some (mkResponse 429 (RateLimitedBody hours minutes))) /\
  (daily P req (tick t' w1)).2 = tick t' w1.
Proof.
  intros Hu Htxn Ha Hel Hwin w1. subst w1.
  rewrite (daily_runs_eligible P req w u a Hu Htxn Ha Hel). simpl.
  split; [reflexivity|].
  match goal with
  | |- context [daily P req ?w2] =>
      rewrite (daily_runs_claimed P req w2 u
                 (mkAccount (name a) (balance a + DAILY_REWARD_AMOUNT)) Hu eq_refl)
  end.
  - split; [|reflexivity]. eexists _, _. reflexivity.
  - simpl. apply lookup_insert_eq.
  - unfold alreadyClaimed, SQL.select_last_claim, tick. simpl.
    rewrite lookup_insert_eq. simpl. now apply Z.leb_le.
Qed.

Lemma daily_second_claim_is_refused_witness :
  let req := request_of POST "/currency/daily" "u1" no_body in
  (* first claim at 06:30:01 local time, second at 06:29:59 the next day *)
  let w := world_of (funds_of [("u1", mkAccount "Alice" 0)]) 19801000 None in
  let w1 := (daily cet_platform req w).2 in
  answer (daily cet_platform req w) = Some (json (DailyBody 50)) /\
  answer (daily cet_platform req (tick 106199000 w1)) =
    Some (mkResponse 429 (RateLimitedBody 0 0)) /\
  user_funds (store (daily cet_platform req (tick 106199000 w1)).2) !! "u1" =
    Some (mkAccount "Alice" 50).
Proof.
  intros req w w1.
  destruct (daily_second_claim_is_refused cet_platform req w "u1" (mkAccount "Alice" 0)
              106199000 eq_refl eq_refl eq_refl eq_refl)
    as (Hfirst & _ & Hsame).
  - vm_compute. discriminate.
  - split; [exact Hfirst|]. split; [reflexivity|].
    fold w1 in Hsame. rewrite Hsame. reflexivity.
Defined.

(** ** Failures and rejected input *)

(** X17: in pay, withdraw and the daily claim every answer other than 200
    leaves the store as it was and the transaction closed (the log
    append working). *)
Theorem failed_mutations_roll_back (P : Platform) (req : Request) (w : World) :
  txn w = None ->
  insert_fault w = None ->
  (forall r, answer (pay req w) = Some r -> status r <> 200 ->
     store (pay req w).2 = store w /\ txn (pay req w).2 = None) /\
  (forall r, answer (withdraw req w) = Some r -> status r <> 200 ->
     store (withdraw req w).2 = store w /\ txn (withdraw req w).2 = None) /\
  (forall r, answer (daily P req w) = Some r -> status r <> 200 ->
     store (daily P req w).2 = store w /\ txn (daily P req w).2 = None).
Proof.
  intros Htxn Hflt. split; [|split]; intros r Hr Hs.
  - now apply (pay_failure_rolls_back req w r).
  - now apply (withdraw_failure_rolls_back req w r).
  - now apply (daily_failure_rolls_back P req w r).
Qed.

Lemma failed_mutations_roll_back_witness :
  let d := funds_of [("u1", mkAccount "Alice" 10)] in
  let w := world_of d 0 None in
  let req := request_of POST "/currency/pay" "u1"
               (mkBody None None (Some "ghost") (Some 5) None None) in
  answer (pay req w) = Some (mkResponse 400 (ErrorBody "Recipient not found")) /\
  store (pay req w).2 = d /\ txn (pay req w).2 = None.
Proof.
  intros d w req. split; [reflexivity|].
  destruct (failed_mutations_roll_back cet_platform req w eq_refl eq_refl) as (Hpay & _).
  apply (Hpay (mkResponse 400 (ErrorBody "Recipient not found"))); [reflexivity|].
  discriminate.
Defined.



(** ** The origin gate: defaults and fallbacks *)

Lemma allowed_nonempty (env : Env) (ip : string) :
  ip ∈ allowed env -> ip <> "".
Proof.
  unfold allowed. simpl. intros Hin ->.
  assert (Hfalsy : forall o, JS.truthy o <> Some "").
  { intros [x|]; simpl; [|discriminate].
    destruct (String.eqb_spec x ""); [discriminate|congruence]. }
  destruct (JS.truthy (ALLOWED_IP_ADDRESS env)) as [x|] eqn:E1;
    destruct (JS.truthy (ALLOWED_IP_ADDRESS_LOCAL env)) as [y|] eqn:E2;
    repeat match goal with
           | H : _ ∈ _ :: _ |- _ => apply elem_of_cons in H as [H|H]
           | H : _ ∈ [] |- _ => now apply elem_of_nil in H
           end; subst;
    first [now apply (Hfalsy _ E1) | now apply (Hfalsy _ E2)].
Qed.

(** X19: the gate denies by default.  With neither allow-list variable set
    (or both empty) every request is blocked; and whatever the allow
    list is, a request whose checked address comes out empty (no header
    and no socket address, an empty header, a header starting with a
    comma) is blocked. *)
Theorem origin_gate_denies_by_default (env : Env) (req : Request) (w : World) :
  (JS.truthy (ALLOWED_IP_ADDRESS env) = None ->
   JS.truthy (ALLOWED_IP_ADDRESS_LOCAL env) = None ->
   accepted (verifyIP env req w) = false) /\
  (normalizedIp (JS.nullish (x_forwarded_for req) (remoteAddress req)) = "" ->
   accepted (verifyIP env req w) = false).
Proof.
  rewrite verifyIP_accepted. split.
  - intros H1 H2. unfold allowed. simpl. now rewrite H1, H2.
  - intros ->. apply not_true_iff_false. intros Hin%includes_true_elem_of.
    now apply allowed_nonempty in Hin.
Qed.

Lemma origin_gate_denies_by_default_witness :
  let w := world_of (funds_of []) 0 None in
  accepted (verifyIP (mkEnv (Some "s") None (Some ""))
              (mkRequest GET "/currency/top" None (Some "10.0.0.1") None no_body None) w)
    = false /\
  accepted (verifyIP (mkEnv (Some "s") (Some "10.0.0.1") None)
              (mkRequest GET "/currency/top" None (Some "") (Some "10.0.0.1") no_body None) w)
    = false.
Proof.
  intros w. split.
  - now apply (proj1 (origin_gate_denies_by_default _ _ _)).
  - now apply (proj2 (origin_gate_denies_by_default _ _ _)).
Defined.

Lemma replace_mapped_prefix (ip : string) :
  JS.replace "::ffff:" "" ("::ffff:" +:+ ip) = ip.
Proof.
  assert (Hempty : String.prefix "" ip = true) by now destruct ip.
  simpl. change ("" +:+ ip) with ip. rewrite Hempty, Nat.sub_0_r.
  apply substring_all.
Qed.

(** X20: without the forwarded header the socket address is checked, and an
    IPv4-mapped socket address is matched by its IPv4 part: a request
    from [::ffff:a.b.c.d] passes when [a.b.c.d] is allow-listed. *)
Theorem origin_gate_falls_back_to_socket (env : Env) (req : Request) (w : World)
    (ip : string) :
  x_forwarded_for req = None ->
  (remoteAddress req = Some ip \/ remoteAddress req = Some ("::ffff:" +:+ ip)) ->
  ip ∈ allowed env ->
  bare_address ip = true ->
  verifyIP env req w = (Ok (Next req), w).
Proof.
  intros Hx Hr Hin Hbare. apply verifyIP_runs_allowed. rewrite Hx. simpl JS.nullish.
  apply includes_elem_of.
  destruct Hr as [-> | ->]; [now rewrite normalizedIp_bare|].
  assert (E : normalizedIp (Some ("::ffff:" +:+ ip)) = ip); [|now rewrite E].
  rewrite <- (normalizedIp_bare ip Hbare) at 2.
  unfold normalizedIp. do 2 f_equal.
  change (JS.truthy (Some ("::ffff:" +:+ ip))) with (Some ("::ffff:" +:+ ip)).
  cbn [default from_option id].
  rewrite replace_mapped_prefix.
  unfold bare_address in Hbare. apply andb_true_iff in Hbare as [Hocc _].
  apply negb_true_iff in Hocc.
  assert (Hraw : default "" (JS.truthy (Some ip)) = ip).
  { simpl. destruct (String.eqb_spec ip ""); [now subst|reflexivity]. }
  now rewrite Hraw, replace_no_occurrence.
Qed.

Lemma origin_gate_falls_back_to_socket_witness :
  let env := mkEnv None (Some "10.0.0.1") (Some "127.0.0.1") in
  let req := mkRequest GET "/currency/balance" None None (Some "::ffff:127.0.0.1")
                       no_body None in
  let w := world_of (funds_of []) 0 None in
  verifyIP env req w = (Ok (Next req), w).
Proof.
  intros env req w.
  apply (origin_gate_falls_back_to_socket env req w "127.0.0.1");
    [reflexivity|now right| |reflexivity].
  apply list_elem_of_further, list_elem_of_here.
Defined.

(** ** The leaderboard *)

(** X21: GET /currency/top lists [min 10 n] of the [n] accounts, and they are
    the richest: an account that is not listed has a balance no larger
    than any listed one. *)
Theorem leaderboard_lists_the_richest (req : Request) (w : World) :
  exists rows,
    top req w = (Ok (json (TopBody rows)), w) /\
    length rows = Nat.min 10 (size (user_funds (store w))) /\
    forall id a, user_funds (store w) !! id = Some a ->
      (name a, balance a) ∈ rows \/ forall r, r ∈ rows -> balance a <= r.2.
Proof.
  exists (SQL.select_top (store w)).1. split; [now destruct w|].
  unfold SQL.select_top. cbn [fst].
  set (l := merge_sort SQL.richer (map_to_list (user_funds (store w)))).
  assert (Hperm : l ≡ₚ map_to_list (user_funds (store w)))
    by apply merge_sort_Permutation.
  split.
  - now rewrite length_fmap, length_take, Hperm, length_map_to_list.
  - intros id a Ha.
    assert (Hin : (id, a) ∈ l) by (rewrite Hperm; now apply elem_of_map_to_list).
    rewrite <- (take_drop 10 l) in Hin. apply elem_of_app in Hin as [Hin|Hin].
    + left. apply list_elem_of_fmap. now exists (id, a).
    + right. intros r [[id' a'] [-> Hr]]%list_elem_of_fmap. simpl.
      assert (Hs : StronglySorted SQL.richer (take 10 l ++ drop 10 l)).
      { rewrite take_drop. apply StronglySorted_merge_sort; apply _. }
      apply (StronglySorted_app_1_elem_of _ _ _ _ _ Hs Hr Hin).
Qed.


(** * Start-up: the environment and the ports *)

Lemma check_vars_fold (env : gmap string string) (keys : list string)
    (lines : list (Level * string)) (hasError : bool) :
  fold_left (check_var env) keys (lines, hasError) =
    ((lines ++ ((fun k => (error, "Missing required env variable: " +:+ k)) <$>
                  filter (is_missing env) keys))%list,
     hasError || bool_decide (filter (is_missing env) keys <> [])).
Proof.
  revert lines hasError. induction keys as [|k keys IH]; intros lines hasError; simpl.
  - now rewrite app_nil_r, orb_false_r.
  - rewrite filter_cons. unfold check_var at 2. fold (is_missing env k).
    destruct (decide (is_missing env k)) as [Hm|Hm].
    + unfold is_missing in Hm. rewrite Hm. simpl. rewrite IH, <- app_assoc. simpl.
      now rewrite orb_true_r.
    + unfold is_missing in Hm. destruct (JS.truthy (env !! k)); [|contradiction].
      now rewrite IH.
Qed.

(** X22: [validateEnv] logs one error line for every required variable that
    is unset or empty, in the order of [REQUIRED_VARS], then either the
    closing error line and exit code 1 (some variable is missing) or the
    info line and no exit (none is). *)
Theorem validateEnv_reports_every_missing_var (REQUIRED_VARS : list string)
    (env : gmap string string) :
  let missing := filter (is_missing env) REQUIRED_VARS in
  validateEnv REQUIRED_VARS env =
    ((((fun k => (error, "Missing required env variable: " +:+ k)) <$> missing) ++
      [if bool_decide (missing <> [])
       then (error, "Environment validation failed. Exiting")
       else (info, "All required environment variables are set")])%list,
     if bool_decide (missing <> []) then Some 1 else None) /\
  ((validateEnv REQUIRED_VARS env).2 = Some 1 <->
   exists key, key ∈ REQUIRED_VARS /\ (env !! key = None \/ env !! key = Some "")).
Proof.
  intros missing.
  assert (Hrun : validateEnv REQUIRED_VARS env =
    ((((fun k => (error, "Missing required env variable: " +:+ k)) <$> missing) ++
      [if bool_decide (missing <> [])
       then (error, "Environment validation failed. Exiting")
       else (info, "All required environment variables are set")])%list,
     if bool_decide (missing <> []) then Some 1 else None)).
  { unfold validateEnv. rewrite check_vars_fold. simpl. fold missing.
    now destruct (bool_decide (missing <> [])). }
  split; [exact Hrun|]. rewrite Hrun. simpl.
  assert (Hmiss : forall key, is_missing env key <->
                              env !! key = None \/ env !! key = Some "").
  { intros key. unfold is_missing, JS.truthy.
    destruct (env !! key) as [x|]; [|tauto].
    destruct (String.eqb_spec x ""); subst; split; try tauto; try discriminate.
    intros [[=]|[=]]. contradiction. }
  case_bool_decide as Hne; split.
  - intros _. destruct missing as [|key rest] eqn:E; [contradiction|].
    assert (Hin : key ∈ filter (is_missing env) REQUIRED_VARS)
      by (fold missing; rewrite E; apply list_elem_of_here).
    apply list_elem_of_filter in Hin as [Hk Hin]. exists key. split; [exact Hin|].
    now apply Hmiss.
  - reflexivity.
  - discriminate.
  - intros (key & Hin & Hk). exfalso.
    assert (Hin' : key ∈ missing)
      by (apply list_elem_of_filter; split; [now apply Hmiss|exact Hin]).
    rewrite Hne in Hin'. now apply elem_of_nil in Hin'.
Qed.

Lemma digit_of_numeral (d : Z) :
  0 <= d <= 9 -> digit (ascii_of_nat (48 + Z.to_nat d)) = Some d.
Proof.
  intros H.
  assert (d = 0 \/ d = 1 \/ d = 2 \/ d = 3 \/ d = 4 \/ d = 5 \/ d = 6 \/ d = 7 \/
          d = 8 \/ d = 9) as Hd by lia.
  repeat (destruct Hd as [->|Hd]; [reflexivity|]). now subst.
Qed.

Lemma digits_stop (rest : string) (acc : option Z) :
  stops_digits rest -> digits rest acc = acc.
Proof. destruct rest as [|c rest]; simpl; [reflexivity|]. now intros ->. Qed.

Lemma digits_numeral (ds : list Z) (rest : string) (acc : option Z) :
  Forall (fun d => 0 <= d <= 9) ds ->
  stops_digits rest ->
  digits (numeral ds +:+ rest) acc =
    match ds with
    | [] => acc
    | _ => Some (fold_left (fun a d => 10 * a + d) ds (default 0 acc))
    end.
Proof.
  intros Hds Hrest. revert acc.
  induction Hds as [|d ds Hd Hds IH]; intros acc.
  - now apply digits_stop.
  - change (numeral (d :: ds) +:+ rest)
      with (String (ascii_of_nat (48 + Z.to_nat d)) (numeral ds +:+ rest)).
    cbn [digits]. rewrite (digit_of_numeral d Hd), IH. now destruct ds.
Qed.

(** X23: the listening port: 5000 when [PORT] is unset or empty; the value of
    the leading decimal digits when [PORT] starts with a digit, whatever
    follows them (for values a JavaScript number holds exactly); [NaN] when [PORT] starts with anything but a digit, a
    sign or a blank.  The database port is left to the driver
    ([undefined]) when [DB_PORT] is unset or empty. *)
Theorem ports_from_the_environment (env : gmap string string) :
  ((env !! "PORT" = None \/ env !! "PORT" = Some "") -> PORT env = Some 5000) /\
  (forall ds rest,
     ds <> [] -> Forall (fun d => 0 <= d <= 9) ds -> stops_digits rest ->
     value ds <= 9007199254740991 ->
     env !! "PORT" = Some (numeral ds +:+ rest) -> PORT env = Some (value ds)) /\
  (forall c rest,
     env !! "PORT" = Some (String c rest) ->
     digit c = None -> JS.is_space c = false -> c <> "-"%char -> c <> "+"%char ->
     PORT env = None) /\
  ((env !! "DB_PORT" = None \/ env !! "DB_PORT" = Some "") -> DB_PORT env = None) /\
  (forall ds rest,
     ds <> [] -> Forall (fun d => 0 <= d <= 9) ds -> stops_digits rest ->
     value ds <= 9007199254740991 ->
     env !! "DB_PORT" = Some (numeral ds +:+ rest) ->
     DB_PORT env = Some (Some (value ds))).
Proof.
  assert (Hnum : forall ds rest,
            ds <> [] -> Forall (fun d => 0 <= d <= 9) ds -> stops_digits rest ->
            JS.truthy (Some (numeral ds +:+ rest)) = Some (numeral ds +:+ rest) /\
            parseInt (numeral ds +:+ rest) = Some (value ds)).
  { intros [|d ds] rest Hne Hds Hrest; [contradiction|].
    pose proof (digits_numeral (d :: ds) rest None Hds Hrest) as Hdigits.
    inversion Hds as [|? ? Hd _]; subst.
    assert (d = 0 \/ d = 1 \/ d = 2 \/ d = 3 \/ d = 4 \/ d = 5 \/ d = 6 \/ d = 7 \/
            d = 8 \/ d = 9) as Hcase by lia.
    split; [reflexivity|].
    unfold parseInt.
    repeat (destruct Hcase as [->|Hcase]; [exact Hdigits|]). subst. exact Hdigits. }
  split; [|split; [|split; [|split]]].
  - unfold PORT. now intros [-> | ->].
  - intros ds rest Hne Hds Hrest _ Henv. unfold PORT. rewrite Henv.
    destruct (Hnum ds rest Hne Hds Hrest) as [-> Hp]. exact Hp.
  - intros c rest Henv Hd Hsp Hminus Hplus. unfold PORT. rewrite Henv.
    simpl. unfold parseInt. simpl. rewrite Hsp.
    assert (Hdigits : digits (String c rest) None = None) by (simpl; now rewrite Hd).
    destruct c as [[] [] [] [] [] [] [] []]; try exact Hdigits; congruence.
  - unfold DB_PORT. now intros [-> | ->].
  - intros ds rest Hne Hds Hrest _ Henv. unfold DB_PORT. rewrite Henv.
    destruct (Hnum ds rest Hne Hds Hrest) as [-> Hp]. simpl. now rewrite Hp.
Qed.

Lemma ports_from_the_environment_witness :
  PORT ∅ = Some 5000 /\
  PORT {[ "PORT" := "8080" ]} = Some 8080 /\
  PORT {[ "PORT" := "8080/tcp" ]} = Some 8080 /\
  PORT {[ "PORT" := "http" ]} = None /\
  DB_PORT {[ "DB_PORT" := "5432" ]} = Some (Some 5432).
Proof.
  split; [now apply (proj1 (ports_from_the_environment ∅)); left|].
  split.
  { destruct (ports_from_the_environment {[ "PORT" := "8080" ]}) as (_ & H & _).
    apply (H [8; 0; 8; 0] ""); [discriminate| |exact I|cbv; discriminate|reflexivity].
    repeat constructor; lia. }
  split.
  { destruct (ports_from_the_environment {[ "PORT" := "8080/tcp" ]}) as (_ & H & _).
    apply (H [8; 0; 8; 0] "/tcp"); [discriminate| |reflexivity|cbv; discriminate|reflexivity].
    repeat constructor; lia. }
  split.
  { destruct (ports_from_the_environment {[ "PORT" := "http" ]}) as (_ & _ & H & _).
    apply (H "h"%char "ttp"); try reflexivity; discriminate. }
  destruct (ports_from_the_environment {[ "DB_PORT" := "5432" ]}) as (_ & _ & _ & _ & H).
  apply (H [5; 4; 3; 2] ""); [discriminate| |exact I|cbv; discriminate|reflexivity].
  repeat constructor; lia.
Defined.

(** * The generated list of required variables *)

#[global] Instance code_unit_le_total : Total code_unit_le.
Proof. intros s1 s2. apply String.leb_total. Qed.

Lemma set_add_spec (acc : list string) (v : string) :
  NoDup acc ->
  NoDup (set_add acc v) /\ forall x, x ∈ set_add acc v <-> x ∈ acc \/ x = v.
Proof.
  intros Hnd. unfold set_add. case_bool_decide as Hin.
  - split; [exact Hnd|]. intros x. split; [tauto|]. now intros [H| ->].
  - split.
    + apply NoDup_app. repeat split; [exact Hnd| |apply NoDup_singleton].
      intros x Hx ->%list_elem_of_singleton. contradiction.
    + intros x. rewrite elem_of_app, list_elem_of_singleton. tauto.
Qed.

Lemma set_add_fold (vars acc : list string) :
  NoDup acc ->
  NoDup (fold_left set_add vars acc) /\
  forall x, x ∈ fold_left set_add vars acc <-> x ∈ acc \/ x ∈ vars.
Proof.
  revert acc. induction vars as [|v vars IH]; intros acc Hnd; simpl.
  - split; [exact Hnd|]. intros x. rewrite elem_of_nil. tauto.
  - destruct (set_add_spec acc v Hnd) as [Hnd' Hmem].
    destruct (IH _ Hnd') as [Hnd'' Hmem'']. split; [exact Hnd''|].
    intros x. rewrite Hmem'', Hmem, elem_of_cons. tauto.
Qed.

(** X24: the list written to [requiredVars.ts]: every variable found in a
    readable file is in it, nothing else is, each one once however many
    files mention it, in code-unit order; a file that cannot be read is
    skipped and does not stop the others. *)
Theorem required_vars_are_sorted_and_unique
    (findEnvVarsInFile : string -> option (list string)) (allFiles : list string) :
  let out := sortedVars findEnvVarsInFile allFiles in
  Sorted code_unit_le out /\
  NoDup out /\
  forall v, v ∈ out <->
    exists file vars, file ∈ allFiles /\ findEnvVarsInFile file = Some vars /\ v ∈ vars.
Proof.
  intros out. subst out. unfold sortedVars.
  set (step := fun acc file =>
                 match findEnvVarsInFile file with
                 | Some vars => fold_left set_add vars acc
                 | None => acc
                 end).
  assert (Hfold : forall files acc, NoDup acc ->
            NoDup (fold_left step files acc) /\
            forall v, v ∈ fold_left step files acc <->
              v ∈ acc \/
              exists file vars, file ∈ files /\ findEnvVarsInFile file = Some vars /\ v ∈ vars).
  { induction files as [|f files IH]; intros acc Hnd; simpl.
    - split; [exact Hnd|]. intros v. split; [tauto|].
      intros [H|(file & vars & Hin & _)]; [exact H|]. now apply elem_of_nil in Hin.
    - assert (Hstep : NoDup (step acc f) /\
                      forall v, v ∈ step acc f <->
                        v ∈ acc \/ exists vars, findEnvVarsInFile f = Some vars /\ v ∈ vars).
      { unfold step. destruct (findEnvVarsInFile f) as [vars|].
        - destruct (set_add_fold vars acc Hnd) as [Hnd' Hmem]. split; [exact Hnd'|].
          intros v. rewrite Hmem. split.
          + intros [H|H]; [now left|right; eauto].
          + intros [H|(vars' & [= <-] & H)]; tauto.
        - split; [exact Hnd|]. intros v. split; [tauto|].
          intros [H|(vars' & [=] & _)]. exact H. }
      destruct Hstep as [Hnd' Hmem]. destruct (IH _ Hnd') as [Hnd'' Hmem''].
      split; [exact Hnd''|]. intros v. rewrite Hmem'', Hmem. split.
      + intros [[H|(vars & Hf & H)]|(file & vars & Hin & Hf & H)].
        * now left.
        * right. exists f, vars. split; [apply list_elem_of_here|tauto].
        * right. exists file, vars. split; [now apply list_elem_of_further|tauto].
      + intros [H|(file & vars & Hin & Hf & H)]; [tauto|].
        apply elem_of_cons in Hin as [->|Hin]; [left; right; eauto|].
        right. eauto. }
  destruct (Hfold allFiles [] (NoDup_nil_2)) as [Hnd Hmem].
  split; [apply Sorted_merge_sort; apply _|].
  split; [now rewrite merge_sort_Permutation|].
  intros v. rewrite merge_sort_Permutation, Hmem, elem_of_nil. tauto.
Qed.

Example required_vars_of_three_files :
  let find := fun file =>
    if String.eqb file "db/index.ts" then Some ["DB_USER"; "DB_PORT"; "DB_PORT"]
    else if String.eqb file "server.ts" then Some ["PORT"; "DB_USER"]
    else None in
  tsContent (sortedVars find ["db/index.ts"; "locked.ts"; "server.ts"]) =
    "const REQUIRED_VARS: string[] = [" +:+ LF +:+
    "  " +:+ QUOTE +:+ "DB_PORT" +:+ QUOTE +:+ "," +:+ LF +:+
    "  " +:+ QUOTE +:+ "DB_USER" +:+ QUOTE +:+ "," +:+ LF +:+
    "  " +:+ QUOTE +:+ "PORT" +:+ QUOTE +:+ "," +:+ LF +:+
    "];" +:+ LF +:+ LF +:+ "export default REQUIRED_VARS;" +:+ LF.
Proof. reflexivity. Qed.
